(** * yota: form nodes and lazily resolved validator bindings

    A shallow embedding of [yota/nodes.py] and of the binding classes of
    [yota/validators.py] ([ActionWrapper], [Check]), with the properties of
    the specification stated and settled against it.

    Python objects are kept as the interpreter has them: an instance is a
    class together with its [__dict__]; attribute reads go through the
    instance dictionary and then through the classes of the method
    resolution order; list objects live in a store and are reached through
    their identity, so that two attributes holding the same list see each
    other's [append]. *)

From Stdlib Require Import ZArith String Ascii List Bool Lia.
From stdpp Require Import base tactics option list strings pretty gmap.

Local Open Scope string_scope.
Local Open Scope Z_scope.

(** ** Values *)

(** Identity of a list object, and of a node instance. *)
Abbreviation loc := positive.
Abbreviation oid := positive.

(** Immutable scalars. *)
Inductive atom : Type :=
| ANone
| ABool (b : bool)
| AInt (z : Z)
| AStr (s : string).

(** The values an attribute, a keyword argument or a list item can hold:
    scalars, a reference to a list object, a dict literal with scalar
    values (the shape of an error record, [{'message': ..., 'block': ...}])
    and a bound method. *)
Inductive value : Type :=
| VAtom (a : atom)
| VList (l : loc)
| VDict (items : list (string * atom))
| VMethod (qualname : string).

Abbreviation VNone := (VAtom ANone).
Abbreviation VBool b := (VAtom (ABool b)).
Abbreviation VInt z := (VAtom (AInt z)).
Abbreviation VStr s := (VAtom (AStr s)).

#[global] Instance atom_eq_dec : EqDecision atom.
Proof. solve_decision. Defined.

#[global] Instance value_eq_dec : EqDecision value.
Proof. solve_decision. Defined.

(** ** Exceptions *)

(** The classes of the errors the two modules raise or can meet.  A class a
    validator defines itself is [UserException name base]. *)
Inductive exn_class : Type :=
| TypeError
| ValueError
| AttributeError
| KeyError
| NotCallableException
| InvalidContextException
| FormDataAccessException
| UserException (name : string) (base : exn_class).

(** An exception instance: its class and the text [str(e)] gives. *)
Record exn : Type := Exn { exc_class : exn_class; exc_str : string }.

#[global] Instance exn_class_eq_dec : EqDecision exn_class.
Proof. solve_decision. Defined.

#[global] Instance exn_eq_dec : EqDecision exn.
Proof. solve_decision. Defined.

(** Modelled from the spec: the module [yota.exceptions], which declares
    [NotCallableException], [InvalidContextException] and
    [FormDataAccessException], is not among the sources; the three are
    taken as direct subclasses of [Exception], which is all the taxonomy of
    the specification says about them.  [is_TypeError] is the test an
    [except TypeError] clause performs. *)
Fixpoint is_TypeError (c : exn_class) : bool :=
  match c with
  | TypeError => true
  | UserException _ base => is_TypeError base
  | _ => false
  end.

(** ** Outcomes and the state-and-exception monad *)

Inductive outcome (A : Type) : Type :=
| Return (a : A)
| Raise (e : exn).
Arguments Return {A} a.
Arguments Raise {A} e.

#[global] Instance outcome_ret : MRet outcome := fun A a => Return a.
#[global] Instance outcome_bind : MBind outcome := fun A B f m =>
  match m with
  | Return a => f a
  | Raise e => Raise e
  end.

(** A computation over a store [S]: it ends with a value or an exception,
    and in both cases with the store as the statements run so far left
    it. *)
Definition M (S A : Type) : Type := S → outcome A * S.

Definition ret {S A} (a : A) : M S A := fun s => (Return a, s).
Definition raise {S A} (e : exn) : M S A := fun s => (Raise e, s).
Definition bind {S A B} (m : M S A) (k : A → M S B) : M S B := fun s =>
  match m s with
  | (Return a, s') => k a s'
  | (Raise e, s') => (Raise e, s')
  end.
Definition gets {S A} (f : S → A) : M S A := fun s => (Return (f s), s).
Definition modify {S} (f : S → S) : M S unit := fun s => (Return tt, f s).
Definition lift {S A} (f : S → outcome A) : M S A := fun s => (f s, s).

#[global] Instance M_ret {S} : MRet (M S) := fun A => ret.
#[global] Instance M_bind {S} : MBind (M S) := fun A B k m => bind m k.

(** [try: body except: handler] with a bare [except]. *)
Definition try_except_all {S A} (body handler : M S A) : M S A := fun s =>
  match body s with
  | (Return a, s') => (Return a, s')
  | (Raise _, s') => handler s'
  end.

(** ** The store *)

Inductive node_class : Type :=
| Node | BaseNode | ListNode | ButtonNode | EntryNode | TextareaNode
| SubmitNode | LeaderNode.

#[global] Instance node_class_eq_dec : EqDecision node_class.
Proof. solve_decision. Defined.

(** A node instance: its class and its [__dict__]. *)
Record instance : Type :=
  mk_instance { inst_class : node_class; inst_dict : gmap string value }.

#[global] Instance instance_inhabited : Inhabited instance :=
  populate (mk_instance Node ∅).

(** The store: the list objects, the node instances, and the one class
    attribute the code assigns, [Node._create_counter]. *)
Record world : Type :=
  mk_world { lists : gmap loc (list value);
             objects : gmap oid instance;
             create_counter : Z }.

Definition set_lists (f : gmap loc (list value) → gmap loc (list value))
    (w : world) : world :=
  mk_world (f (lists w)) (objects w) (create_counter w).
Definition set_objects (f : gmap oid instance → gmap oid instance)
    (w : world) : world :=
  mk_world (lists w) (f (objects w)) (create_counter w).
Definition set_create_counter (f : Z → Z) (w : world) : world :=
  mk_world (lists w) (objects w) (f (create_counter w)).

(** A reference always points at a live object in Python; the total
    lookups only make the primitives below total. *)
Definition the_object (w : world) (o : oid) : instance := objects w !!! o.
Definition the_list (w : world) (l : loc) : list value := lists w !!! l.

(** ** Builtins on strings *)

(** A [str] is held as the UTF-8 encoding of its code points: one byte for
    a code point of ASCII, and for any other a leading byte followed by
    bytes of the form [10xxxxxx]. *)
Definition is_continuation (c : ascii) : bool :=
  let n := nat_of_ascii c in ((128 <=? n) && (n <? 192))%nat.

Fixpoint is_ascii (s : string) : bool :=
  match s with
  | EmptyString => true
  | String c rest => (nat_of_ascii c <? 128)%nat && is_ascii rest
  end.

(** The bytes that begin a code point. *)
Fixpoint leading_bytes (s : string) : nat :=
  match s with
  | EmptyString => 0
  | String c rest =>
      if is_continuation c then leading_bytes rest else S (leading_bytes rest)
  end.

(** [len(s)]: the number of code points.  The first byte of a text begins
    one, and so does every later byte that continues none. *)
Definition str_len (s : string) : nat :=
  match s with
  | EmptyString => 0
  | String _ rest => S (leading_bytes rest)
  end.

(** [s.startswith(prefix)]. *)
Definition str_startswith (s prefix : string) : bool := String.prefix prefix s.

(** [x in s] for two strings: [x] occurs in [s]. *)
Definition str_contains (s x : string) : bool :=
  match String.index 0 x s with
  | Some _ => true
  | None => false
  end.

Definition ascii_upper (c : ascii) : ascii :=
  let n := nat_of_ascii c in
  if ((97 <=? n) && (n <=? 122))%nat then ascii_of_nat (n - 32) else c.

Definition ascii_lower (c : ascii) : ascii :=
  let n := nat_of_ascii c in
  if ((65 <=? n) && (n <=? 90))%nat then ascii_of_nat (n + 32) else c.

Fixpoint str_lower (s : string) : string :=
  match s with
  | EmptyString => EmptyString
  | String c rest => String (ascii_lower c) (str_lower rest)
  end.

(** [s.capitalize()] on a text of ASCII: the first character in upper case
    and the others in lower case. *)
Definition ascii_capitalize (s : string) : string :=
  match s with
  | EmptyString => EmptyString
  | String c rest => String (ascii_upper c) (str_lower rest)
  end.

(** The bytes that continue the code point begun before [s], and the
    characters after them. *)
Fixpoint str_chars_from (s : string) : string * list string :=
  match s with
  | EmptyString => (EmptyString, [])
  | String c rest =>
      let '(continued, chars) := str_chars_from rest in
      if is_continuation c then (String c continued, chars)
      else (EmptyString, String c continued :: chars)
  end.

(** The characters of a string, as iterating over it yields them: one
    string for each code point. *)
Definition str_chars (s : string) : list string :=
  match str_chars_from s with
  | (EmptyString, chars) => chars
  | (continued, chars) => continued :: chars
  end.

(** [d[k]] read and [k in d] on an association list. *)
Fixpoint assoc {A} (k : string) (l : list (string * A)) : option A :=
  match l with
  | [] => None
  | (k', v) :: rest => if decide (k = k') then Some v else assoc k rest
  end.

(** ** Classes *)

(** The list objects the class bodies create: [Node._requires],
    [Node._ignores], [Node.errors] and [ListNode._requires]. *)
Definition Node__requires : loc := 1%positive.
Definition Node__ignores : loc := 2%positive.
Definition Node_errors : loc := 3%positive.
Definition ListNode__requires : loc := 4%positive.

(** The attributes each class body binds.  A function of a class reads as
    a bound method through an instance.  [__doc__], [__module__] and the
    attributes of [object] are left out: all their names start with two
    underscores, [get_context] drops such names before it reads them and
    nothing else in the sources asks for them. *)
Definition class_dict (w : world) (c : node_class) : list (string * value) :=
  match c with
  | Node =>
      [ ("_create_counter", VInt (create_counter w));
        ("_requires", VList Node__requires);
        ("_ignores", VList Node__ignores);
        ("_attr_name", VNone);
        ("template", VNone);
        ("errors", VList Node_errors);
        ("data", VStr "");
        ("validator", VNone);
        ("label", VBool true);
        ("__init__", VMethod "Node.__init__");
        ("add_error", VMethod "Node.add_error");
        ("set_identifiers", VMethod "Node.set_identifiers");
        ("resolve_data", VMethod "Node.resolve_data");
        ("get_context", VMethod "Node.get_context") ]
  | BaseNode =>
      [ ("base", VStr "horiz.html"); ("css_class", VStr "");
        ("css_style", VStr "") ]
  | ListNode =>
      [ ("template", VStr "list"); ("_requires", VList ListNode__requires) ]
  | ButtonNode => [ ("template", VStr "button") ]
  | EntryNode => [ ("template", VStr "entry") ]
  | TextareaNode =>
      [ ("template", VStr "textarea"); ("rows", VStr "5");
        ("columns", VStr "10") ]
  | SubmitNode => [ ("template", VStr "submit") ]
  | LeaderNode => [ ("set_identifiers", VMethod "LeaderNode.set_identifiers") ]
  end.

(** Method resolution order, [object] left out. *)
Definition mro (c : node_class) : list node_class :=
  match c with
  | Node => [Node]
  | BaseNode => [BaseNode; Node]
  | ListNode => [ListNode; BaseNode; Node]
  | ButtonNode => [ButtonNode; BaseNode; Node]
  | EntryNode => [EntryNode; BaseNode; Node]
  | TextareaNode => [TextareaNode; BaseNode; Node]
  | SubmitNode => [SubmitNode; BaseNode; Node]
  | LeaderNode => [LeaderNode; Node]
  end.

Definition class_name (c : node_class) : string :=
  match c with
  | Node => "Node" | BaseNode => "BaseNode" | ListNode => "ListNode"
  | ButtonNode => "ButtonNode" | EntryNode => "EntryNode"
  | TextareaNode => "TextareaNode" | SubmitNode => "SubmitNode"
  | LeaderNode => "LeaderNode"
  end.

(** The store as the two class statements of [nodes.py] leave it: the four
    class-level lists, no instance, the creation counter at 0. *)
Definition initial_world : world :=
  mk_world
    (<[Node__requires := []]>
       (<[Node__ignores := [VStr "template"; VStr "validator"]]>
          (<[Node_errors := []]>
             (<[ListNode__requires := [VStr "items"]]> ∅))))
    ∅ 0.

(** ** Attribute access *)

(** The first class of the resolution order that binds [name]. *)
Definition class_getattr (w : world) (c : node_class) (name : string)
    : option value :=
  foldr (fun k later =>
           match assoc name (class_dict w k) with
           | Some v => Some v
           | None => later
           end) None (mro c).

(** What [getattr(self, name)] finds: the instance dictionary first, the
    classes next. *)
Definition py_getattr (w : world) (self : oid) (name : string) : option value :=
  match inst_dict (the_object w self) !! name with
  | Some v => Some v
  | None => class_getattr w (inst_class (the_object w self)) name
  end.

Definition no_attribute (type name : string) : exn :=
  Exn AttributeError ("'" +:+ type +:+ "' object has no attribute '" +:+ name
                      +:+ "'").

Definition getattr_in (w : world) (self : oid) (name : string) : outcome value :=
  match py_getattr w self name with
  | Some v => Return v
  | None => Raise (no_attribute (class_name (inst_class (the_object w self))) name)
  end.

Definition getattr (self : oid) (name : string) : M world value :=
  lift (fun w => getattr_in w self name).

Definition hasattr (self : oid) (name : string) : M world bool :=
  gets (fun w => bool_decide (is_Some (py_getattr w self name))).

Definition set_dict (f : gmap string value → gmap string value) (self : oid)
    (w : world) : world :=
  set_objects
    <[self := mk_instance (inst_class (the_object w self))
                (f (inst_dict (the_object w self)))]> w.

Definition setattr (self : oid) (name : string) (v : value) : M world unit :=
  modify (set_dict <[name := v]> self).

(** [delattr(self, name)] removes an entry of the instance dictionary, and
    fails when there is none, also when a class binds the name. *)
Definition delattr (self : oid) (name : string) : M world unit := fun w =>
  match inst_dict (the_object w self) !! name with
  | Some _ => (Return tt, set_dict (delete name) self w)
  | None => (Raise (Exn AttributeError name), w)
  end.

(** [dir(self)]: the names of the instance dictionary and of the class
    dictionaries.  Python gives them sorted and without repetition; the
    one use of [dir] builds a dict from them, where neither shows. *)
Definition py_dir (w : world) (self : oid) : list string :=
  (map_to_list (inst_dict (the_object w self))).*1
  ++ mro (inst_class (the_object w self)) ≫= (fun c => (class_dict w c).*1).

(** ** Builtins on values *)

Definition type_name (v : value) : string :=
  match v with
  | VNone => "NoneType"
  | VBool _ => "bool"
  | VInt _ => "int"
  | VStr _ => "str"
  | VList _ => "list"
  | VDict _ => "dict"
  | VMethod _ => "method"
  end.

(** [x in container], for a string [x]. *)
Definition py_in (w : world) (container : value) (x : string) : outcome bool :=
  match container with
  | VList l => Return (bool_decide (VStr x ∈ the_list w l))
  | VStr s => Return (str_contains s x)
  | VDict items => Return (bool_decide (x ∈ items.*1))
  | _ => Raise (Exn TypeError ("argument of type '" +:+ type_name container
                               +:+ "' is not iterable"))
  end.

(** The items a [for] loop over [v] visits. *)
Definition py_iter (w : world) (v : value) : outcome (list value) :=
  match v with
  | VList l => Return (the_list w l)
  | VStr s => Return ((fun c => VStr c) <$> str_chars s)
  | VDict items => Return ((fun k => VStr k) <$> items.*1)
  | _ => Raise (Exn TypeError ("'" +:+ type_name v +:+ "' object is not iterable"))
  end.

Definition unhashable (v : value) : exn :=
  Exn TypeError ("unhashable type: '" +:+ type_name v +:+ "'").

(** [k in d] for a dict [d] whose keys are strings. *)
Definition py_in_dict (d : gmap string value) (k : value) : outcome bool :=
  match k with
  | VStr s => Return (bool_decide (is_Some (d !! s)))
  | VList _ | VDict _ => Raise (unhashable k)
  | _ => Return false
  end.

Section Nodes.

(** [repr] of a value.  The text of a string with its quotes and escapes,
    of a list, of a dict and of a method (which shows an address) is not
    spelled out; it is a parameter of the development. *)
Variable py_repr : world → value → string.

(** [s.capitalize()] on a text that has a character outside ASCII.  The
    case tables of Unicode are not spelled out; it is a parameter of the
    development. *)
Variable unicode_capitalize : string → string.

(** [s.capitalize()]. *)
Definition str_capitalize (s : string) : string :=
  if is_ascii s then ascii_capitalize s else unicode_capitalize s.

(** [str(v)], as [format] inserts it. *)
Definition py_str (w : world) (v : value) : string :=
  match v with
  | VNone => "None"
  | VBool true => "True"
  | VBool false => "False"
  | VInt z => pretty z
  | VStr s => s
  | _ => py_repr w v
  end.

(** [d[k]] for a dict [d] whose keys are strings. *)
Definition py_getitem (d : gmap string value) (k : value) : M world value :=
  fun w =>
    match k with
    | VStr s =>
        match d !! s with
        | Some v => (Return v, w)
        | None => (Raise (Exn KeyError (py_repr w k)), w)
        end
    | VList _ | VDict _ => (Raise (unhashable k), w)
    | _ => (Raise (Exn KeyError (py_repr w k)), w)
    end.

(** [v.append(x)]: only a list has the method. *)
Definition py_append (v x : value) : M world unit :=
  match v with
  | VList l => modify (fun w => set_lists <[l := (the_list w l ++ [x])%list]> w)
  | _ => raise (no_attribute (type_name v) "append")
  end.

(** [v.capitalize()]: only a string has the method. *)
Definition py_capitalize (v : value) : M world value :=
  match v with
  | VStr s => mret (VStr (str_capitalize s))
  | _ => raise (no_attribute (type_name v) "capitalize")
  end.

(** ** [class Node] *)

(** [Node.__init__], which receives the keyword arguments as a dict:
<<
    self._create_counter = Node._create_counter
    Node._create_counter += 1
    self.__dict__.update(kwargs)
>> *)
Definition Node__init__ (self : oid) (kwargs : gmap string value) : M world unit :=
  counter ← gets create_counter;
  setattr self "_create_counter" (VInt counter);;
  modify (set_create_counter (fun n => n + 1));;
  modify (set_dict (fun d => kwargs ∪ d) self).

(** A call of the class with keyword arguments: a new instance, then
    [__init__] on it. *)
Definition new_node (cls : node_class) (kwargs : gmap string value) : M world oid :=
  self ← gets (fun w => fresh (dom (objects w)));
  modify (set_objects <[self := mk_instance cls ∅]>);;
  Node__init__ self kwargs;;
  mret self.

(** <<
    def add_error(self, error):
        self.errors.append(error)
>> *)
Definition Node_add_error (self : oid) (error : value) : M world unit :=
  errors ← getattr self "errors";
  py_append errors error.

(** <<
    def set_identifiers(self, parent_name):
        if not hasattr(self, 'id'):
            self.id = "{}_{}".format(parent_name, self._attr_name)
        if not hasattr(self, 'name'):
            self.name = self._attr_name
        if not hasattr(self, 'title'):
            self.title = self._attr_name.capitalize()
>> *)
Definition Node_set_identifiers (self : oid) (parent_name : string) : M world unit :=
  has_id ← hasattr self "id";
  (if negb has_id then
     attr_name ← getattr self "_attr_name";
     suffix ← gets (fun w => py_str w attr_name);
     setattr self "id" (VStr (parent_name +:+ "_" +:+ suffix))
   else mret tt);;
  has_name ← hasattr self "name";
  (if negb has_name then
     attr_name ← getattr self "_attr_name";
     setattr self "name" attr_name
   else mret tt);;
  has_title ← hasattr self "title";
  (if negb has_title then
     attr_name ← getattr self "_attr_name";
     title ← py_capitalize attr_name;
     setattr self "title" title
   else mret tt).

(** <<
    def resolve_data(self, data):
        try:
            self.data = data[self.name]
        except:
            raise FormDataAccessException
>> *)
Definition Node_resolve_data (self : oid) (data : gmap string value) : M world unit :=
  try_except_all
    (name ← getattr self "name";
     v ← py_getitem data name;
     setattr self "data" v)
    (raise (Exn FormDataAccessException "")).

(** The comprehension of [get_context]:
<<
    {i: getattr(self, i) for i in dir(self)
        if not i.startswith("_") and i not in self._ignores}
>>
    [d] is the dict built so far. *)
Fixpoint harvest (w : world) (self : oid) (names : list string)
    (d : gmap string value) : outcome (gmap string value) :=
  match names with
  | [] => Return d
  | i :: rest =>
      if str_startswith i "_" then harvest w self rest d
      else
        ignores ← getattr_in w self "_ignores";
        ignored ← py_in w ignores i;
        if ignored : bool then harvest w self rest d
        else
          v ← getattr_in w self i;
          harvest w self rest (<[i := v]> d)
  end.

Definition missing_context (w : world) (r : value) : exn :=
  Exn InvalidContextException
    ("Missing required context value '" +:+ py_str w r +:+ "'").

(** <<
    for r in self._requires:
        if r not in d:
            raise InvalidContextException(
                "Missing required context value '{}'".format(r))
>> *)
Fixpoint check_requires (w : world) (d : gmap string value)
    (requires : list value) : outcome unit :=
  match requires with
  | [] => Return tt
  | r :: rest =>
      present ← py_in_dict d r;
      if present : bool then check_requires w d rest
      else Raise (missing_context w r)
  end.

(** <<
    def get_context(self, g_context):
        d = {...}
        for r in self._requires: ...
        d['g'] = g_context
        return d
>> *)
Definition get_context_in (w : world) (self : oid) (g_context : value)
    : outcome (gmap string value) :=
  d ← harvest w self (py_dir w self) ∅;
  requires ← getattr_in w self "_requires";
  items ← py_iter w requires;
  check_requires w d items;;
  Return (<["g" := g_context]> d).

Definition Node_get_context (self : oid) (g_context : value)
    : M world (gmap string value) :=
  lift (fun w => get_context_in w self g_context).

(** ** [class LeaderNode(Node)] *)

(** <<
    def set_identifiers(self, parent_name):
        super(LeaderNode, self).set_identifiers(parent_name)
        delattr(self, 'title')
>> *)
Definition LeaderNode_set_identifiers (self : oid) (parent_name : string)
    : M world unit :=
  Node_set_identifiers self parent_name;;
  delattr self "title".

(** [self.set_identifiers(parent_name)], by the class of [self]. *)
Definition set_identifiers (self : oid) (parent_name : string) : M world unit :=
  fun w =>
    match inst_class (the_object w self) with
    | LeaderNode => LeaderNode_set_identifiers self parent_name w
    | _ => Node_set_identifiers self parent_name w
    end.

End Nodes.

(** ** [validators.py]: bindings *)

(** A stored reference of a binding: the attribute name it was declared
    with, or the node the form gave for it. *)
Inductive argref : Type :=
| Name (s : string)
| Field (node : oid).

#[global] Instance argref_eq_dec : EqDecision argref.
Proof. solve_decision. Defined.

Definition is_field (r : argref) : Prop :=
  match r with
  | Field _ => True
  | Name _ => False
  end.

(** What calling an object with arguments does.  [Mismatch msg]: the call
    itself fails, because the object is not callable or the arguments do not
    fit its signature, and the interpreter raises [TypeError(msg)] before a
    statement of the body runs.  [Ran r w]: the body ran, ended with [r]
    and left the store [w]. *)
Inductive call_result : Type :=
| Mismatch (msg : string)
| Ran (r : outcome value) (w : world).

Definition py_callable : Type :=
  list argref → gmap string argref → world → call_result.

(** The attributes [ActionWrapper.__init__] binds. *)
Record ActionWrapper : Type :=
  mk_ActionWrapper {
    callable : py_callable;
    args : list argref;
    kwargs : gmap string argref;
    _attr_name : value;
    resolved : bool }.

Definition set_args (f : list argref → list argref) (self : ActionWrapper)
    : ActionWrapper :=
  mk_ActionWrapper (callable self) (f (args self)) (kwargs self)
    (_attr_name self) (resolved self).
Definition set_kwargs (f : gmap string argref → gmap string argref)
    (self : ActionWrapper) : ActionWrapper :=
  mk_ActionWrapper (callable self) (args self) (f (kwargs self))
    (_attr_name self) (resolved self).
Definition set_resolved (b : bool) (self : ActionWrapper) : ActionWrapper :=
  mk_ActionWrapper (callable self) (args self) (kwargs self)
    (_attr_name self) b.

(** The methods of a binding run on the binding itself and on the store of
    the nodes. *)
Abbreviation binding_state := (ActionWrapper * world)%type.

Definition on_self (f : ActionWrapper → ActionWrapper) : M binding_state unit :=
  modify (fun s => (f s.1, s.2)).

(** <<
    def __init__(self, callable, *args, **kwargs):
        self.callable = callable
        if not args: self.args = []
        else: self.args = list(args)
        if not kwargs: self.kwargs = {}
        else: self.kwargs = kwargs
        self._attr_name = None
        self.resolved = False
>> *)
Definition ActionWrapper__init__ (callable : py_callable) (args : list argref)
    (kwargs : gmap string argref) : ActionWrapper :=
  mk_ActionWrapper callable
    (match args with [] => [] | _ => args end)
    (if decide (kwargs = ∅) then ∅ else kwargs)
    VNone false.

Definition not_resolved : exn :=
  Exn ValueError "Check args are not resolved. This should not happen".

(** [enumerate(l)]. *)
Fixpoint enumerate_from {A} (i : nat) (l : list A) : list (nat * A) :=
  match l with
  | [] => []
  | x :: rest => (i, x) :: enumerate_from (S i) rest
  end.

(** Calling [f] with the positional arguments [args] and the keyword
    arguments [kwargs], as a computation. *)
Definition py_call (f : py_callable) (args : list argref)
    (kwargs : gmap string argref) : M binding_state value := fun s =>
  match f args kwargs s.2 with
  | Mismatch msg => (Raise (Exn TypeError msg), s)
  | Ran r w => (r, (s.1, w))
  end.

(** [try: body except TypeError as e: handler(e)]. *)
Definition try_except_TypeError {S A} (body : M S A) (handler : exn → M S A)
    : M S A := fun s =>
  match body s with
  | (Return a, s') => (Return a, s')
  | (Raise e, s') =>
      if is_TypeError (exc_class e) then handler e s' else (Raise e, s')
  end.

(** The exception [__call__] raises in its handler.  [format] is applied to
    the second literal alone, so the first keeps its [{0}]. *)
Definition not_callable (e : exn) : exn :=
  Exn NotCallableException
    ("Validators provided must be callable, type '{0}'"
     +:+ ("instead. Caused by " +:+ exc_str e)).

Section Bindings.

(** The class [Form] is not among the sources.  Its state and its method
    [get_by_attr], which [resolve_attr_names] calls on every stored
    reference, are parameters; the specification has it map a name to the
    field object the form owns, or fail with a lookup error. *)
Variable Form : Type.
Variable get_by_attr : Form → argref → outcome oid.

(** [nodes.py] defines no [get_list_names]; what a node answers to it is a
    parameter: the names the node is matched against, or the exception the
    call ends with. *)
Variable get_list_names : world → oid → outcome (list string).

(** <<
    for key, arg in enumerate(self.args):
        self.args[key] = form.get_by_attr(arg)
>>
    [pending] is what the enumeration has yet to yield; an assignment
    changes only an index the enumeration has passed. *)
Fixpoint resolve_args (form : Form) (pending : list (nat * argref))
    : M binding_state unit :=
  match pending with
  | [] => mret tt
  | (key, arg) :: rest =>
      node ← lift (fun _ => get_by_attr form arg);
      on_self (set_args <[key := Field node]>);;
      resolve_args form rest
  end.

(** <<
    for key, val in self.kwargs.items():
        self.kwargs[key] = form.get_by_attr(val)
>> *)
Fixpoint resolve_kwargs (form : Form) (pending : list (string * argref))
    : M binding_state unit :=
  match pending with
  | [] => mret tt
  | (key, val) :: rest =>
      node ← lift (fun _ => get_by_attr form val);
      on_self (set_kwargs <[key := Field node]>);;
      resolve_kwargs form rest
  end.

(** <<
    def resolve_attr_names(self, form):
        if self.resolved:
            return
        ...
        self.resolved = True
>> *)
Definition ActionWrapper_resolve_attr_names (form : Form) : M binding_state unit :=
  self ← gets fst;
  if resolved self then mret tt
  else
    resolve_args form (enumerate_from 0 (args self));;
    resolve_kwargs form (map_to_list (kwargs self));;
    on_self (set_resolved true).

(** <<
    def __call__(self):
        if not self.resolved:
            raise ValueError("Check args are not resolved. This should not happen")
        try:
            return self.callable( *self.args, **self.kwargs)
        except TypeError as e:
            raise NotCallableException(...)
>> *)
Definition ActionWrapper__call__ : M binding_state value :=
  self ← gets fst;
  if negb (resolved self) then raise not_resolved
  else
    try_except_TypeError
      (py_call (callable self) (args self) (kwargs self))
      (fun e => raise (not_callable e)).

(** ** [class Check(ActionWrapper)] *)

(** The inner loop of [node_visited], [true] when it leaves by [break]:
<<
    for name in node.get_list_names():
        if name in visited:
            break
    else:
        return False
>> *)
Fixpoint some_name_visited (names : list string) (visited : gset string) : bool :=
  match names with
  | [] => false
  | name :: rest =>
      if bool_decide (name ∈ visited) then true
      else some_name_visited rest visited
  end.

(** [node.get_list_names()]; a string has no such method. *)
Definition list_names (w : world) (node : argref) : outcome (list string) :=
  match node with
  | Field o => get_list_names w o
  | Name _ => Raise (no_attribute "str" "get_list_names")
  end.

(** One of the two outer loops: [false] when it returns [False], [true]
    when it runs to its end. *)
Fixpoint all_nodes_visited (w : world) (nodes : list argref)
    (visited : gset string) : outcome bool :=
  match nodes with
  | [] => Return true
  | node :: rest =>
      names ← list_names w node;
      if some_name_visited names visited then all_nodes_visited w rest visited
      else Return false
  end.

(** [self.kwargs.values()]. *)
Definition kwargs_values (self : ActionWrapper) : list argref :=
  (map_to_list (kwargs self)).*2.

(** <<
    def node_visited(self, visited):
        if not self.resolved:
            raise ValueError("Check args are not resolved. This should not happen")
        for node in self.args: ...
        for node in self.kwargs.values(): ...
        return True
>> *)
Definition Check_node_visited (visited : gset string) : M binding_state bool :=
  self ← gets fst;
  if negb (resolved self) then raise not_resolved
  else
    through_args ← lift (fun s => all_nodes_visited s.2 (args self) visited);
    if through_args : bool then
      lift (fun s => all_nodes_visited s.2 (kwargs_values self) visited)
    else mret false.

(** The fields a binding refers to, positional then keyword. *)
Definition referenced (self : ActionWrapper) : list argref :=
  (args self ++ kwargs_values self)%list.

(** [x] is replaced by [y]: the form gave a field for [x], and [y] is that
    field. *)
Definition resolves_to (form : Form) (x y : argref) : Prop :=
  ∃ node, get_by_attr form x = Return node ∧ y = Field node.

(** A stored reference after a call of [resolve_attr_names]: as it was, or
    the field the form gave for it. *)
Definition kept_or_resolved (form : Form) (x y : argref) : Prop :=
  y = x ∨ resolves_to form x y.

End Bindings.

(** ** [validators.py]: [class MinLength] *)

(** [len(v)]. *)
Definition py_len (w : world) (v : value) : outcome Z :=
  match v with
  | VStr s => Return (Z.of_nat (str_len s))
  | VList l => Return (Z.of_nat (length (the_list w l)))
  | VDict items => Return (Z.of_nat (length items))
  | _ => Raise (Exn TypeError ("object of type '" +:+ type_name v
                               +:+ "' has no len()"))
  end.

(** The two slots of a [MinLength]. *)
Record MinLength : Type := mk_MinLength { message : string; min_length : Z }.

(** <<
    def __init__(self, length, message=None):
        self.min_length = length
        self.message = message if message else "Minimum allowed length {0}" \
            .format(length)
>> *)
Definition MinLength__init__ (length : Z) (message : option string) : MinLength :=
  mk_MinLength
    (match message with
     | Some (String c rest) => String c rest
     | _ => "Minimum allowed length " +:+ pretty length
     end)
    length.

(** [target.data] and [target.add_error(error)] on a stored reference; a
    string has neither attribute. *)
Definition target_data (target : argref) : M world value :=
  match target with
  | Field o => getattr o "data"
  | Name _ => raise (no_attribute "str" "data")
  end.

Definition target_add_error (target : argref) (error : value) : M world unit :=
  match target with
  | Field o => Node_add_error o error
  | Name _ => raise (no_attribute "str" "add_error")
  end.

(** <<
    def __call__(self, target):
        if len(target.data) < self.min_length:
            target.add_error({'message': self.message})
>> *)
Definition MinLength__call__ (self : MinLength) (target : argref) : M world value :=
  data ← target_data target;
  n ← lift (fun w => py_len w data);
  if bool_decide (n < min_length self)%Z then
    target_add_error target (VDict [("message", AStr (message self))]);;
    mret VNone
  else mret VNone.

Section Signatures.

(** The text of the [TypeError] the interpreter raises when the arguments
    of a call do not fit the signature; it is a parameter. *)
Variable signature_error : list argref → gmap string argref → string.

(** A validator instance as a callable: its [__call__] takes the one
    parameter [target], by position or by keyword. *)
Definition call_with_target (body : argref → M world value) : py_callable :=
  fun args kwargs w =>
    match args, map_to_list kwargs with
    | [target], [] => let '(r, w') := body target w in Ran r w'
    | [], [(key, target)] =>
        if decide (key = "target") then let '(r, w') := body target w in Ran r w'
        else Mismatch (signature_error args kwargs)
    | _, _ => Mismatch (signature_error args kwargs)
    end.

Definition MinLength_callable (self : MinLength) : py_callable :=
  call_with_target (MinLength__call__ self).

End Signatures.

(** ** [validators.py]: the other validators on the data of a field *)

(** [message if message else default]: [None] and the empty string are
    both false. *)
Definition message_or (message : option string) (default : string) : string :=
  match message with
  | Some (String c rest) => String c rest
  | _ => default
  end.

(** The error record [{'message': message}]. *)
Definition error_record (message : string) : value :=
  VDict [("message", AStr message)].

(** The store after [append] of [x] to the list object [l]. *)
Definition appended (l : loc) (x : value) (w : world) : world :=
  set_lists <[l := (the_list w l ++ [x])%list]> w.

(** [try: body except: handler], for the classes [catches] accepts. *)
Definition try_except {S A} (catches : exn_class → bool) (body : M S A)
    (handler : exn → M S A) : M S A := fun s =>
  match body s with
  | (Return a, s') => (Return a, s')
  | (Raise e, s') => if catches (exc_class e) then handler e s' else (Raise e, s')
  end.

(** The test of [except ValueError]. *)
Fixpoint is_ValueError (c : exn_class) : bool :=
  match c with
  | ValueError => true
  | UserException _ base => is_ValueError base
  | _ => false
  end.

(** The slots of a [MaxLength]. *)
Record MaxLength : Type :=
  mk_MaxLength { MaxLength_message : string; max_length : Z }.

(** <<
    def __init__(self, length, message=None):
        self.max_length = length
        self.message = message if message else "Maximum allowed length {0}" \
            .format(length)
>> *)
Definition MaxLength__init__ (length : Z) (message : option string) : MaxLength :=
  mk_MaxLength (message_or message ("Maximum allowed length " +:+ pretty length))
    length.

(** <<
    def __call__(self, target):
        if len(target.data) > self.max_length:
            target.add_error({'message': self.message})
>> *)
Definition MaxLength__call__ (self : MaxLength) (target : argref) : M world value :=
  data ← target_data target;
  n ← lift (fun w => py_len w data);
  if bool_decide (n > max_length self)%Z then
    target_add_error target (error_record (MaxLength_message self));;
    mret VNone
  else mret VNone.

(** The slots of a [MinMax]. *)
Record MinMax : Type :=
  mk_MinMax { minmsg : string; maxmsg : string; MinMax_max : Z; MinMax_min : Z }.

(** <<
    def __init__(self, min, max, minmsg=None, maxmsg=None):
        self.min = min
        self.max = max
        self.minmsg = minmsg if minmsg else "Must be longer than {0} characters".format(min)
        self.maxmsg = maxmsg if maxmsg else "Must be fewer than {0} characters".format(max)
>> *)
Definition MinMax__init__ (min max : Z) (minmsg maxmsg : option string) : MinMax :=
  mk_MinMax
    (message_or minmsg ("Must be longer than " +:+ pretty min +:+ " characters"))
    (message_or maxmsg ("Must be fewer than " +:+ pretty max +:+ " characters"))
    max min.

(** <<
    def __call__(self, target):
        if len(target.data) < self.min:
            target.add_error({'message': self.minmsg})
        if len(target.data) > self.max:
            target.add_error({'message': self.maxmsg})
>> *)
Definition MinMax__call__ (self : MinMax) (target : argref) : M world value :=
  data ← target_data target;
  n ← lift (fun w => py_len w data);
  (if bool_decide (n < MinMax_min self)%Z then
     target_add_error target (error_record (minmsg self))
   else mret tt);;
  data ← target_data target;
  n ← lift (fun w => py_len w data);
  (if bool_decide (n > MinMax_max self)%Z then
     target_add_error target (error_record (maxmsg self))
   else mret tt);;
  mret VNone.

(** The slot of a [Required]. *)
Record Required : Type := mk_Required { Required_message : string }.

(** <<
    def __init__(self, message=None):
        self.message = message if message else "A value is required"
>> *)
Definition Required__init__ (message : option string) : Required :=
  mk_Required (message_or message "A value is required").

(** <<
    def __call__(self, target=None):
        if len(target.data) == 0:
            target.add_error({'message': self.message})
>>
    on a target that was given. *)
Definition Required__call__ (self : Required) (target : argref) : M world value :=
  data ← target_data target;
  n ← lift (fun w => py_len w data);
  if bool_decide (n = 0)%Z then
    target_add_error target (error_record (Required_message self));;
    mret VNone
  else mret VNone.

(** [a == b] on scalars: [True] and [False] are the numbers 1 and 0, and
    values of different types are otherwise unequal. *)
Definition atom_eq (a b : atom) : bool :=
  match a, b with
  | ANone, ANone => true
  | ABool x, ABool y => bool_decide (x = y)
  | AInt x, AInt y => bool_decide (x = y)
  | ABool x, AInt y => bool_decide (Z.b2z x = y)
  | AInt x, ABool y => bool_decide (x = Z.b2z y)
  | AStr x, AStr y => bool_decide (x = y)
  | _, _ => false
  end.

(** The slot of a [Matching]. *)
Record Matching : Type := mk_Matching { Matching_message : string }.

(** <<
    def __init__(self, message=None):
        self.message = message if message else "Fields must match"
>> *)
Definition Matching__init__ (message : option string) : Matching :=
  mk_Matching (message_or message "Fields must match").

(** The slot of an [Integer]. *)
Record Integer : Type := mk_Integer { Integer_message : string }.

(** <<
    def __init__(self, message=None):
        self.message = message if message else "Value must only contain numbers"
>> *)
Definition Integer__init__ (message : option string) : Integer :=
  mk_Integer (message_or message "Value must only contain numbers").

(** The slots of a [PasswordStrength]; [message] is stored as given. *)
Record PasswordStrength : Type :=
  mk_PasswordStrength {
    PasswordStrength_message : option string;
    PasswordStrength_regex : list string }.

(** <<
    def __init__(self, regex=None, message=None):
        self.message = message
        if not isinstance(regex, list):
            self.regex = ["(?=.*[A-Z].*[A-Z])", "(?=.*[!@#$&%*])",
                          "(?=.*[0-9].*[0-9])", ".{7}"]
        else:
            self.regex = regex
>>
    [regex] is [None] for an argument that is no list. *)
Definition PasswordStrength__init__ (regex : option (list string))
    (message : option string) : PasswordStrength :=
  mk_PasswordStrength message
    (match regex with
     | Some patterns => patterns
     | None =>
         [ "(?=.*[A-Z].*[A-Z])"; "(?=.*[!@#$&%*])"; "(?=.*[0-9].*[0-9])";
           ".{7}" ]
     end).

(** The record [{'message': "Password strength is " + str(strength),
    'block': False}]. *)
Definition strength_record (strength : Z) : value :=
  VDict [ ("message", AStr ("Password strength is " +:+ pretty strength));
          ("block", ABool false) ].

Section Validators.

(** What the interpreter and the module [re] do is taken as given:
    [container_ne w a b] is [a != b] when one of the two is a list, a dict
    or a method; [int_literal s] is [int(s)] for a string, the number or
    the exception; [re_match pattern v] tells whether
    [re.match(pattern, v)] is a match, or gives the exception of a bad
    pattern or of a value that is no text. *)
Variable container_ne : world → value → value → outcome bool.
Variable int_literal : string → outcome Z.
Variable re_match : string → value → outcome bool.
Variable signature_error : list argref → gmap string argref → string.

(** [a != b]. *)
Definition py_ne (w : world) (a b : value) : outcome bool :=
  match a, b with
  | VAtom x, VAtom y => Return (negb (atom_eq x y))
  | _, _ => container_ne w a b
  end.

(** <<
    def __call__(self, target1, target2):
        if target1.data != target2.data:
            target1.add_error({'message': self.message})
            target2.add_error({'message': self.message})
>> *)
Definition Matching__call__ (self : Matching) (target1 target2 : argref)
    : M world value :=
  data1 ← target_data target1;
  data2 ← target_data target2;
  differ ← lift (fun w => py_ne w data1 data2);
  if differ : bool then
    target_add_error target1 (error_record (Matching_message self));;
    target_add_error target2 (error_record (Matching_message self));;
    mret VNone
  else mret VNone.

(** A callable of the two parameters [target1] and [target2], each given
    by position or by keyword. *)
Definition call_with_two_targets (body : argref → argref → M world value)
    : py_callable :=
  fun args kwargs w =>
    let run t1 t2 := let '(r, w') := body t1 t2 w in Ran r w' in
    match args with
    | [t1; t2] =>
        if decide (kwargs = ∅) then run t1 t2
        else Mismatch (signature_error args kwargs)
    | [t1] =>
        match kwargs !! "target2" with
        | Some t2 =>
            if decide (size kwargs = 1%nat) then run t1 t2
            else Mismatch (signature_error args kwargs)
        | None => Mismatch (signature_error args kwargs)
        end
    | [] =>
        match kwargs !! "target1", kwargs !! "target2" with
        | Some t1, Some t2 =>
            if decide (size kwargs = 2%nat) then run t1 t2
            else Mismatch (signature_error args kwargs)
        | _, _ => Mismatch (signature_error args kwargs)
        end
    | _ => Mismatch (signature_error args kwargs)
    end.

Definition Matching_callable (self : Matching) : py_callable :=
  call_with_two_targets (Matching__call__ self).

(** [int(v)]. *)
Definition py_int (v : value) : outcome Z :=
  match v with
  | VStr s => int_literal s
  | VInt z => Return z
  | VBool b => Return (Z.b2z b)
  | _ => Raise (Exn TypeError
                  ("int() argument must be a string, a bytes-like object or a real number, not '"
                   +:+ type_name v +:+ "'"))
  end.

(** <<
    def __call__(self, target):
        try:
            int(target.data)
        except ValueError:
            target.add_error({'message': self.message})
>> *)
Definition Integer__call__ (self : Integer) (target : argref) : M world value :=
  try_except is_ValueError
    (data ← target_data target;
     lift (fun _ => py_int data);;
     mret VNone)
    (fun _ =>
       target_add_error target (error_record (Integer_message self));;
       mret VNone).

(** <<
    for regex in self.regex:
        if re.match(regex, target.data):
            strength += 1
>> *)
Fixpoint count_matches (patterns : list string) (target : argref)
    (strength : Z) : M world Z :=
  match patterns with
  | [] => mret strength
  | regex :: rest =>
      data ← target_data target;
      matched ← lift (fun _ => re_match regex data);
      count_matches rest target (if matched : bool then strength + 1 else strength)
  end.

(** <<
    def __call__(self, target=None):
        strength = 0
        for regex in self.regex: ...
        target.add_error({'message': "Password strength is " + str(strength),
                          'block': False})
>>
    on a target that was given. *)
Definition PasswordStrength__call__ (self : PasswordStrength) (target : argref)
    : M world value :=
  strength ← count_matches (PasswordStrength_regex self) target 0;
  target_add_error target (strength_record strength);;
  mret VNone.

End Validators.

(** ** The collaborators of a binding, as the specification has them *)

(** Modelled from the spec: the field registry of a form, which is not
    among the sources: a mapping from name to the field object the form
    owns.  A reference that is no name of the mapping fails with a lookup
    error that names it. *)
Definition registry_get_by_attr (form : gmap string oid) (arg : argref)
    : outcome oid :=
  match arg with
  | Name s =>
      match form !! s with
      | Some o => Return o
      | None => Raise (Exn KeyError s)
      end
  | Field _ => Raise (Exn KeyError "")
  end.

(** Modelled from the spec: [get_list_names], which [nodes.py] does not
    define: a field is ordinarily matched against its own name alone.  A
    name that is no string equals no visited name. *)
Definition own_name (w : world) (o : oid) : outcome (list string) :=
  name ← getattr_in w o "name";
  match name with
  | VStr s => Return [s]
  | _ => Return []
  end.

(** ** Running the methods together *)

(** A list display [[x, y, ...]]: a new list object. *)
Definition py_list (items : list value) : M world value :=
  l ← gets (fun w => fresh (dom (lists w)));
  modify (set_lists <[l := items]>);;
  mret (VList l).

(** A statement on the nodes, in a computation on a binding. *)
Definition on_world {A} (m : M world A) : M binding_state A := fun s =>
  let '(r, w) := m s.2 in (r, (s.1, w)).

(** The items of [self.errors], as a reader of the attribute sees them. *)
Definition read_errors (self : oid) : M world (list value) :=
  errors ← getattr self "errors";
  lift (fun w => py_iter w errors).

(** The choices made for the parameters where a run needs them; no run
    capitalizes a text outside ASCII. *)
Definition plain_repr : world → value → string := fun _ _ => "<object>".
Definition plain_capitalize : string → string := fun s => s.
Definition plain_signature_error : list argref → gmap string argref → string :=
  fun _ _ => "__call__() arguments do not match".

(** <<
    a = Node(); b = Node()
    before = list(b.errors)
    a.add_error(error)
    after = list(b.errors)
>> *)
Definition two_nodes_one_error (error : value) : M world (list value * list value) :=
  a ← new_node Node ∅;
  b ← new_node Node ∅;
  before ← read_errors b;
  Node_add_error a error;;
  after ← read_errors b;
  mret (before, after).

(** <<
    n = Node(_ignores=['g'])
    d = n.get_context(g_context)
    ('g' in d, d['g'], 'g' in n._ignores)
>> *)
Definition node_ignoring_g (g_context : value) : M world (option value * bool) :=
  ignores ← py_list [VStr "g"];
  n ← new_node Node {["_ignores" := ignores]};
  d ← Node_get_context plain_repr n g_context;
  listed ← lift (fun w => py_in w ignores "g");
  mret (d !! "g", listed).

(** <<
    choice = ListNode(items=['a'])
>> *)
Definition list_node_with_items : M world oid :=
  items ← py_list [VStr "a"];
  new_node ListNode {["items" := items]}.

(** <<
    start = LeaderNode(title='Sign up'); start._attr_name = 'start'
>> *)
Definition leader_with_title : M world oid :=
  start ← new_node LeaderNode {["title" := VStr "Sign up"]};
  setattr start "_attr_name" (VStr "start");;
  mret start.

(** A node of class [cls] built with [kwargs], given its attribute name by
    the form, with the identifiers of the [set_identifiers] of its class:
<<
    node = cls(...); node._attr_name = attr_name
    node.set_identifiers(parent_name)
>> *)
Definition identified_node (py_repr : world → value → string)
    (unicode_capitalize : string → string)
    (cls : node_class) (kwargs : gmap string value)
    (attr_name parent_name : string) : M world oid :=
  node ← new_node cls kwargs;
  setattr node "_attr_name" (VStr attr_name);;
  set_identifiers py_repr unicode_capitalize node parent_name;;
  mret node.

(** [(node.id, node.title, node.name)]. *)
Definition read_identifiers (node : oid) : M world (value * value * value) :=
  id ← getattr node "id";
  title ← getattr node "title";
  name ← getattr node "name";
  mret (id, title, name).

(** <<
    password = EntryNode(); password._attr_name = 'password'
    password.set_identifiers('login')
>> *)
Definition password_of_login : M world oid :=
  password ← new_node EntryNode ∅;
  setattr password "_attr_name" (VStr "password");;
  set_identifiers plain_repr plain_capitalize password "login";;
  mret password.

(** The submission [{'username': 'bob'}], and one where the password field
    came empty. *)
Definition bob_only : gmap string value := {["username" := VStr "bob"]}.
Definition bob_empty_password : gmap string value :=
  {["username" := VStr "bob"; "password" := VStr ""]}.

(** <<
    age = EntryNode(); age._attr_name = 'age'
    age.set_identifiers('signup')
    age.resolve_data({'age': 5})
    check = Check(MinLength(3), 'age')
    check.resolve_attr_names(form)          # form: {'age': age}
>> *)
Definition age_check : ActionWrapper :=
  ActionWrapper__init__
    (MinLength_callable plain_signature_error (MinLength__init__ 3 None))
    [Name "age"] ∅.

Definition age_form_submitted : M binding_state unit :=
  age ← on_world (new_node EntryNode ∅);
  on_world (setattr age "_attr_name" (VStr "age"));;
  on_world (set_identifiers plain_repr plain_capitalize age "signup");;
  on_world (Node_resolve_data plain_repr age {["age" := VInt 5]});;
  ActionWrapper_resolve_attr_names (gmap string oid) registry_get_by_attr
    {["age" := age]}.

Definition age_form_state : binding_state :=
  (age_form_submitted (age_check, initial_world)).2.

(** <<
    pw1 = EntryNode(); pw2 = EntryNode()     # named 'pw1' and 'pw2'
    check = Check(same, 'pw1', other='pw2')
>>
    [same] stands for a validator of two fields that returns [None]. *)
Definition returns_None : py_callable := fun _ _ w => Ran (Return VNone) w.

Definition passwords_check : ActionWrapper :=
  ActionWrapper__init__ returns_None [Name "pw1"] {["other" := Name "pw2"]}.

Definition passwords_form : M binding_state (gmap string oid) :=
  pw1 ← on_world (new_node EntryNode {["name" := VStr "pw1"]});
  pw2 ← on_world (new_node EntryNode {["name" := VStr "pw2"]});
  mret ({["pw1" := pw1; "pw2" := pw2]} : gmap string oid).

(** The binding and the nodes before [check.resolve_attr_names(form)], the
    registry of the form, and the binding and the nodes after it. *)
Definition passwords_declared : binding_state :=
  (passwords_form (passwords_check, initial_world)).2.

Definition passwords_registry : gmap string oid :=
  {["pw1" := 1%positive; "pw2" := 2%positive]}.

Definition passwords_resolved : binding_state :=
  (ActionWrapper_resolve_attr_names (gmap string oid) registry_get_by_attr
     passwords_registry passwords_declared).2.

(** <<
    check = Check(MinLength(3), 'pw1', 'pw2')
>>
    resolved against the same registry: one positional argument more than
    [MinLength.__call__] takes. *)
Definition two_targets_check : ActionWrapper :=
  ActionWrapper__init__
    (MinLength_callable plain_signature_error (MinLength__init__ 3 None))
    [Name "pw1"; Name "pw2"] ∅.

Definition two_targets_resolved : binding_state :=
  (ActionWrapper_resolve_attr_names (gmap string oid) registry_get_by_attr
     passwords_registry (two_targets_check, passwords_declared.2)).2.

(** The [TypeError] of [len(5)]. *)
Definition int_has_no_len : exn :=
  Exn TypeError "object of type 'int' has no len()".

(** <<
    pw1 = EntryNode(name='pw1', data='secret1', errors=[])
    pw2 = EntryNode(name='pw2', data='secret', errors=[])
>> *)
Definition two_passwords_submitted : M world (oid * oid) :=
  errors1 ← py_list [];
  pw1 ← new_node EntryNode
          {["name" := VStr "pw1"; "data" := VStr "secret1"; "errors" := errors1]};
  errors2 ← py_list [];
  pw2 ← new_node EntryNode
          {["name" := VStr "pw2"; "data" := VStr "secret"; "errors" := errors2]};
  mret (pw1, pw2).

Definition passwords_world : world := (two_passwords_submitted initial_world).2.

(** <<
    check = Check(MinLength(8), 'pw1')
>>
    declared on these two fields, and resolved against their registry. *)
Definition short_password_declared : binding_state :=
  (ActionWrapper__init__
     (MinLength_callable plain_signature_error (MinLength__init__ 8 None))
     [Name "pw1"] ∅,
   passwords_world).

(** <<
    initial = EntryNode(data='é', errors=[])
>> *)
Definition accented_world : world :=
  ((errors ← py_list [];
    new_node EntryNode {["data" := VStr "é"; "errors" := errors]})
     initial_world).2.

Definition short_password_resolved : binding_state :=
  (ActionWrapper_resolve_attr_names (gmap string oid) registry_get_by_attr
     passwords_registry short_password_declared).2.

(** Choices for the parameters of the validators where a run needs them:
    containers never compare equal, [int] accepts no string, no pattern
    matches. *)
Definition plain_container_ne : world → value → value → outcome bool :=
  fun _ _ _ => Return true.
Definition no_int_literal : string → outcome Z :=
  fun _ => Raise (Exn ValueError "invalid literal for int() with base 10").
Definition no_match : string → value → outcome bool := fun _ _ => Return false.

(** [re.match(pattern, data)] read as a truth value, [false] when it
    raises. *)
Definition is_match (re_match : string → value → outcome bool) (data : value)
    (pattern : string) : bool :=
  match re_match pattern data with
  | Return b => b
  | Raise _ => false
  end.

(** [w'] differs from [w] at most in the attributes [names] of the node
    [self] itself: the lists, the creation counter, the other nodes, the
    class of [self] and its other attributes are the same. *)
Definition differ_only_in (names : list string) (self : oid) (w w' : world)
    : Prop :=
  lists w' = lists w
  ∧ create_counter w' = create_counter w
  ∧ (∀ o, o ≠ self → the_object w' o = the_object w o)
  ∧ inst_class (the_object w' self) = inst_class (the_object w self)
  ∧ ∀ k, k ∉ names →
         inst_dict (the_object w' self) !! k = inst_dict (the_object w self) !! k.

(** <<
    name = EntryNode(placeholder='Your name', _hint='x', template='mine')
>> *)
Definition entry_keywords : gmap string value :=
  {["placeholder" := VStr "Your name"; "_hint" := VStr "x";
    "template" := VStr "mine"]}.

(** * Properties *)

(** ** The store and attribute access *)

(** Unfolds the monad down to functions on the store. *)
Ltac run :=
  unfold mbind, M_bind, bind, mret, M_ret, ret, gets, modify, lift, raise;
  cbn beta iota.

(** Closes an equation between closed terms by evaluating both sides. *)
Ltac by_evaluation := vm_compute; reflexivity.

Lemma the_object_insert_eq self i w :
  the_object (set_objects <[self := i]> w) self = i.
Proof. unfold the_object; simpl. apply lookup_total_insert_eq. Qed.

Lemma the_object_insert_ne self o i w :
  o ≠ self → the_object (set_objects <[self := i]> w) o = the_object w o.
Proof. intros Hne. unfold the_object; simpl. by apply lookup_total_insert_ne. Qed.

Lemma the_object_set_dict f self w :
  the_object (set_dict f self w) self
  = mk_instance (inst_class (the_object w self))
      (f (inst_dict (the_object w self))).
Proof. apply the_object_insert_eq. Qed.

Lemma the_object_set_dict_ne f self o w :
  o ≠ self → the_object (set_dict f self w) o = the_object w o.
Proof. apply the_object_insert_ne. Qed.

Lemma py_getattr_set_eq self name v w :
  py_getattr (set_dict <[name := v]> self w) self name = Some v.
Proof.
  unfold py_getattr. rewrite the_object_set_dict; simpl.
  by rewrite lookup_insert_eq.
Qed.

Lemma py_getattr_set_ne self name name' v w :
  name ≠ name' →
  py_getattr (set_dict <[name := v]> self w) self name' = py_getattr w self name'.
Proof.
  intros Hne. unfold py_getattr. rewrite the_object_set_dict; simpl.
  rewrite lookup_insert_ne by done. reflexivity.
Qed.

Lemma getattr_in_Some w self name v :
  py_getattr w self name = Some v → getattr_in w self name = Return v.
Proof. unfold getattr_in. by intros ->. Qed.

(** Writing an attribute of one node leaves the attributes of the others. *)
Lemma py_getattr_set_other f self o name w :
  o ≠ self → py_getattr (set_dict f self w) o name = py_getattr w o name.
Proof.
  intros Hne. unfold py_getattr. by rewrite the_object_set_dict_ne.
Qed.

(** Appending to a list changes no attribute of any node. *)
Lemma py_getattr_set_lists f o name w :
  py_getattr (set_lists f w) o name = py_getattr w o name.
Proof. reflexivity. Qed.

Lemma assoc_is_Some {A} k (l : list (string * A)) :
  is_Some (assoc k l) ↔ k ∈ l.*1.
Proof.
  induction l as [|[k' v] l IH]; simpl.
  - rewrite elem_of_nil. split; [by intros [? ?]|done].
  - rewrite elem_of_cons. destruct (decide (k = k')) as [->|Hne].
    + split; eauto.
    + rewrite IH. split; [auto|]. by intros [?|?].
Qed.

Lemma class_getattr_is_Some w c k :
  is_Some (class_getattr w c k) ↔ k ∈ mro c ≫= (fun c => (class_dict w c).*1).
Proof.
  unfold class_getattr. induction (mro c) as [|c' cs IH]; simpl.
  - rewrite elem_of_nil. split; [by intros [? ?]|done].
  - rewrite elem_of_app, <- assoc_is_Some, <- IH.
    destruct (assoc k (class_dict w c')) as [v|]; [split; eauto|].
    split; [auto|]. intros [[? ?]|?]; done.
Qed.

(** [dir(self)] lists the names [getattr] finds. *)
Lemma py_dir_getattr w self k :
  k ∈ py_dir w self ↔ is_Some (py_getattr w self k).
Proof.
  unfold py_dir, py_getattr. rewrite elem_of_app, <- class_getattr_is_Some.
  assert (k ∈ (map_to_list (inst_dict (the_object w self))).*1
          ↔ is_Some (inst_dict (the_object w self) !! k)) as ->.
  { rewrite list_elem_of_fmap. split.
    - intros [[k' v] [-> Hin]]. apply elem_of_map_to_list in Hin. eauto.
    - intros [v Hv]. exists (k, v). split; [done|]. by apply elem_of_map_to_list. }
  destruct (inst_dict (the_object w self) !! k) as [v|]; [split; eauto|].
  split; [by intros [[? ?]|?]|auto].
Qed.

(** No class of [nodes.py] binds [id], [name] or [title]. *)
Lemma class_getattr_identifiers w c name :
  name ∈ ["id"; "name"; "title"] → class_getattr w c name = None.
Proof.
  intros Hin.
  repeat (apply elem_of_cons in Hin as [->|Hin]); [..|by apply elem_of_nil in Hin].
  all: by destruct c.
Qed.

(** Every class binds [_attr_name], through [Node]. *)
Lemma class_getattr_attr_name w c : class_getattr w c "_attr_name" = Some VNone.
Proof. by destruct c. Qed.

(** ** Construction *)

Lemma new_node_creates cls kwargs w :
  ∃ self w',
    new_node cls kwargs w = (Return self, w')
    ∧ objects w !! self = None
    ∧ the_object w' self
      = mk_instance cls
          (kwargs ∪ {["_create_counter" := VInt (create_counter w)]})
    ∧ lists w' = lists w
    ∧ ∀ o, o ≠ self → the_object w' o = the_object w o.
Proof.
  unfold new_node, Node__init__, setattr. run.
  set (self := fresh (dom (objects w))).
  eexists self, _. split; [reflexivity|].
  split; [apply not_elem_of_dom, is_fresh|].
  split; [|split; [reflexivity|]].
  - rewrite the_object_set_dict.
    change (the_object (set_create_counter _ ?w0) self) with (the_object w0 self).
    rewrite the_object_set_dict, the_object_insert_eq; simpl.
    by rewrite insert_empty.
  - intros o Hne. rewrite the_object_set_dict_ne by done.
    change (the_object (set_create_counter _ ?w0) o) with (the_object w0 o).
    rewrite the_object_set_dict_ne, the_object_insert_ne by done. reflexivity.
Qed.

(** After construction, [id], [name] and [title] are what the keyword
    arguments gave, and nothing else. *)
Lemma new_node_getattr_identifier cls kwargs w self w' name :
  new_node cls kwargs w = (Return self, w') →
  name ∈ ["id"; "name"; "title"] →
  py_getattr w' self name = kwargs !! name.
Proof.
  intros Hnew Hin.
  destruct (new_node_creates cls kwargs w) as (self0 & w0 & Heq & _ & Hobj & _).
  rewrite Heq in Hnew. injection Hnew as <- <-.
  unfold py_getattr. rewrite Hobj; simpl.
  rewrite class_getattr_identifiers by done.
  rewrite lookup_union.
  assert (({["_create_counter" := VInt (create_counter w)]}
             : gmap string value) !! name = None) as ->.
  { apply lookup_singleton_ne. intros <-.
    repeat (apply elem_of_cons in Hin as [?|Hin]; [discriminate|]).
    by apply elem_of_nil in Hin. }
  destruct (kwargs !! name); reflexivity.
Qed.

(** ** [Node.add_error] *)

Lemma Node_add_error_appends w self l error :
  py_getattr w self "errors" = Some (VList l) →
  Node_add_error self error w
  = (Return tt, set_lists <[l := (the_list w l ++ [error])%list]> w).
Proof.
  intros Herr. unfold Node_add_error, getattr, getattr_in. run.
  rewrite Herr. reflexivity.
Qed.

(** The record goes to the end of the list the node's [errors] attribute
    holds: the items before it keep their order, and an equal record
    already there does not stop it. *)
Lemma Node_add_error_own_sequence w self l error :
  py_getattr w self "errors" = Some (VList l) →
  ∃ w', Node_add_error self error w = (Return tt, w')
    ∧ py_getattr w' self "errors" = Some (VList l)
    ∧ the_list w' l = (the_list w l ++ [error])%list.
Proof.
  intros Herr. rewrite (Node_add_error_appends _ _ _ _ Herr).
  eexists; split; [reflexivity|]. split; [exact Herr|].
  unfold the_list at 1; simpl. apply lookup_total_insert_eq.
Qed.

(** A node whose [errors] attribute holds another list object keeps its
    errors. *)
Lemma Node_add_error_other_list w self other l l' error :
  py_getattr w self "errors" = Some (VList l) →
  py_getattr w other "errors" = Some (VList l') →
  l' ≠ l →
  ∃ w', Node_add_error self error w = (Return tt, w')
    ∧ py_getattr w' other "errors" = Some (VList l')
    ∧ the_list w' l' = the_list w l'.
Proof.
  intros Herr Hother Hne. rewrite (Node_add_error_appends _ _ _ _ Herr).
  eexists; split; [reflexivity|]. split; [exact Hother|].
  unfold the_list at 1; simpl. by apply lookup_total_insert_ne.
Qed.

(** A node whose [errors] attribute holds the same list object receives the
    record too. *)
Lemma Node_add_error_same_list w self other l error :
  py_getattr w self "errors" = Some (VList l) →
  py_getattr w other "errors" = Some (VList l) →
  ∃ w', Node_add_error self error w = (Return tt, w')
    ∧ read_errors other w' = (Return (the_list w l ++ [error])%list, w').
Proof.
  intros Herr Hother. rewrite (Node_add_error_appends _ _ _ _ Herr).
  eexists; split; [reflexivity|].
  unfold read_errors, getattr, getattr_in. run.
  rewrite py_getattr_set_lists, Hother. simpl.
  unfold the_list at 1; simpl. by rewrite lookup_total_insert_eq.
Qed.

(** A node built without an [errors] keyword has no [errors] of its own:
    the attribute reads the list of the class. *)
Lemma new_node_errors_of_class cls kwargs w self w' :
  new_node cls kwargs w = (Return self, w') →
  kwargs !! "errors" = None →
  py_getattr w' self "errors" = Some (VList Node_errors).
Proof.
  intros Hnew Hkw.
  destruct (new_node_creates cls kwargs w) as (self0 & w0 & Heq & _ & Hobj & _).
  rewrite Heq in Hnew. injection Hnew as <- <-.
  unfold py_getattr. rewrite Hobj; simpl.
  rewrite lookup_union, Hkw, lookup_singleton_ne by discriminate. simpl.
  by destruct cls.
Qed.

(** C2 (as the code runs it): two nodes built without an [errors] keyword;
    [add_error] on the first one shows in the errors of the second, which
    were empty before.  The claim has the errors of every other field
    unchanged. *)
Theorem add_error_reaches_the_other_node (error : value) :
  fst (two_nodes_one_error error initial_world) = Return ([], [error]).
Proof.
  unfold two_nodes_one_error. run.
  destruct (new_node_creates Node ∅ initial_world)
    as (a & w1 & Ha & _ & _ & Hl1 & _).
  destruct (new_node_creates Node ∅ w1) as (b & w2 & Hb & _ & _ & Hl2 & Hframe).
  rewrite Ha, Hb.
  pose proof (new_node_errors_of_class _ _ _ _ _ Ha (lookup_empty _)) as Hae.
  pose proof (new_node_errors_of_class _ _ _ _ _ Hb (lookup_empty _)) as Hbe.
  assert (py_getattr w2 a "errors" = Some (VList Node_errors)) as Hae2.
  { destruct (decide (a = b)) as [->|Hne]; [done|].
    revert Hae. unfold py_getattr. rewrite Hframe by done.
    by destruct (inst_dict (the_object w1 a) !! "errors"),
         (inst_class (the_object w1 a)). }
  unfold read_errors at 1, getattr, getattr_in. run. rewrite Hbe. simpl.
  destruct (Node_add_error_same_list w2 a b Node_errors error Hae2 Hbe)
    as (w3 & -> & ->).
  simpl. unfold the_list. rewrite Hl2, Hl1. reflexivity.
Qed.

(** ** [Node.set_identifiers] *)

(** On a node whose [_attr_name] is the string [n], each of [id], [name]
    and [title] keeps the value it has, and gets its default when it has
    none. *)
Lemma Node_set_identifiers_fills py_repr cap w self n p :
  py_getattr w self "_attr_name" = Some (VStr n) →
  ∃ w',
    Node_set_identifiers py_repr cap self p w = (Return tt, w')
    ∧ py_getattr w' self "id"
      = Some (default (VStr (p +:+ "_" +:+ n)) (py_getattr w self "id"))
    ∧ py_getattr w' self "name"
      = Some (default (VStr n) (py_getattr w self "name"))
    ∧ py_getattr w' self "title"
      = Some (default (VStr (str_capitalize cap n)) (py_getattr w self "title")).
Proof.
  intros Hn. unfold Node_set_identifiers, hasattr, getattr, setattr, getattr_in.
  run.
  destruct (py_getattr w self "id") as [vi|] eqn:Hi; simpl.
  all: destruct (py_getattr w self "name") as [vn|] eqn:Hnm; simpl.
  all: destruct (py_getattr w self "title") as [vt|] eqn:Ht; simpl.
  all: repeat (rewrite ?Hn, ?Hi, ?Hnm, ?Ht, ?py_getattr_set_eq; simpl;
               try (rewrite py_getattr_set_ne by discriminate)).
  all: eexists; split; [reflexivity|].
  all: repeat (rewrite ?Hn, ?Hi, ?Hnm, ?Ht, ?py_getattr_set_eq; simpl;
               try (rewrite py_getattr_set_ne by discriminate)); auto.
Qed.

(** Every class but [LeaderNode] inherits [Node.set_identifiers]. *)
Lemma set_identifiers_inherited py_repr cap w self p :
  inst_class (the_object w self) ≠ LeaderNode →
  set_identifiers py_repr cap self p w = Node_set_identifiers py_repr cap self p w.
Proof. unfold set_identifiers. by destruct (inst_class (the_object w self)). Qed.

(** Removing an attribute of a node leaves the others. *)
Lemma py_getattr_delete_ne self name name' w :
  name ≠ name' →
  py_getattr (set_dict (delete name) self w) self name' = py_getattr w self name'.
Proof.
  intros Hne. unfold py_getattr. rewrite the_object_set_dict; simpl.
  rewrite lookup_delete_ne by done. reflexivity.
Qed.

(** C7 (amended): for a node of any class built with any keyword arguments
    and given the attribute name [n], the [set_identifiers] of its class
    with the parent name [p] returns and leaves [id] and [name] as the
    keyword arguments gave them, and where they gave none as [p_n] and
    [n].  On a node of any class but [LeaderNode] it leaves [title] as the
    keyword arguments gave it, and as [n] capitalized where they gave
    none; on a [LeaderNode] it leaves no title at all.  The field
    [password] of the form [login], built with no keyword argument, gets
    [login_password], [Password] and [password]. *)
Theorem set_identifiers_defaults_yield_to_init py_repr cap cls kwargs n p w :
  (∃ self w',
      identified_node py_repr cap cls kwargs n p w = (Return self, w')
      ∧ py_getattr w' self "id"
        = Some (default (VStr (p +:+ "_" +:+ n)) (kwargs !! "id"))
      ∧ py_getattr w' self "name" = Some (default (VStr n) (kwargs !! "name"))
      ∧ py_getattr w' self "title"
        = if decide (cls = LeaderNode) then None
          else Some (default (VStr (str_capitalize cap n)) (kwargs !! "title")))
  ∧ fst ((password ← identified_node py_repr cap EntryNode ∅ "password" "login";
          read_identifiers password) w)
    = Return (VStr "login_password", VStr "Password", VStr "password").
Proof.
  assert (∀ cls kwargs n p, ∃ self w',
      identified_node py_repr cap cls kwargs n p w = (Return self, w')
      ∧ py_getattr w' self "id"
        = Some (default (VStr (p +:+ "_" +:+ n)) (kwargs !! "id"))
      ∧ py_getattr w' self "name" = Some (default (VStr n) (kwargs !! "name"))
      ∧ py_getattr w' self "title"
        = if decide (cls = LeaderNode) then None
          else Some (default (VStr (str_capitalize cap n)) (kwargs !! "title")))
    as General.
  { clear. intros cls kwargs n p. unfold identified_node, setattr. run.
    destruct (new_node_creates cls kwargs w) as (self & w1 & Hnew & _ & Hobj & _).
    rewrite Hnew.
    set (w2 := set_dict <["_attr_name" := VStr n]> self w1).
    assert (inst_class (the_object w2 self) = cls) as Hclass.
    { unfold w2. rewrite the_object_set_dict. simpl. by rewrite Hobj. }
    destruct (Node_set_identifiers_fills py_repr cap w2 self n p)
      as (w3 & Hbase & Hid & Hname & Htitle).
    { apply py_getattr_set_eq. }
    unfold w2 in Hid, Hname, Htitle.
    rewrite py_getattr_set_ne in Hid, Hname, Htitle by discriminate.
    rewrite (new_node_getattr_identifier _ _ _ _ _ "id" Hnew) in Hid
      by (rewrite !elem_of_cons; auto).
    rewrite (new_node_getattr_identifier _ _ _ _ _ "name" Hnew) in Hname
      by (rewrite !elem_of_cons; auto).
    rewrite (new_node_getattr_identifier _ _ _ _ _ "title" Hnew) in Htitle
      by (rewrite !elem_of_cons; auto).
    destruct (decide (cls = LeaderNode)) as [Hleader|Hother].
    - unfold set_identifiers. rewrite Hclass, Hleader.
      unfold LeaderNode_set_identifiers, delattr. run. rewrite Hbase.
      unfold py_getattr in Htitle at 1.
      rewrite class_getattr_identifiers in Htitle
        by (rewrite !elem_of_cons; auto).
      destruct (inst_dict (the_object w3 self) !! "title") as [own|] eqn:Hown;
        [|discriminate Htitle].
      exists self, (set_dict (delete "title") self w3).
      split; [reflexivity|].
      rewrite !py_getattr_delete_ne by discriminate.
      split; [exact Hid|]. split; [exact Hname|].
      unfold py_getattr. rewrite the_object_set_dict. cbn [inst_dict inst_class].
      rewrite lookup_delete_eq.
      apply class_getattr_identifiers. rewrite !elem_of_cons; auto.
    - rewrite set_identifiers_inherited by (by rewrite Hclass).
      rewrite Hbase. exists self, w3. auto. }
  split; [apply General|].
  destruct (General EntryNode ∅ "password" "login")
    as (self & w' & Hrun & Hid & Hname & Htitle).
  unfold read_identifiers, getattr, getattr_in. run.
  rewrite Hrun, Hid, Htitle, Hname. reflexivity.
Qed.

(** C7 (as stated, refuted): a [LeaderNode] built with the title
    [Sign up] and named [start] by the form [signup]: after
    [set_identifiers] the title given at construction is gone. *)
Lemma set_identifiers_drops_the_title_of_a_leader :
  (identified_node plain_repr plain_capitalize LeaderNode
     {["title" := VStr "Sign up"]} "start" "signup" initial_world).1
  = Return 1%positive
  ∧ py_getattr
      (identified_node plain_repr plain_capitalize LeaderNode
         {["title" := VStr "Sign up"]} "start" "signup" initial_world).2
      1%positive "title"
    = None
  ∧ py_getattr
      (identified_node plain_repr plain_capitalize LeaderNode
         {["title" := VStr "Sign up"]} "start" "signup" initial_world).2
      1%positive "title"
    ≠ Some (VStr "Sign up").
Proof.
  assert (py_getattr
            (identified_node plain_repr plain_capitalize LeaderNode
               {["title" := VStr "Sign up"]} "start" "signup" initial_world).2
            1%positive "title"
          = None) as Hgone by by_evaluation.
  split; [by_evaluation|]. split; [exact Hgone|].
  rewrite Hgone. discriminate.
Qed.

(** ** [Node.resolve_data] *)

Lemma Node_resolve_data_escapes py_repr w self data e w' :
  Node_resolve_data py_repr self data w = (Raise e, w') →
  e = Exn FormDataAccessException "" ∧ w' = w.
Proof.
  unfold Node_resolve_data, try_except_all, getattr, setattr, py_getitem,
    getattr_in. run.
  destruct (py_getattr w self "name") as [[[| | |name]| | |]|]; simpl;
    try destruct (data !! name); simpl; intros [= <- <-]; done.
Qed.

(** C8: [resolve_data] on a node whose name is the string [name]: when the
    submission has the key, the call returns and the node's [data] is the
    submitted value, whatever it is, with the other attributes as they
    were; when it has not, the call raises [FormDataAccessException] and
    changes nothing.  And whatever the node and the submission, the only
    exception that leaves the call is [FormDataAccessException]. *)
Theorem resolve_data_binds_or_fails py_repr w self data :
  (∀ name,
      py_getattr w self "name" = Some (VStr name) →
      match data !! name with
      | Some v =>
          ∃ w', Node_resolve_data py_repr self data w = (Return tt, w')
            ∧ py_getattr w' self "data" = Some v
            ∧ ∀ k, k ≠ "data" → py_getattr w' self k = py_getattr w self k
      | None =>
          Node_resolve_data py_repr self data w
          = (Raise (Exn FormDataAccessException ""), w)
      end)
  ∧ (∀ e w',
        Node_resolve_data py_repr self data w = (Raise e, w') →
        e = Exn FormDataAccessException "" ∧ w' = w).
Proof.
  split; [|apply Node_resolve_data_escapes].
  intros name Hname.
  unfold Node_resolve_data, try_except_all, getattr, setattr, py_getitem,
    getattr_in. run.
  rewrite Hname; simpl. destruct (data !! name) as [v|]; [|reflexivity].
  eexists; split; [reflexivity|]. split.
  - apply py_getattr_set_eq.
  - intros k Hk. by apply py_getattr_set_ne.
Qed.

(** The field [password] of the form [login]: its data after an empty
    submitted value, and the error when the submission has only
    [username]. *)
Lemma resolve_data_binds_or_fails_witness :
  fst ((password ← password_of_login;
        Node_resolve_data plain_repr password bob_empty_password;;
        getattr password "data") initial_world)
  = Return (VStr "")
  ∧ fst ((password ← password_of_login;
          Node_resolve_data plain_repr password bob_only) initial_world)
    = Raise (Exn FormDataAccessException "").
Proof.
  pose (w := snd (password_of_login initial_world)).
  assert (password_of_login initial_world = (Return 1%positive, w)) as Hbuilt
    by by_evaluation.
  assert (py_getattr w 1%positive "name" = Some (VStr "password")) as Hname
    by by_evaluation.
  assert (bob_empty_password !! "password" = Some (VStr "")) as Hempty
    by by_evaluation.
  assert (bob_only !! "password" = None) as Habsent by by_evaluation.
  destruct (resolve_data_binds_or_fails plain_repr w 1%positive
              bob_empty_password) as [Hbind _].
  specialize (Hbind "password" Hname). rewrite Hempty in Hbind.
  destruct (resolve_data_binds_or_fails plain_repr w 1%positive bob_only)
    as [Hfail _].
  specialize (Hfail "password" Hname). rewrite Habsent in Hfail.
  split.
  - destruct Hbind as (w' & Hrun & Hdata & _).
    unfold getattr, getattr_in. run.
    rewrite Hbuilt. cbn iota beta. rewrite Hrun. cbn iota beta.
    rewrite Hdata. reflexivity.
  - run. rewrite Hbuilt. cbn iota beta. rewrite Hfail. reflexivity.
Defined.

(** ** [Node.get_context] *)

(** A key of the harvested dict is a name the comprehension went through,
    or was in the dict before. *)
Lemma harvest_keys w self names d0 d k :
  harvest w self names d0 = Return d →
  is_Some (d !! k) → k ∈ names ∨ is_Some (d0 !! k).
Proof.
  revert d0. induction names as [|i rest IH]; intros d0; simpl.
  - intros [= ->]. auto.
  - rewrite elem_of_cons. destruct (str_startswith i "_").
    { intros H Hk. destruct (IH _ H Hk); auto. }
    destruct (getattr_in w self "_ignores") as [ign|]; simpl; [|done].
    destruct (py_in w ign i) as [[]|]; simpl; [| |done].
    { intros H Hk. destruct (IH _ H Hk); auto. }
    destruct (getattr_in w self i) as [v|]; simpl; [|done].
    intros H Hk. destruct (IH _ H Hk) as [?|Hin]; [auto|].
    destruct (decide (i = k)) as [->|Hne]; [auto|].
    rewrite lookup_insert_ne in Hin by done. by right.
Qed.

(** Closes the case analyses of [harvest_lookup]: each is a disagreement
    between two decided conjunctions about membership in [i :: rest]. *)
Ltac decided_cons :=
  repeat destruct (decide _) as [?|?]; try done; exfalso;
  repeat match goal with
         | H : _ ∧ _ |- _ => destruct H
         | H : _ ∈ _ :: _ |- _ => apply elem_of_cons in H as [->|?]
         | H : ¬ (_ ∈ _ :: _ ∧ _) |- _ => apply H; rewrite elem_of_cons
         | H : ¬ (_ ∧ _) |- _ => apply H
         end;
  solve [ auto | congruence ].

(** When [_ignores] is a list, the comprehension succeeds; it binds a name
    it went through to what [getattr] gives, unless the name starts with an
    underscore or is in the list. *)
Lemma harvest_lookup w self li names d0 :
  py_getattr w self "_ignores" = Some (VList li) →
  (∀ k, k ∈ names → is_Some (py_getattr w self k)) →
  ∃ d, harvest w self names d0 = Return d
    ∧ ∀ k, d !! k =
        if decide (k ∈ names ∧ str_startswith k "_" = false
                   ∧ VStr k ∉ the_list w li)
        then py_getattr w self k else d0 !! k.
Proof.
  intros Hign. revert d0.
  induction names as [|i rest IH]; intros d0 Hattr; cbn [harvest].
  - eexists; split; [reflexivity|]. intros k.
    destruct (decide _) as [[H _]|]; [|done]. by apply elem_of_nil in H.
  - assert (∀ k, k ∈ rest → is_Some (py_getattr w self k)) as Hrest.
    { intros k Hk. apply Hattr, elem_of_cons. auto. }
    destruct (str_startswith i "_") eqn:Hus.
    { destruct (IH d0 Hrest) as (d & -> & Hd). eexists; split; [reflexivity|].
      intros k. rewrite Hd. decided_cons. }
    rewrite (getattr_in_Some _ _ _ _ Hign); simpl.
    destruct (bool_decide (VStr i ∈ the_list w li)) eqn:Hin; simpl.
    { apply bool_decide_eq_true in Hin.
      destruct (IH d0 Hrest) as (d & -> & Hd). eexists; split; [reflexivity|].
      intros k. rewrite Hd. decided_cons. }
    apply bool_decide_eq_false in Hin.
    destruct (Hattr i) as [v Hv]; [apply elem_of_cons; auto|].
    rewrite (getattr_in_Some _ _ _ _ Hv); simpl.
    destruct (IH (<[i := v]> d0) Hrest) as (d & -> & Hd).
    eexists; split; [reflexivity|].
    intros k. rewrite Hd.
    destruct (decide (i = k)) as [->|Hne].
    + rewrite lookup_insert_eq. decided_cons.
    + rewrite lookup_insert_ne by done. decided_cons.
Qed.

(** The loop over a [_requires] that is a list of strings: it ends
    normally when the dict has them all, and otherwise raises for the first
    one the dict lacks. *)
Lemma check_requires_strings py_repr w d requires :
  match check_requires py_repr w d ((fun r => VStr r) <$> requires) with
  | Return _ => ∀ r, r ∈ requires → is_Some (d !! r)
  | Raise e =>
      ∃ before r after,
        requires = (before ++ r :: after)%list
        ∧ (∀ x, x ∈ before → is_Some (d !! x))
        ∧ d !! r = None
        ∧ e = Exn InvalidContextException
                ("Missing required context value '" +:+ r +:+ "'")
  end.
Proof.
  induction requires as [|r rest IH].
  - intros r Hr. by apply elem_of_nil in Hr.
  - change (check_requires py_repr w d ((fun r => VStr r) <$> r :: rest))
      with (if bool_decide (is_Some (d !! r))
            then check_requires py_repr w d ((fun r => VStr r) <$> rest)
            else Raise (missing_context py_repr w (VStr r))).
    destruct (bool_decide (is_Some (d !! r))) eqn:Hr.
    + apply bool_decide_eq_true in Hr.
      destruct (check_requires py_repr w d ((fun r => VStr r) <$> rest)).
      * intros x [->|Hx]%elem_of_cons; eauto.
      * destruct IH as (before & x & after & -> & Hbefore & Hx & ->).
        exists (r :: before), x, after. repeat split; try done.
        intros y [->|Hy]%elem_of_cons; eauto.
    + apply bool_decide_eq_false, eq_None_not_Some in Hr.
      exists [], r, rest. repeat split; try done.
      intros x Hx. by apply elem_of_nil in Hx.
Qed.

(** C6 (amended): on a node whose [_ignores] is a list and whose
    [_requires] is a list of strings, the comprehension of [get_context]
    succeeds and harvests exactly the attributes whose name neither starts
    with an underscore nor is in [_ignores].  When the harvested dict has
    every required name, [get_context] returns it with the global context
    added under [g]: no key of the result starts with an underscore, no key
    other than [g] is in [_ignores], and every required name is a key.
    When it lacks one, [get_context] raises [InvalidContextException] with
    the first such name in its message. *)
Theorem get_context_harvests_checks_and_adds_g py_repr w self g li lr requires :
  py_getattr w self "_ignores" = Some (VList li) →
  py_getattr w self "_requires" = Some (VList lr) →
  the_list w lr = (fun r => VStr r) <$> requires →
  ∃ harvested,
    harvest w self (py_dir w self) ∅ = Return harvested
    ∧ (∀ k, harvested !! k =
            if decide (str_startswith k "_" = false ∧ VStr k ∉ the_list w li)
            then py_getattr w self k else None)
    ∧ match get_context_in py_repr w self g with
      | Return d =>
          d = <["g" := g]> harvested
          ∧ (∀ r, r ∈ requires → is_Some (harvested !! r) ∧ is_Some (d !! r))
          ∧ (∀ k, is_Some (d !! k) →
                  str_startswith k "_" = false
                  ∧ (k ≠ "g" → VStr k ∉ the_list w li))
      | Raise e =>
          ∃ before r after,
            requires = (before ++ r :: after)%list
            ∧ (∀ x, x ∈ before → is_Some (harvested !! x))
            ∧ harvested !! r = None
            ∧ e = Exn InvalidContextException
                    ("Missing required context value '" +:+ r +:+ "'")
      end.
Proof.
  intros Hign Hreq Hitems.
  destruct (harvest_lookup w self li (py_dir w self) ∅ Hign)
    as (harvested & Hharvest & Hlookup).
  { intros k. apply py_dir_getattr. }
  assert (∀ k, harvested !! k =
               if decide (str_startswith k "_" = false
                          ∧ VStr k ∉ the_list w li)
               then py_getattr w self k else None) as Hkeys.
  { intros k. rewrite Hlookup.
    destruct (py_getattr w self k) as [v|] eqn:Hk.
    - assert (k ∈ py_dir w self) by (apply py_dir_getattr; eauto).
      repeat destruct (decide _) as [?|?]; try done; exfalso; tauto.
    - rewrite lookup_empty. by repeat destruct (decide _). }
  exists harvested. split; [exact Hharvest|]. split; [exact Hkeys|].
  unfold get_context_in. rewrite Hharvest. simpl.
  rewrite (getattr_in_Some _ _ _ _ Hreq). simpl.
  fold (the_list w lr). rewrite Hitems.
  pose proof (check_requires_strings py_repr w harvested requires) as Hcheck.
  destruct (check_requires py_repr w harvested ((fun r => VStr r) <$> requires))
    as [[]|e]; simpl; [|exact Hcheck].
  split; [reflexivity|]. split.
  - intros r Hr. split; [by apply Hcheck|].
    destruct (decide (r = "g")) as [->|Hne].
    + rewrite lookup_insert_eq. eauto.
    + rewrite lookup_insert_ne by done. by apply Hcheck.
  - intros k Hk. destruct (decide (k = "g")) as [->|Hne]; [done|].
    rewrite lookup_insert_ne in Hk by done.
    rewrite Hkeys in Hk. destruct (decide _) as [[? ?]|]; [done|].
    by destruct Hk.
Qed.

(** A [ListNode] built with its [items]: the required name is harvested,
    the context is returned with [g] and [items], and [template], which
    [_ignores] lists, is no key of it. *)
Lemma get_context_harvests_checks_and_adds_g_witness :
  ∃ d, get_context_in plain_repr (list_node_with_items initial_world).2
         1%positive (VStr "page") = Return d
    ∧ d !! "g" = Some (VStr "page")
    ∧ is_Some (d !! "items")
    ∧ d !! "template" = None.
Proof.
  pose (w := (list_node_with_items initial_world).2). fold w.
  assert (py_getattr w 1%positive "_ignores" = Some (VList Node__ignores))
    as Hignores by by_evaluation.
  assert (py_getattr w 1%positive "_requires"
          = Some (VList ListNode__requires)) as Hrequires by by_evaluation.
  assert (the_list w ListNode__requires = (fun r => VStr r) <$> ["items"])
    as Hitems by by_evaluation.
  assert (the_list w Node__ignores = [VStr "template"; VStr "validator"])
    as Hlisted by by_evaluation.
  assert ((if get_context_in plain_repr w 1%positive (VStr "page")
           is Return _ then true else false) = true) as Hreturns
    by by_evaluation.
  destruct (get_context_harvests_checks_and_adds_g plain_repr w 1%positive
              (VStr "page") Node__ignores ListNode__requires ["items"]
              Hignores Hrequires Hitems)
    as (harvested & _ & _ & Hcontext).
  revert Hreturns Hcontext.
  destruct (get_context_in plain_repr w 1%positive (VStr "page")) as [d|e];
    intros Hreturns Hcontext; [|discriminate Hreturns].
  destruct Hcontext as (-> & Hrequired & Hkeys).
  eexists; split; [reflexivity|].
  split; [apply lookup_insert_eq|].
  split; [apply Hrequired, elem_of_cons; auto|].
  destruct (<["g" := VStr "page"]> harvested !! "template") as [v|] eqn:Hv;
    [|reflexivity].
  destruct (Hkeys "template") as [_ Hignored]; [by eexists|].
  exfalso. apply Hignored; [discriminate|].
  rewrite Hlisted. apply elem_of_cons. auto.
Defined.

(** C6 (as stated, refuted): a node built with [_ignores=['g']]:
    [get_context] returns a dict that has the key [g], bound to the global
    context, although [g] is in the node's [_ignores]. *)
Lemma get_context_returns_an_ignored_g :
  fst (node_ignoring_g (VStr "page") initial_world)
  = Return (Some (VStr "page"), true).
Proof. vm_compute. reflexivity. Qed.

(** ** [LeaderNode.set_identifiers] *)

(** Every class binds [_attr_name], so reading it never fails. *)
Lemma py_getattr_attr_name w self : is_Some (py_getattr w self "_attr_name").
Proof.
  unfold py_getattr. rewrite class_getattr_attr_name.
  destruct (inst_dict (the_object w self) !! "_attr_name"); eauto.
Qed.

(** [Node.set_identifiers] changes the class of no node; when it raises,
    the node has no [title] of its own, and when it returns, [title] can be
    read. *)
Lemma Node_set_identifiers_title py_repr cap w self p r w' :
  Node_set_identifiers py_repr cap self p w = (r, w') →
  inst_class (the_object w' self) = inst_class (the_object w self)
  ∧ match r with
    | Return _ => is_Some (py_getattr w' self "title")
    | Raise _ => inst_dict (the_object w' self) !! "title" = None
    end.
Proof.
  destruct (py_getattr_attr_name w self) as [a Ha].
  unfold Node_set_identifiers, hasattr, getattr, setattr, getattr_in,
    py_capitalize.
  run.
  destruct (py_getattr w self "id") as [vi|] eqn:Hi; simpl.
  all: destruct (py_getattr w self "name") as [vn|] eqn:Hnm; simpl.
  all: destruct (py_getattr w self "title") as [vt|] eqn:Ht; simpl.
  all: repeat (rewrite ?Ha, ?Hi, ?Hnm, ?Ht, ?py_getattr_set_eq; simpl;
               try (rewrite py_getattr_set_ne by discriminate)).
  all: try (destruct a as [[| | |n]| | |]; simpl).
  all: intros [= <- <-].
  all: rewrite ?the_object_set_dict; simpl.
  all: split; [reflexivity|].
  all: rewrite ?py_getattr_set_eq, ?lookup_insert_ne by discriminate.
  all: repeat (rewrite py_getattr_set_ne by discriminate).
  all: rewrite ?Ht; eauto.
  all: unfold py_getattr in Ht;
    by destruct (inst_dict (the_object w self) !! "title").
Qed.

(** Whatever [LeaderNode.set_identifiers] ends with, it leaves the node
    with its class and with no [title] of its own. *)
Lemma LeaderNode_set_identifiers_title py_repr cap w self p r w' :
  LeaderNode_set_identifiers py_repr cap self p w = (r, w') →
  inst_class (the_object w' self) = inst_class (the_object w self)
  ∧ inst_dict (the_object w' self) !! "title" = None.
Proof.
  unfold LeaderNode_set_identifiers, delattr. run.
  destruct (Node_set_identifiers py_repr cap self p w) as [r1 w1] eqn:Hbase.
  apply Node_set_identifiers_title in Hbase as [Hclass Htitle].
  destruct r1 as [[]|e].
  - destruct (inst_dict (the_object w1 self) !! "title") eqn:Hown;
      intros [= <- <-]; [|done].
    rewrite the_object_set_dict; simpl. split; [done|].
    apply lookup_delete_eq.
  - by intros [= <- <-].
Qed.

(** On a [LeaderNode] whose attribute name is a string,
    [set_identifiers] returns normally. *)
Lemma LeaderNode_set_identifiers_returns py_repr cap w self n p :
  inst_class (the_object w self) = LeaderNode →
  py_getattr w self "_attr_name" = Some (VStr n) →
  ∃ w', set_identifiers py_repr cap self p w = (Return tt, w').
Proof.
  intros Hclass Hn. unfold set_identifiers. rewrite Hclass.
  unfold LeaderNode_set_identifiers, delattr. run.
  destruct (Node_set_identifiers_fills py_repr cap w self n p Hn)
    as (w1 & Hbase & _ & _ & Htitle).
  rewrite Hbase.
  destruct (Node_set_identifiers_title _ _ _ _ _ _ _ Hbase) as [Hclass1 _].
  unfold py_getattr in Htitle at 1.
  rewrite Hclass1, Hclass, class_getattr_identifiers in Htitle
    by (rewrite !elem_of_cons; auto).
  destruct (inst_dict (the_object w1 self) !! "title"); [eauto|done].
Qed.

(** C9: on a node of class [LeaderNode], whatever [set_identifiers] ends
    with and whatever the node was built with, a context [get_context]
    returns afterwards has no key [title]; and [set_identifiers] returns
    normally when the attribute name of the node is a string. *)
Theorem leader_context_has_no_title py_repr cap w self p g :
  inst_class (the_object w self) = LeaderNode →
  (∀ n, py_getattr w self "_attr_name" = Some (VStr n) →
        ∃ w', set_identifiers py_repr cap self p w = (Return tt, w'))
  ∧ (∀ r w' d,
        set_identifiers py_repr cap self p w = (r, w') →
        get_context_in py_repr w' self g = Return d →
        d !! "title" = None).
Proof.
  intros Hclass. split.
  { intros n. by apply LeaderNode_set_identifiers_returns. }
  intros r w' d Hset Hcontext.
  unfold set_identifiers in Hset. rewrite Hclass in Hset.
  apply LeaderNode_set_identifiers_title in Hset as [Hclass' Hown].
  assert (py_getattr w' self "title" = None) as Hnone.
  { unfold py_getattr. rewrite Hown, Hclass', Hclass.
    apply class_getattr_identifiers. rewrite !elem_of_cons; auto. }
  unfold get_context_in in Hcontext.
  destruct (harvest w' self (py_dir w' self) ∅) as [harvested|] eqn:Hharvest;
    [|discriminate].
  simpl in Hcontext.
  destruct (getattr_in w' self "_requires") as [requires|]; [|discriminate].
  simpl in Hcontext.
  destruct (py_iter w' requires) as [items|]; [|discriminate].
  simpl in Hcontext.
  destruct (check_requires py_repr w' harvested items); [|discriminate].
  injection Hcontext as <-.
  rewrite lookup_insert_ne by discriminate.
  apply eq_None_not_Some. intros Hsome.
  destruct (harvest_keys _ _ _ _ _ "title" Hharvest Hsome) as [Hdir|Hempty].
  - apply py_dir_getattr in Hdir. rewrite Hnone in Hdir. by destruct Hdir.
  - rewrite lookup_empty in Hempty. by destruct Hempty.
Qed.

(** A [LeaderNode] built with [title='Sign up']: [set_identifiers] returns,
    [get_context] returns a context, and [title] is no key of it. *)
Lemma leader_context_has_no_title_witness :
  ∃ d, fst ((start ← leader_with_title;
             set_identifiers plain_repr plain_capitalize start "signup";;
             Node_get_context plain_repr start (VStr "page")) initial_world)
       = Return d
    ∧ d !! "title" = None
    ∧ is_Some (d !! "id").
Proof.
  pose (w := (leader_with_title initial_world).2).
  assert (leader_with_title initial_world = (Return 1%positive, w)) as Hbuilt
    by by_evaluation.
  assert (inst_class (the_object w 1%positive) = LeaderNode) as Hclass
    by by_evaluation.
  assert (py_getattr w 1%positive "_attr_name" = Some (VStr "start"))
    as Hattr by by_evaluation.
  assert ((if get_context_in plain_repr
                (set_identifiers plain_repr plain_capitalize 1%positive "signup" w).2
                1%positive (VStr "page")
           is Return d then bool_decide (is_Some (d !! "id")) else false)
          = true) as Hid by by_evaluation.
  destruct (leader_context_has_no_title plain_repr plain_capitalize w 1%positive "signup"
              (VStr "page") Hclass) as [Hreturns Hnone].
  destruct (Hreturns "start" Hattr) as (w' & Hset).
  rewrite Hset in Hid. cbn [snd] in Hid.
  destruct (get_context_in plain_repr w' 1%positive (VStr "page"))
    as [d|e] eqn:Hcontext; [|discriminate Hid].
  exists d. split; [|split].
  - unfold Node_get_context. run.
    rewrite Hbuilt. cbn iota beta. rewrite Hset. cbn iota beta.
    by rewrite Hcontext.
  - exact (Hnone _ _ _ Hset Hcontext).
  - by apply bool_decide_eq_true in Hid.
Defined.

(** ** Bindings *)

Section BindingFacts.

Variable Form : Type.
Variable get_by_attr : Form → argref → outcome oid.
Variable get_list_names : world → oid → outcome (list string).

Local Abbreviation resolve_attr_names :=
  (ActionWrapper_resolve_attr_names Form get_by_attr).
Local Abbreviation resolves_to := (resolves_to Form get_by_attr).

Lemma resolves_to_is_field form x y : resolves_to form x y → is_field y.
Proof. by intros (node & _ & ->). Qed.

(** The loop over the positional references, started at index [length done]
    with the references [todo] still to come: it touches nothing but
    [args], and when it ends normally every reference of [todo] has been
    replaced. *)
Lemma resolve_args_replaces form todo :
  ∀ done s r s',
    args s.1 = (done ++ todo)%list →
    resolve_args Form get_by_attr form (enumerate_from (length done) todo) s
    = (r, s') →
    s'.2 = s.2
    ∧ callable s'.1 = callable s.1
    ∧ kwargs s'.1 = kwargs s.1
    ∧ resolved s'.1 = resolved s.1
    ∧ (r = Return tt →
       ∃ fields, Forall2 (resolves_to form) todo fields
                 ∧ args s'.1 = (done ++ fields)%list).
Proof.
  induction todo as [|x todo IH]; intros done s r s' Hargs; simpl.
  - run. intros [= <- <-]. repeat split; try done.
    intros _. exists []. split; [constructor|done].
  - unfold on_self. run.
    destruct (get_by_attr form x) as [node|e] eqn:Hx.
    + intros Hrest.
      replace (S (length done)) with (length (done ++ [Field node]))%list
        in Hrest by (rewrite length_app; simpl; lia).
      apply IH in Hrest as (Hw & Hc & Hk & Hr & Hfields).
      * repeat split; try done. intros ->.
        destruct (Hfields eq_refl) as (fields & Hall & Hargs').
        exists (Field node :: fields). split.
        -- constructor; [by exists node|done].
        -- by rewrite Hargs', <- app_assoc.
      * simpl. rewrite Hargs, <- app_assoc. simpl.
        rewrite insert_app_r_alt, Nat.sub_diag by done. reflexivity.
    + intros [= <- <-]. repeat split; try done.
Qed.

(** The loop over the keyword references: it touches nothing but [kwargs],
    leaves the keys it does not go through, and when it ends normally has
    replaced the reference of every key it went through. *)
Lemma resolve_kwargs_replaces form pending :
  ∀ s r s',
    NoDup pending.*1 →
    resolve_kwargs Form get_by_attr form pending s = (r, s') →
    s'.2 = s.2
    ∧ callable s'.1 = callable s.1
    ∧ args s'.1 = args s.1
    ∧ resolved s'.1 = resolved s.1
    ∧ (∀ k, k ∉ pending.*1 → kwargs s'.1 !! k = kwargs s.1 !! k)
    ∧ (r = Return tt →
       ∀ k v, (k, v) ∈ pending →
              ∃ y, resolves_to form v y ∧ kwargs s'.1 !! k = Some y).
Proof.
  induction pending as [|[key val] pending IH]; intros s r s' Hnodup; simpl.
  - run. intros [= <- <-]. repeat split; try done.
    intros _ k v Hin. by apply elem_of_nil in Hin.
  - apply NoDup_cons in Hnodup as [Hfresh Hnodup].
    unfold on_self. run.
    destruct (get_by_attr form val) as [node|e] eqn:Hval.
    + intros Hrest.
      apply IH in Hrest as (Hw & Hc & Ha & Hr & Hkeep & Hdone); [|done].
      simpl in *. repeat split; try done.
      * intros k Hk. apply not_elem_of_cons in Hk as [Hne Hk].
        rewrite (Hkeep k Hk). by apply lookup_insert_ne.
      * intros -> k v [[= -> ->]|Hin]%elem_of_cons.
        -- exists (Field node). split; [by exists node|].
           rewrite (Hkeep key Hfresh). apply lookup_insert_eq.
        -- by apply Hdone.
    + intros [= <- <-]. repeat split; try done.
Qed.

(** A call that ends normally leaves the binding resolved. *)
Lemma resolve_attr_names_sets_resolved form s s' :
  resolve_attr_names form s = (Return tt, s') → resolved s'.1 = true.
Proof.
  unfold ActionWrapper_resolve_attr_names, on_self. run.
  destruct (resolved s.1) eqn:Hflag.
  - by intros [= <-].
  - destruct (resolve_args _ _ _ _ _) as [[[]|?] s1]; [|done].
    destruct (resolve_kwargs _ _ _ _ _) as [[[]|?] s2]; [|done].
    by intros [= <-].
Qed.

(** The first successful call on a binding replaces every stored
    reference by the field the form gives for it, sets the flag, and
    touches neither the callable nor the nodes. *)
Lemma resolve_attr_names_replaces form s s' :
  resolved s.1 = false →
  resolve_attr_names form s = (Return tt, s') →
  s'.2 = s.2
  ∧ callable s'.1 = callable s.1
  ∧ resolved s'.1 = true
  ∧ Forall2 (resolves_to form) (args s.1) (args s'.1)
  ∧ ∀ k, option_Forall2 (resolves_to form) (kwargs s.1 !! k) (kwargs s'.1 !! k).
Proof.
  intros Hflag Hrun.
  pose proof (resolve_attr_names_sets_resolved _ _ _ Hrun) as Hset.
  revert Hrun. unfold ActionWrapper_resolve_attr_names, on_self. run.
  rewrite Hflag.
  destruct (resolve_args _ _ _ _ _) as [r1 s1] eqn:Hargs.
  apply (resolve_args_replaces form (args s.1) [] s r1 s1 eq_refl) in Hargs
    as (Hw1 & Hc1 & Hk1 & _ & Hfields).
  destruct r1 as [[]|?]; [|done].
  destruct (Hfields eq_refl) as (fields & Hall & Hargs1). simpl in Hargs1.
  destruct (resolve_kwargs _ _ _ _ _) as [r2 s2] eqn:Hkw.
  apply resolve_kwargs_replaces in Hkw
    as (Hw2 & Hc2 & Ha2 & _ & Hkeep & Hdone);
    [|apply NoDup_fst_map_to_list].
  destruct r2 as [[]|?]; [|done].
  intros [= <-]. simpl.
  rewrite Hw2, Hw1, Hc2, Hc1, Ha2, Hargs1. repeat split; try done.
  intros k. destruct (kwargs s.1 !! k) as [v|] eqn:Hk.
  - destruct (Hdone eq_refl k v) as (y & Hy & ->); [|by constructor].
    by apply elem_of_map_to_list.
  - rewrite Hkeep, Hk1, Hk; [constructor|].
    intros ([k' v] & -> & Hin)%list_elem_of_fmap.
    apply elem_of_map_to_list in Hin. simpl in Hk. congruence.
Qed.

(** C4: on a binding whose [resolved] flag is set, [resolve_attr_names]
    with any form returns at once and leaves the binding, its references
    and its flag, and the nodes as they are; and a call that ended normally
    leaves the binding in that condition, so that a second call, with the
    same form or another, changes nothing. *)
Theorem resolve_attr_names_idempotent (s : binding_state) :
  (resolved s.1 = true →
   ∀ form,
     ActionWrapper_resolve_attr_names Form get_by_attr form s = (Return tt, s))
  ∧ (∀ form s',
        ActionWrapper_resolve_attr_names Form get_by_attr form s
        = (Return tt, s') →
        resolved s'.1 = true
        ∧ ∀ form',
            ActionWrapper_resolve_attr_names Form get_by_attr form' s'
            = (Return tt, s')).
Proof.
  assert (∀ t : binding_state, resolved t.1 = true →
          ∀ form, resolve_attr_names form t = (Return tt, t)) as Hnoop.
  { intros t Hflag form. unfold ActionWrapper_resolve_attr_names. run.
    by rewrite Hflag. }
  split; [apply Hnoop|].
  intros form s' Hrun.
  pose proof (resolve_attr_names_sets_resolved _ _ _ Hrun) as Hflag.
  split; [exact Hflag|]. by apply Hnoop.
Qed.

Lemma ActionWrapper__call___unresolved (s : binding_state) :
  resolved s.1 = false → ActionWrapper__call__ s = (Raise not_resolved, s).
Proof. intros Hflag. unfold ActionWrapper__call__. run. by rewrite Hflag. Qed.

Lemma ActionWrapper__call___resolved (s : binding_state) :
  resolved s.1 = true →
  ActionWrapper__call__ s
  = try_except_TypeError (py_call (callable s.1) (args s.1) (kwargs s.1))
      (fun e => raise (not_callable e)) s.
Proof. intros Hflag. unfold ActionWrapper__call__. run. by rewrite Hflag. Qed.

Lemma Check_node_visited_unresolved visited (s : binding_state) :
  resolved s.1 = false →
  Check_node_visited get_list_names visited s = (Raise not_resolved, s).
Proof. intros Hflag. unfold Check_node_visited. run. by rewrite Hflag. Qed.

(** On a resolved binding, [__call__] ends as the call of the callable
    does, except that a [TypeError] becomes a [NotCallableException]. *)
Lemma ActionWrapper__call___outcome (s : binding_state) :
  resolved s.1 = true →
  match callable s.1 (args s.1) (kwargs s.1) s.2 with
  | Mismatch msg =>
      ActionWrapper__call__ s = (Raise (not_callable (Exn TypeError msg)), s)
  | Ran (Return v) w => ActionWrapper__call__ s = (Return v, (s.1, w))
  | Ran (Raise e) w =>
      ActionWrapper__call__ s
      = (Raise (if is_TypeError (exc_class e) then not_callable e else e),
         (s.1, w))
  end.
Proof.
  intros Hflag. rewrite (ActionWrapper__call___resolved s Hflag).
  unfold try_except_TypeError, py_call, raise.
  destruct (callable s.1 (args s.1) (kwargs s.1) s.2) as [msg|[v|e] w];
    simpl; try reflexivity.
  by destruct (is_TypeError (exc_class e)).
Qed.

(** C5: while [resolved] is false, [__call__] and [node_visited] raise the
    [ValueError] and change nothing.  A call of [resolve_attr_names] that
    found the binding unresolved and ended normally leaves the nodes as
    they were, and every positional and every keyword reference is a
    field, the one the form gave for the reference stored before.
    [__call__] then applies the wrapped callable to these positional and
    keyword references: it returns what the callable returns and raises
    when the callable raises, with the nodes as the callable left them;
    a [TypeError] is raised as the [NotCallableException] of the handler. *)
Theorem call_needs_resolution_and_passes_fields (s : binding_state) visited :
  (resolved s.1 = false →
   ActionWrapper__call__ s = (Raise not_resolved, s)
   ∧ Check_node_visited get_list_names visited s = (Raise not_resolved, s))
  ∧ (∀ form s',
        resolved s.1 = false →
        resolve_attr_names form s = (Return tt, s') →
        Forall is_field (args s'.1)
        ∧ map_Forall (fun _ r => is_field r) (kwargs s'.1)
        ∧ Forall2 (resolves_to form) (args s.1) (args s'.1)
        ∧ (∀ k, option_Forall2 (resolves_to form)
                  (kwargs s.1 !! k) (kwargs s'.1 !! k))
        ∧ s'.2 = s.2
        ∧ match callable s.1 (args s'.1) (kwargs s'.1) s.2 with
          | Mismatch msg =>
              ActionWrapper__call__ s'
              = (Raise (not_callable (Exn TypeError msg)), s')
          | Ran (Return v) w => ActionWrapper__call__ s' = (Return v, (s'.1, w))
          | Ran (Raise e) w =>
              ActionWrapper__call__ s'
              = (Raise (if is_TypeError (exc_class e) then not_callable e
                        else e),
                 (s'.1, w))
          end).
Proof.
  split.
  { intros Hflag. split.
    - by apply ActionWrapper__call___unresolved.
    - by apply Check_node_visited_unresolved. }
  intros form s' Hflag Hrun.
  destruct (resolve_attr_names_replaces form s s' Hflag Hrun)
    as (Hstore & Hcallable & Hflag' & Hargs & Hkwargs).
  split; [|split; [|split; [exact Hargs|split; [exact Hkwargs|split;
    [exact Hstore|]]]]].
  - clear -Hargs. induction Hargs as [|x y xs ys Hxy _ IH]; constructor.
    + by eapply resolves_to_is_field.
    + exact IH.
  - intros k y Hk. specialize (Hkwargs k). rewrite Hk in Hkwargs.
    inversion Hkwargs as [x y' Hxy|]; subst.
    by eapply resolves_to_is_field.
  - rewrite <- Hcallable, <- Hstore.
    by apply ActionWrapper__call___outcome.
Qed.

(** What the handler leaves alone: on a resolved binding, a value the
    callable returns is returned by [__call__], and an exception raised in
    the body of the callable that is no [TypeError] leaves [__call__]
    unchanged, with the store as the body left it.  When the call itself
    fails, [__call__] raises the [NotCallableException] of the handler. *)
Lemma call_lets_other_exceptions_through (s : binding_state) :
  resolved s.1 = true →
  match callable s.1 (args s.1) (kwargs s.1) s.2 with
  | Mismatch msg =>
      ActionWrapper__call__ s = (Raise (not_callable (Exn TypeError msg)), s)
  | Ran (Return v) w => ActionWrapper__call__ s = (Return v, (s.1, w))
  | Ran (Raise e) w =>
      is_TypeError (exc_class e) = false →
      ActionWrapper__call__ s = (Raise e, (s.1, w))
  end.
Proof.
  intros Hflag. pose proof (ActionWrapper__call___outcome s Hflag) as Hcall.
  destruct (callable s.1 (args s.1) (kwargs s.1) s.2) as [msg|[v|e] w];
    try exact Hcall.
  intros Hother. by rewrite Hother in Hcall.
Qed.

(** ** The visitation gate *)

Lemma some_name_visited_true names (visited : gset string) :
  some_name_visited names visited = true
  ↔ ∃ name, name ∈ names ∧ name ∈ visited.
Proof.
  induction names as [|name names IH]; simpl.
  - split; [done|]. intros (name & Hin & _). by apply elem_of_nil in Hin.
  - case_bool_decide as Hname.
    + split; [|done]. intros _. exists name. split; [apply elem_of_cons|]; auto.
    + rewrite IH. split.
      * intros (x & Hx & Hv). exists x. split; [apply elem_of_cons|]; auto.
      * intros (x & [->|Hx]%elem_of_cons & Hv); [done|eauto].
Qed.

Lemma some_name_visited_mono names (V W : gset string) :
  V ⊆ W → some_name_visited names V = true → some_name_visited names W = true.
Proof.
  intros Hsub. rewrite !some_name_visited_true.
  intros (name & Hin & Hv). exists name. split; [done|]. by apply Hsub.
Qed.

(** One outer loop, over references that are fields exposing names: it
    gives an answer, and the answer is [true] exactly when every field has
    a name in [visited]. *)
Lemma all_nodes_visited_exposed w nodes visited :
  (∀ r, r ∈ nodes →
        ∃ o names, r = Field o ∧ get_list_names w o = Return names) →
  ∃ through,
    all_nodes_visited get_list_names w nodes visited = Return through
    ∧ (through = true
       ↔ ∀ o names, Field o ∈ nodes → get_list_names w o = Return names →
                    ∃ name, name ∈ names ∧ name ∈ visited).
Proof.
  induction nodes as [|node nodes IH]; intros Hexposed.
  - exists true. split; [reflexivity|]. split; [|done].
    intros _ o names Hin. by apply elem_of_nil in Hin.
  - destruct (Hexposed node) as (o & names & -> & Hnames);
      [apply elem_of_cons; auto|].
    destruct IH as (through & Hrest & Hiff).
    { intros r Hr. apply Hexposed, elem_of_cons. auto. }
    cbn [all_nodes_visited list_names]. rewrite Hnames. simpl.
    destruct (some_name_visited names visited) eqn:Hhere.
    + exists through. split; [exact Hrest|]. rewrite Hiff. split.
      * intros Hall o' names' [[= ->]|Hin]%elem_of_cons Hn'.
        -- rewrite Hnames in Hn'. injection Hn' as <-.
           by apply some_name_visited_true.
        -- by eapply Hall.
      * intros Hall o' names' Hin. apply Hall, elem_of_cons. auto.
    + exists false. split; [reflexivity|]. split; [done|].
      intros Hall. destruct (Hall o names) as (name & Hin & Hv);
        [apply elem_of_cons; auto|done|].
      assert (some_name_visited names visited = true) as Htrue
        by (apply some_name_visited_true; eauto).
      congruence.
Qed.

Lemma all_nodes_visited_mono w nodes (V W : gset string) :
  V ⊆ W →
  all_nodes_visited get_list_names w nodes V = Return true →
  all_nodes_visited get_list_names w nodes W = Return true.
Proof.
  intros Hsub. induction nodes as [|node nodes IH]; [done|].
  cbn [all_nodes_visited].
  destruct (list_names get_list_names w node) as [names|e]; simpl; [|done].
  destruct (some_name_visited names V) eqn:HV; [|done].
  rewrite (some_name_visited_mono _ _ _ Hsub HV). exact IH.
Qed.

(** The fields a binding refers to are its positional references and the
    values of its keyword references. *)
Lemma elem_of_referenced (self : ActionWrapper) r :
  r ∈ referenced self ↔ r ∈ args self ∨ ∃ k, kwargs self !! k = Some r.
Proof.
  unfold referenced, kwargs_values. rewrite elem_of_app, list_elem_of_fmap.
  split; (intros [?|H]; [by left|right]).
  - destruct H as ([k v] & -> & Hin). exists k. by apply elem_of_map_to_list.
  - destruct H as [k Hk]. exists (k, r). split; [done|].
    by apply elem_of_map_to_list.
Qed.

(** The query changes neither the binding nor the nodes, whatever it ends
    with. *)
Lemma Check_node_visited_reads visited (s : binding_state) :
  (Check_node_visited get_list_names visited s).2 = s.
Proof.
  unfold Check_node_visited. run.
  destruct (negb (resolved s.1)); [done|].
  destruct (all_nodes_visited _ _ (args s.1) _) as [[]|e]; [|done..].
  by destruct (all_nodes_visited _ _ (kwargs_values s.1) _).
Qed.

(** C3: on a resolved [Check] whose references, positional and keyword,
    are all fields that expose names, [node_visited] returns, changes
    nothing, and its answer is [True] exactly when every referenced field
    has at least one of its names in [visited]. *)
Theorem node_visited_iff_every_field_has_a_visited_name
    (s : binding_state) visited :
  resolved s.1 = true →
  (∀ r, r ∈ referenced s.1 →
        ∃ o names, r = Field o ∧ get_list_names s.2 o = Return names) →
  ∃ ready,
    Check_node_visited get_list_names visited s = (Return ready, s)
    ∧ (ready = true
       ↔ ∀ o names,
           Field o ∈ referenced s.1 →
           get_list_names s.2 o = Return names →
           ∃ name, name ∈ names ∧ name ∈ visited).
Proof.
  intros Hflag Hexposed.
  destruct (all_nodes_visited_exposed s.2 (args s.1) visited)
    as (through_args & Hargs & Hargs_iff).
  { intros r Hr. apply Hexposed. unfold referenced. apply elem_of_app. auto. }
  destruct (all_nodes_visited_exposed s.2 (kwargs_values s.1) visited)
    as (through_kwargs & Hkwargs & Hkwargs_iff).
  { intros r Hr. apply Hexposed. unfold referenced. apply elem_of_app. auto. }
  unfold Check_node_visited. run. rewrite Hflag. simpl.
  rewrite Hargs. simpl.
  destruct through_args.
  - exists through_kwargs. rewrite Hkwargs. split; [reflexivity|].
    rewrite Hkwargs_iff. unfold referenced. split.
    + intros Hkw o names [Hin|Hin]%elem_of_app Hnames.
      * destruct Hargs_iff as [Hall _]. by eapply Hall.
      * by eapply Hkw.
    + intros Hall o names Hin. apply Hall, elem_of_app. auto.
  - exists false. split; [reflexivity|]. split; [done|].
    intros Hall. apply Hargs_iff.
    intros o names Hin. apply Hall. unfold referenced. apply elem_of_app. auto.
Qed.

(** C10: when [node_visited] answers [True] for a set of visited names, it
    answers [True] for every larger set; and whatever it is asked and
    whatever it ends with, it leaves the binding and the nodes as they
    were. *)
Theorem node_visited_monotone (s : binding_state) (V W : gset string) :
  V ⊆ W →
  (Check_node_visited get_list_names V s).1 = Return true →
  Check_node_visited get_list_names W s = (Return true, s)
  ∧ ∀ visited, (Check_node_visited get_list_names visited s).2 = s.
Proof.
  intros Hsub Hready. split; [|intros visited; apply Check_node_visited_reads].
  revert Hready. unfold Check_node_visited. run.
  destruct (negb (resolved s.1)); [done|].
  destruct (all_nodes_visited _ _ (args s.1) V) as [[]|e] eqn:Hargs;
    [|done..].
  rewrite (all_nodes_visited_mono _ _ _ _ Hsub Hargs).
  destruct (all_nodes_visited _ _ (kwargs_values s.1) V) as [[]|e] eqn:Hkw;
    [|done..].
  by rewrite (all_nodes_visited_mono _ _ _ _ Hsub Hkw).
Qed.

End BindingFacts.

(** ** The properties on the sample bindings *)

(** The check of the two password fields: a second call of
    [resolve_attr_names], with an empty registry, changes nothing, as does
    one with the registry of the first call. *)
Lemma resolve_attr_names_idempotent_witness :
  ActionWrapper_resolve_attr_names (gmap string oid) registry_get_by_attr ∅
    passwords_resolved
  = (Return tt, passwords_resolved)
  ∧ ActionWrapper_resolve_attr_names (gmap string oid) registry_get_by_attr
      passwords_registry passwords_resolved
    = (Return tt, passwords_resolved).
Proof.
  split.
  - destruct (resolve_attr_names_idempotent (gmap string oid)
                registry_get_by_attr passwords_resolved) as [Hnoop _].
    apply Hnoop. by_evaluation.
  - destruct (resolve_attr_names_idempotent (gmap string oid)
                registry_get_by_attr passwords_declared) as [_ Hagain].
    destruct (Hagain passwords_registry passwords_resolved) as [_ Hnoop].
    + by_evaluation.
    + apply Hnoop.
Defined.

(** The check [Check(MinLength(8), 'pw1')] on the password [secret1]:
    before resolution the call raises; after it the positional reference
    is the field, and the call has run the validator on that field, whose
    errors hold the message. *)
Lemma call_needs_resolution_and_passes_fields_witness :
  ActionWrapper__call__ short_password_declared
  = (Raise not_resolved, short_password_declared)
  ∧ args short_password_resolved.1 = [Field 1%positive]
  ∧ Forall is_field (args short_password_resolved.1)
  ∧ ActionWrapper__call__ short_password_resolved
    = (Return VNone,
       (short_password_resolved.1,
        appended 5%positive (error_record "Minimum allowed length 8")
          passwords_world)).
Proof.
  destruct (call_needs_resolution_and_passes_fields (gmap string oid)
              registry_get_by_attr own_name short_password_declared ∅)
    as [Hbefore Hafter].
  assert (resolved short_password_declared.1 = false) as Hflag
    by by_evaluation.
  assert (callable short_password_declared.1 (args short_password_resolved.1)
            (kwargs short_password_resolved.1) short_password_declared.2
          = Ran (Return VNone)
              (appended 5%positive (error_record "Minimum allowed length 8")
                 passwords_world)) as Hran by by_evaluation.
  destruct (Hbefore Hflag) as [Hcall _].
  destruct (Hafter passwords_registry short_password_resolved Hflag)
    as (Hargs & _ & _ & _ & _ & Hcalls); [by_evaluation|].
  rewrite Hran in Hcalls.
  split; [exact Hcall|]. split; [by_evaluation|].
  split; [exact Hargs|exact Hcalls].
Defined.

(** [MinLength(3)] bound to two fields: the call does not fit the
    signature, and [__call__] raises the [NotCallableException] with the
    text of that failure, the nodes untouched. *)
Lemma call_lets_other_exceptions_through_witness :
  ActionWrapper__call__ two_targets_resolved
  = (Raise (Exn NotCallableException
              "Validators provided must be callable, type '{0}'instead. Caused by __call__() arguments do not match"),
     two_targets_resolved).
Proof.
  assert (resolved two_targets_resolved.1 = true) as Hflag by by_evaluation.
  assert (callable two_targets_resolved.1 (args two_targets_resolved.1)
            (kwargs two_targets_resolved.1) two_targets_resolved.2
          = Mismatch "__call__() arguments do not match") as Hfit
    by by_evaluation.
  pose proof (call_lets_other_exceptions_through two_targets_resolved Hflag)
    as Hcall.
  rewrite Hfit in Hcall. exact Hcall.
Defined.

(** C1 (as the code runs it): [MinLength(3)] bound to a field whose
    submitted value is the number 5.  The binding is resolved; the call
    fits the signature and the body of the validator raises the
    [TypeError] of [len(5)]; [__call__] does not let it through unchanged
    but raises the [NotCallableException] it has for a validator that
    cannot be called.  The claim has every exception of the body reach the
    caller unchanged. *)
Theorem call_wraps_a_TypeError_of_the_body :
  resolved age_form_state.1 = true
  ∧ callable age_form_state.1 (args age_form_state.1)
      (kwargs age_form_state.1) age_form_state.2
    = Ran (Raise int_has_no_len) age_form_state.2
  ∧ (ActionWrapper__call__ age_form_state).1
    = Raise (Exn NotCallableException
               "Validators provided must be callable, type '{0}'instead. Caused by object of type 'int' has no len()")
  ∧ (ActionWrapper__call__ age_form_state).1 ≠ Raise int_has_no_len.
Proof.
  assert ((ActionWrapper__call__ age_form_state).1
          = Raise (Exn NotCallableException
                     "Validators provided must be callable, type '{0}'instead. Caused by object of type 'int' has no len()"))
    as Hcall by by_evaluation.
  split; [by_evaluation|]. split; [by_evaluation|]. split; [exact Hcall|].
  rewrite Hcall. discriminate.
Qed.

(** The check of the two password fields, each matched against its own
    name: ready when both names are visited, not ready when only one is. *)
Lemma node_visited_iff_every_field_has_a_visited_name_witness :
  Check_node_visited own_name {["pw1"; "pw2"]} passwords_resolved
  = (Return true, passwords_resolved)
  ∧ Check_node_visited own_name {["pw1"]} passwords_resolved
    = (Return false, passwords_resolved).
Proof.
  assert (resolved passwords_resolved.1 = true) as Hflag by by_evaluation.
  assert (referenced passwords_resolved.1
          = [Field 1%positive; Field 2%positive]) as Hrefs by by_evaluation.
  assert (own_name passwords_resolved.2 1%positive = Return ["pw1"]) as Hpw1
    by by_evaluation.
  assert (own_name passwords_resolved.2 2%positive = Return ["pw2"]) as Hpw2
    by by_evaluation.
  assert (∀ r, r ∈ referenced passwords_resolved.1 →
               ∃ o names, r = Field o
                          ∧ own_name passwords_resolved.2 o = Return names)
    as Hexposed.
  { intros r Hr. rewrite Hrefs in Hr.
    apply elem_of_cons in Hr as [->|Hr];
      [|apply elem_of_cons in Hr as [->|Hr];
        [|exfalso; exact (proj1 (elem_of_nil _) Hr)]].
    - exists 1%positive, ["pw1"]. split; [reflexivity|exact Hpw1].
    - exists 2%positive, ["pw2"]. split; [reflexivity|exact Hpw2]. }
  assert ((Check_node_visited own_name {["pw1"; "pw2"]} passwords_resolved).1
          = Return true) as Hboth by by_evaluation.
  assert ((Check_node_visited own_name {["pw1"]} passwords_resolved).1
          = Return false) as Hone by by_evaluation.
  split.
  - destruct (node_visited_iff_every_field_has_a_visited_name own_name
                passwords_resolved {["pw1"; "pw2"]} Hflag Hexposed)
      as (ready & Hrun & _).
    rewrite Hrun in Hboth. injection Hboth as ->. exact Hrun.
  - destruct (node_visited_iff_every_field_has_a_visited_name own_name
                passwords_resolved {["pw1"]} Hflag Hexposed)
      as (ready & Hrun & _).
    rewrite Hrun in Hone. injection Hone as ->. exact Hrun.
Defined.

(** The check of the two password fields is ready for [{pw1, pw2}], hence
    for [{pw1, pw2, email}]. *)
Lemma node_visited_monotone_witness :
  Check_node_visited own_name {["pw1"; "pw2"; "email"]} passwords_resolved
  = (Return true, passwords_resolved).
Proof.
  apply (node_visited_monotone own_name passwords_resolved
           {["pw1"; "pw2"]} {["pw1"; "pw2"; "email"]}).
  - apply union_subseteq_l.
  - by_evaluation.
Defined.

(** * Further properties *)

(** ** Validators on one field *)

Lemma target_data_field w o v :
  py_getattr w o "data" = Some v → target_data (Field o) w = (Return v, w).
Proof.
  intros Hdata. unfold target_data, getattr, lift.
  by rewrite (getattr_in_Some _ _ _ _ Hdata).
Qed.

Lemma target_add_error_field w o l x :
  py_getattr w o "errors" = Some (VList l) →
  target_add_error (Field o) x w = (Return tt, appended l x w).
Proof. intros Herrors. by apply Node_add_error_appends. Qed.

Lemma the_list_appended_eq w l x :
  the_list (appended l x w) l = (the_list w l ++ [x])%list.
Proof. unfold the_list at 1; simpl. apply lookup_total_insert_eq. Qed.

Lemma the_list_appended_ne w l l' x :
  l' ≠ l → the_list (appended l x w) l' = the_list w l'.
Proof. intros Hne. unfold the_list at 1; simpl. by apply lookup_total_insert_ne. Qed.

(** Steps through a validator called on a field whose [data] and [errors]
    attributes are known. *)
Ltac validator_steps Hdata Herrors :=
  run;
  repeat first
    [ rewrite (target_data_field _ _ _ Hdata)
    | rewrite (target_add_error_field _ _ _ _ Herrors)
    | progress cbn beta iota ].

Lemma MinLength_on_string (self : MinLength) w o s l :
  py_getattr w o "data" = Some (VStr s) →
  py_getattr w o "errors" = Some (VList l) →
  MinLength__call__ self (Field o) w
  = (Return VNone,
     if bool_decide (Z.of_nat (str_len s) < min_length self)
     then appended l (error_record (message self)) w else w).
Proof.
  intros Hdata Herrors. unfold MinLength__call__.
  validator_steps Hdata Herrors. cbn [py_len].
  destruct (bool_decide _); validator_steps Hdata Herrors; reflexivity.
Qed.

Lemma MaxLength_on_string (self : MaxLength) w o s l :
  py_getattr w o "data" = Some (VStr s) →
  py_getattr w o "errors" = Some (VList l) →
  MaxLength__call__ self (Field o) w
  = (Return VNone,
     if bool_decide (Z.of_nat (str_len s) > max_length self)
     then appended l (error_record (MaxLength_message self)) w else w).
Proof.
  intros Hdata Herrors. unfold MaxLength__call__.
  validator_steps Hdata Herrors. cbn [py_len].
  destruct (bool_decide _); validator_steps Hdata Herrors; reflexivity.
Qed.

(** X1: on a field whose data is a string, [MinLength] records its message
    exactly when the string has fewer characters (code points, as [len]
    counts them) than the bound and [MaxLength] exactly when it has more,
    by appending one record to the list the [errors] attribute of the
    field holds; otherwise the store is left as it is.  A string of
    exactly the bound length passes both. *)
Theorem length_bounds_record_outside_only (lower : MinLength)
    (upper : MaxLength) w o s l :
  py_getattr w o "data" = Some (VStr s) →
  py_getattr w o "errors" = Some (VList l) →
  MinLength__call__ lower (Field o) w
  = (Return VNone,
     if bool_decide (Z.of_nat (str_len s) < min_length lower)
     then appended l (error_record (message lower)) w else w)
  ∧ MaxLength__call__ upper (Field o) w
    = (Return VNone,
       if bool_decide (Z.of_nat (str_len s) > max_length upper)
       then appended l (error_record (MaxLength_message upper)) w else w)
  ∧ (Z.of_nat (str_len s) = min_length lower →
     MinLength__call__ lower (Field o) w = (Return VNone, w))
  ∧ (Z.of_nat (str_len s) = max_length upper →
     MaxLength__call__ upper (Field o) w = (Return VNone, w)).
Proof.
  intros Hdata Herrors.
  rewrite (MinLength_on_string lower _ _ _ _ Hdata Herrors).
  rewrite (MaxLength_on_string upper _ _ _ _ Hdata Herrors).
  repeat split; intros Hexact; by rewrite bool_decide_eq_false_2 by lia.
Qed.

(** The password [secret1], seven characters long: too short for a
    minimum of 8, too long for a maximum of 6, and right for 7 either
    way.  And the one character [é], two bytes long, is too short for a
    minimum of 2. *)
Lemma length_bounds_record_outside_only_witness :
  MinLength__call__ (MinLength__init__ 8 None) (Field 1%positive)
    passwords_world
  = (Return VNone,
     appended 5%positive (error_record "Minimum allowed length 8")
       passwords_world)
  ∧ MaxLength__call__ (MaxLength__init__ 6 None) (Field 1%positive)
      passwords_world
    = (Return VNone,
       appended 5%positive (error_record "Maximum allowed length 6")
         passwords_world)
  ∧ MinLength__call__ (MinLength__init__ 7 None) (Field 1%positive)
      passwords_world
    = (Return VNone, passwords_world)
  ∧ MaxLength__call__ (MaxLength__init__ 7 None) (Field 1%positive)
      passwords_world
    = (Return VNone, passwords_world)
  ∧ MinLength__call__ (MinLength__init__ 2 None) (Field 1%positive)
      accented_world
    = (Return VNone,
       appended 5%positive (error_record "Minimum allowed length 2")
         accented_world).
Proof.
  assert (py_getattr passwords_world 1%positive "data" = Some (VStr "secret1"))
    as Hdata by by_evaluation.
  assert (py_getattr passwords_world 1%positive "errors"
          = Some (VList 5%positive)) as Herrors by by_evaluation.
  assert (py_getattr accented_world 1%positive "data" = Some (VStr "é"))
    as Hdata' by by_evaluation.
  assert (py_getattr accented_world 1%positive "errors"
          = Some (VList 5%positive)) as Herrors' by by_evaluation.
  destruct (length_bounds_record_outside_only (MinLength__init__ 8 None)
              (MaxLength__init__ 6 None) passwords_world 1%positive "secret1"
              5%positive Hdata Herrors) as (Hshort & Hlong & _ & _).
  destruct (length_bounds_record_outside_only (MinLength__init__ 7 None)
              (MaxLength__init__ 7 None) passwords_world 1%positive "secret1"
              5%positive Hdata Herrors) as (_ & _ & Hmin & Hmax).
  destruct (length_bounds_record_outside_only (MinLength__init__ 2 None)
              (MaxLength__init__ 2 None) accented_world 1%positive "é"
              5%positive Hdata' Herrors') as (Haccent & _).
  split; [exact Hshort|]. split; [exact Hlong|].
  split; [exact (Hmin eq_refl)|]. split; [exact (Hmax eq_refl)|exact Haccent].
Defined.

(** X2: on a field whose data is a string, [Required] records its message
    exactly when the string is empty, and then appends one record to the
    list of the field's [errors]; a field that never received data reads
    the empty string of the class and is recorded as missing. *)
Theorem Required_records_iff_empty (self : Required) w o s l :
  py_getattr w o "data" = Some (VStr s) →
  py_getattr w o "errors" = Some (VList l) →
  Required__call__ self (Field o) w
  = (Return VNone,
     if bool_decide (s = "")
     then appended l (error_record (Required_message self)) w else w).
Proof.
  intros Hdata Herrors. unfold Required__call__.
  validator_steps Hdata Herrors. cbn [py_len].
  destruct (decide (s = "")) as [->|Hne].
  - rewrite !bool_decide_eq_true_2 by done.
    validator_steps Hdata Herrors. reflexivity.
  - rewrite !bool_decide_eq_false_2
      by first [done | destruct s; [done | unfold str_len; lia]].
    reflexivity.
Qed.

(** A node built with no keyword argument, on the module as loaded: its
    data is the empty string of the class, and [Required] appends its
    message to the list of the class. *)
Lemma Required_records_iff_empty_witness :
  Required__call__ (Required__init__ None) (Field 1%positive)
    (new_node EntryNode ∅ initial_world).2
  = (Return VNone,
     appended Node_errors (error_record "A value is required")
       (new_node EntryNode ∅ initial_world).2).
Proof.
  pose (w := (new_node EntryNode ∅ initial_world).2). fold w.
  assert (py_getattr w 1%positive "data" = Some (VStr "")) as Hdata
    by by_evaluation.
  assert (py_getattr w 1%positive "errors" = Some (VList Node_errors))
    as Herrors by by_evaluation.
  exact (Required_records_iff_empty (Required__init__ None) w 1%positive ""
           Node_errors Hdata Herrors).
Defined.

(** X3: on a field whose data has no length (None, a number, a bound
    method), the four validators that measure the data raise the
    [TypeError] of [len] and record nothing. *)
Theorem length_validators_raise_on_unsized (lower : MinLength)
    (upper : MaxLength) (both : MinMax) (required : Required) w o d e :
  py_getattr w o "data" = Some d →
  py_len w d = Raise e →
  MinLength__call__ lower (Field o) w = (Raise e, w)
  ∧ MaxLength__call__ upper (Field o) w = (Raise e, w)
  ∧ MinMax__call__ both (Field o) w = (Raise e, w)
  ∧ Required__call__ required (Field o) w = (Raise e, w).
Proof.
  intros Hdata Hlen.
  unfold MinLength__call__, MaxLength__call__, MinMax__call__, Required__call__.
  run. rewrite !(target_data_field _ _ _ Hdata). cbn beta iota.
  rewrite Hlen. done.
Qed.

(** The field whose submitted value is the number 5. *)
Lemma length_validators_raise_on_unsized_witness :
  MinMax__call__ (MinMax__init__ 3 8 None None) (Field 1%positive)
    age_form_state.2
  = (Raise int_has_no_len, age_form_state.2)
  ∧ Required__call__ (Required__init__ None) (Field 1%positive)
      age_form_state.2
    = (Raise int_has_no_len, age_form_state.2).
Proof.
  assert (py_getattr age_form_state.2 1%positive "data" = Some (VInt 5))
    as Hdata by by_evaluation.
  destruct (length_validators_raise_on_unsized (MinLength__init__ 3 None)
              (MaxLength__init__ 8 None) (MinMax__init__ 3 8 None None)
              (Required__init__ None) age_form_state.2 1%positive (VInt 5)
              int_has_no_len Hdata eq_refl) as (_ & _ & Hboth & Hrequired).
  split; [exact Hboth|exact Hrequired].
Defined.

(** The records [MinMax] appends for a string of length [n]. *)
Lemma MinMax_on_string (self : MinMax) w o s l :
  py_getattr w o "data" = Some (VStr s) →
  py_getattr w o "errors" = Some (VList l) →
  MinMax__call__ self (Field o) w
  = (Return VNone,
     let w1 := if bool_decide (Z.of_nat (str_len s) < MinMax_min self)
               then appended l (error_record (minmsg self)) w else w in
     if bool_decide (Z.of_nat (str_len s) > MinMax_max self)
     then appended l (error_record (maxmsg self)) w1 else w1).
Proof.
  intros Hdata Herrors. unfold MinMax__call__.
  validator_steps Hdata Herrors. cbn [py_len].
  destruct (bool_decide (_ < _)).
  - validator_steps Hdata Herrors.
    rewrite (target_data_field (appended _ _ w) _ _ Hdata). cbn beta iota.
    cbn [py_len]. destruct (bool_decide (_ > _)); cbn beta iota zeta.
    + by rewrite (target_add_error_field (appended _ _ w) _ _ _ Herrors).
    + reflexivity.
  - validator_steps Hdata Herrors. cbn [py_len].
    destruct (bool_decide (_ > _)); validator_steps Hdata Herrors; reflexivity.
Qed.

(** X4: on a field whose data is a string of [n] characters (code points,
    as [len] counts them), [MinMax] returns and leaves the errors of the field as they were followed by its
    minimum message when [n < min] and then by its maximum message when
    [n > max]; no other list changes.  So a length within the bounds
    records nothing, bounds in order record at most one message, and
    bounds out of order record both messages for a length between them. *)
Theorem MinMax_records_each_violated_bound (self : MinMax) w o s l :
  py_getattr w o "data" = Some (VStr s) →
  py_getattr w o "errors" = Some (VList l) →
  let n := Z.of_nat (str_len s) in
  ∃ w',
    MinMax__call__ self (Field o) w = (Return VNone, w')
    ∧ the_list w' l
      = (the_list w l
         ++ (if bool_decide (n < MinMax_min self)
             then [error_record (minmsg self)] else [])
         ++ (if bool_decide (n > MinMax_max self)
             then [error_record (maxmsg self)] else []))%list
    ∧ (∀ l', l' ≠ l → the_list w' l' = the_list w l')
    ∧ objects w' = objects w
    ∧ (MinMax_min self ≤ n ≤ MinMax_max self → w' = w)
    ∧ (MinMax_min self ≤ MinMax_max self →
       (length (the_list w' l) ≤ S (length (the_list w l)))%nat)
    ∧ (MinMax_max self < n < MinMax_min self →
       the_list w' l
       = (the_list w l
          ++ [error_record (minmsg self); error_record (maxmsg self)])%list).
Proof.
  intros Hdata Herrors n.
  rewrite (MinMax_on_string self _ _ _ _ Hdata Herrors). fold n.
  eexists; split; [reflexivity|]. cbn zeta.
  destruct (bool_decide (n < MinMax_min self)) eqn:Hlow;
    destruct (bool_decide (n > MinMax_max self)) eqn:Hhigh;
    [apply bool_decide_eq_true in Hlow | apply bool_decide_eq_true in Hlow
    | apply bool_decide_eq_false in Hlow | apply bool_decide_eq_false in Hlow];
    [apply bool_decide_eq_true in Hhigh | apply bool_decide_eq_false in Hhigh
    | apply bool_decide_eq_true in Hhigh | apply bool_decide_eq_false in Hhigh].
  all: rewrite ?the_list_appended_eq, ?app_nil_r, <- ?app_assoc.
  all: repeat split; try done; try lia.
  all: try (intros l' Hne; by rewrite ?the_list_appended_ne by done).
  all: try (intros; rewrite ?length_app; simpl; lia).
Qed.

(** The password [secret1] between the bounds 10 and 3 given out of order:
    both messages, the minimum first. *)
Lemma MinMax_records_each_violated_bound_witness :
  ∃ w',
    MinMax__call__ (MinMax__init__ 10 3 None None) (Field 1%positive)
      passwords_world = (Return VNone, w')
    ∧ the_list w' 5%positive
      = [ error_record "Must be longer than 10 characters";
          error_record "Must be fewer than 3 characters" ].
Proof.
  assert (py_getattr passwords_world 1%positive "data" = Some (VStr "secret1"))
    as Hdata by by_evaluation.
  assert (py_getattr passwords_world 1%positive "errors"
          = Some (VList 5%positive)) as Herrors by by_evaluation.
  assert (the_list passwords_world 5%positive = []) as Hempty by by_evaluation.
  destruct (MinMax_records_each_violated_bound (MinMax__init__ 10 3 None None)
              passwords_world 1%positive "secret1" 5%positive Hdata Herrors)
    as (w' & Hrun & _ & _ & _ & _ & _ & Hboth).
  exists w'. split; [exact Hrun|].
  rewrite Hboth, Hempty; [reflexivity|]. simpl. lia.
Defined.

(** ** [Matching] *)

Section ValidatorFacts.

Variable container_ne : world → value → value → outcome bool.
Variable signature_error : list argref → gmap string argref → string.
Variable Form : Type.
Variable get_by_attr : Form → argref → outcome oid.

(** What [Matching] does on two fields whose data are scalars. *)
Lemma Matching_on_scalars (self : Matching) w a b x y la lb :
  py_getattr w a "data" = Some (VAtom x) →
  py_getattr w b "data" = Some (VAtom y) →
  py_getattr w a "errors" = Some (VList la) →
  py_getattr w b "errors" = Some (VList lb) →
  Matching__call__ container_ne self (Field a) (Field b) w
  = (Return VNone,
     if atom_eq x y then w
     else appended lb (error_record (Matching_message self))
            (appended la (error_record (Matching_message self)) w)).
Proof.
  intros Hdata1 Hdata2 Herrors1 Herrors2.
  unfold Matching__call__. run.
  rewrite (target_data_field _ _ _ Hdata1). cbn beta iota.
  rewrite (target_data_field _ _ _ Hdata2). cbn beta iota.
  cbn [py_ne]. destruct (atom_eq x y); cbn [negb]; [done|].
  rewrite (target_add_error_field _ _ _ _ Herrors1). cbn beta iota.
  by rewrite (target_add_error_field (appended _ _ w) _ _ _ Herrors2).
Qed.

(** X5: on two fields whose data are scalars, [Matching] returns; when the
    two are equal it leaves the store as it is, and when they differ it
    appends its message to the errors of the first field and then to the
    errors of the second.  Two fields with lists of their own get one
    record each; two fields that hold the same list object see the record
    in it twice. *)
Theorem Matching_records_on_both_iff_different (self : Matching)
    w a b x y la lb :
  py_getattr w a "data" = Some (VAtom x) →
  py_getattr w b "data" = Some (VAtom y) →
  py_getattr w a "errors" = Some (VList la) →
  py_getattr w b "errors" = Some (VList lb) →
  let record := error_record (Matching_message self) in
  let w' := if atom_eq x y then w
            else appended lb record (appended la record w) in
  Matching__call__ container_ne self (Field a) (Field b) w = (Return VNone, w')
  ∧ (atom_eq x y = false → la ≠ lb →
     the_list w' la = (the_list w la ++ [record])%list
     ∧ the_list w' lb = (the_list w lb ++ [record])%list)
  ∧ (atom_eq x y = false → la = lb →
     the_list w' la = (the_list w la ++ [record; record])%list).
Proof.
  intros Hdata1 Hdata2 Herrors1 Herrors2 record w'.
  split; [|split].
  - by apply Matching_on_scalars.
  - intros Hne Hlists. unfold w'. rewrite Hne. split.
    + by rewrite the_list_appended_ne, the_list_appended_eq.
    + by rewrite the_list_appended_eq, the_list_appended_ne.
  - intros Hne <-. unfold w'. rewrite Hne.
    by rewrite !the_list_appended_eq, <- app_assoc.
Qed.

(** X6: a binding of [Matching] to two names, resolved by a form that
    gives a field for each and then called, returns [None], holds the two
    fields in place of the names and is marked resolved; the store is
    unchanged when the data of the two fields are equal scalars, and has
    the message appended to the errors of both fields when they differ. *)
Theorem Check_Matching_resolves_and_compares (self : Matching) form
    n1 n2 w a b x y la lb :
  get_by_attr form (Name n1) = Return a →
  get_by_attr form (Name n2) = Return b →
  py_getattr w a "data" = Some (VAtom x) →
  py_getattr w b "data" = Some (VAtom y) →
  py_getattr w a "errors" = Some (VList la) →
  py_getattr w b "errors" = Some (VList lb) →
  let check :=
    ActionWrapper__init__ (Matching_callable container_ne signature_error self)
      [Name n1; Name n2] ∅ in
  let record := error_record (Matching_message self) in
  (ActionWrapper_resolve_attr_names Form get_by_attr form;;
   ActionWrapper__call__) (check, w)
  = (Return VNone,
     (mk_ActionWrapper (callable check) [Field a; Field b] ∅ VNone true,
      if atom_eq x y then w
      else appended lb record (appended la record w))).
Proof.
  intros Hn1 Hn2 Hdata1 Hdata2 Herrors1 Herrors2 check record.
  pose proof (Matching_on_scalars self w a b x y la lb
                Hdata1 Hdata2 Herrors1 Herrors2) as Hcall.
  unfold ActionWrapper_resolve_attr_names, ActionWrapper__call__, on_self.
  run. cbn [check ActionWrapper__init__ resolved fst args enumerate_from
            resolve_args kwargs].
  run. rewrite Hn1. unfold on_self. run. rewrite Hn2. cbn beta iota.
  destruct (decide ((∅ : gmap string argref) = ∅)) as [_|Hne]; [|done].
  rewrite map_to_list_empty. cbn [resolve_kwargs]. run.
  cbn [set_resolved set_args resolved callable args kwargs _attr_name fst snd
       negb].
  unfold try_except_TypeError, py_call. cbn [fst snd].
  subst check. unfold ActionWrapper__init__.
  cbn [callable args kwargs set_args set_resolved _attr_name resolved].
  destruct (decide ((∅ : gmap string argref) = ∅)) as [_|Hne]; [|done].
  cbn [insert list_insert].
  unfold Matching_callable, call_with_two_targets.
  destruct (decide ((∅ : gmap string argref) = ∅)) as [_|Hne]; [|done].
  rewrite Hcall. reflexivity.
Qed.

End ValidatorFacts.

(** The two password fields, whose data differ, each with an errors list
    of its own. *)
Lemma Matching_records_on_both_iff_different_witness :
  ∃ w',
    Matching__call__ plain_container_ne (Matching__init__ None)
      (Field 1%positive) (Field 2%positive) passwords_world
    = (Return VNone, w')
    ∧ the_list w' 5%positive = [error_record "Fields must match"]
    ∧ the_list w' 6%positive = [error_record "Fields must match"].
Proof.
  assert (py_getattr passwords_world 1%positive "data"
          = Some (VStr "secret1")) as Hdata1 by by_evaluation.
  assert (py_getattr passwords_world 2%positive "data"
          = Some (VStr "secret")) as Hdata2 by by_evaluation.
  assert (py_getattr passwords_world 1%positive "errors"
          = Some (VList 5%positive)) as Herrors1 by by_evaluation.
  assert (py_getattr passwords_world 2%positive "errors"
          = Some (VList 6%positive)) as Herrors2 by by_evaluation.
  assert (the_list passwords_world 5%positive = []) as Hempty1
    by by_evaluation.
  assert (the_list passwords_world 6%positive = []) as Hempty2
    by by_evaluation.
  pose proof (Matching_records_on_both_iff_different plain_container_ne
                (Matching__init__ None) passwords_world 1%positive 2%positive
                (AStr "secret1") (AStr "secret") 5%positive 6%positive
                Hdata1 Hdata2 Herrors1 Herrors2) as Hmatching.
  cbn zeta in Hmatching. destruct Hmatching as (Hrun & Hapart & _).
  destruct (Hapart eq_refl) as [Hfirst Hsecond]; [discriminate|].
  rewrite Hempty1 in Hfirst. rewrite Hempty2 in Hsecond.
  eexists. split; [exact Hrun|]. split; [exact Hfirst|exact Hsecond].
Defined.

(** The check [Check(Matching(), 'pw1', 'pw2')] on the two password
    fields. *)
Lemma Check_Matching_resolves_and_compares_witness :
  ∃ s',
    (ActionWrapper_resolve_attr_names (gmap string oid) registry_get_by_attr
       passwords_registry;;
     ActionWrapper__call__)
      (ActionWrapper__init__
         (Matching_callable plain_container_ne plain_signature_error
            (Matching__init__ None))
         [Name "pw1"; Name "pw2"] ∅, passwords_world)
    = (Return VNone, s')
    ∧ args s'.1 = [Field 1%positive; Field 2%positive]
    ∧ resolved s'.1 = true.
Proof.
  assert (py_getattr passwords_world 1%positive "data"
          = Some (VStr "secret1")) as Hdata1 by by_evaluation.
  assert (py_getattr passwords_world 2%positive "data"
          = Some (VStr "secret")) as Hdata2 by by_evaluation.
  assert (py_getattr passwords_world 1%positive "errors"
          = Some (VList 5%positive)) as Herrors1 by by_evaluation.
  assert (py_getattr passwords_world 2%positive "errors"
          = Some (VList 6%positive)) as Herrors2 by by_evaluation.
  eexists. split.
  - exact (Check_Matching_resolves_and_compares plain_container_ne
             plain_signature_error (gmap string oid) registry_get_by_attr
             (Matching__init__ None) passwords_registry "pw1" "pw2"
             passwords_world 1%positive 2%positive (AStr "secret1")
             (AStr "secret") 5%positive 6%positive eq_refl eq_refl
             Hdata1 Hdata2 Herrors1 Herrors2).
  - done.
Defined.

(** ** [Integer] and [PasswordStrength] *)

Section ParsingFacts.

Variable int_literal : string → outcome Z.
Variable re_match : string → value → outcome bool.

(** X7: [Integer] on a field: when [int] accepts the data nothing is
    recorded; when [int] raises a [ValueError] the message is appended to
    the errors of the field and the call returns; any other exception of
    [int], such as the [TypeError] for [None], leaves the call and records
    nothing.  In every case the data of the field is what it was: the
    number [int] computed is not stored. *)
Theorem Integer_checks_and_never_converts (self : Integer) w o d l :
  py_getattr w o "data" = Some d →
  py_getattr w o "errors" = Some (VList l) →
  ∃ r w',
    Integer__call__ int_literal self (Field o) w = (r, w')
    ∧ py_getattr w' o "data" = Some d
    ∧ match py_int int_literal d with
      | Return _ => r = Return VNone ∧ w' = w
      | Raise e =>
          if is_ValueError (exc_class e)
          then r = Return VNone
               ∧ w' = appended l (error_record (Integer_message self)) w
          else r = Raise e ∧ w' = w
      end.
Proof.
  intros Hdata Herrors. unfold Integer__call__, try_except. run.
  rewrite (target_data_field _ _ _ Hdata). cbn beta iota.
  destruct (py_int int_literal d) as [z|e]; cbn beta iota.
  - eexists _, _. split; [reflexivity|]. done.
  - destruct (is_ValueError (exc_class e)).
    + rewrite (target_add_error_field _ _ _ _ Herrors). cbn beta iota.
      eexists _, _. split; [reflexivity|]. done.
    + eexists _, _. split; [reflexivity|]. done.
Qed.

(** The loop of [PasswordStrength] only reads the store. *)
Lemma count_matches_reads patterns target :
  ∀ strength w r w',
    count_matches re_match patterns target strength w = (r, w') → w' = w.
Proof.
  induction patterns as [|regex rest IH]; intros strength w r w'; simpl.
  - run. by intros [= _ <-].
  - run. unfold target_data, getattr, raise, lift.
    destruct target as [name|o].
    + by intros [= _ <-].
    + destruct (getattr_in w o "data") as [data|e]; [|by intros [= _ <-]].
      destruct (re_match regex data) as [matched|e]; [|by intros [= _ <-]].
      apply IH.
Qed.

(** When every pattern can be tried on the data, the loop counts the
    patterns that match. *)
Lemma count_matches_counts patterns w o d :
  py_getattr w o "data" = Some d →
  (∀ p, p ∈ patterns → ∃ b, re_match p d = Return b) →
  ∀ strength,
    count_matches re_match patterns (Field o) strength w
    = (Return (strength
               + Z.of_nat (length (filter (fun p => is_match re_match d p = true)
                                     patterns))), w).
Proof.
  intros Hdata. induction patterns as [|regex rest IH]; intros Htried strength.
  - simpl. run. by rewrite Z.add_0_r.
  - cbn [count_matches]. run.
    rewrite (target_data_field _ _ _ Hdata). cbn beta iota.
    destruct (Htried regex) as [b Hb]; [apply elem_of_cons; auto|].
    rewrite Hb. cbn beta iota.
    rewrite IH by (intros p Hp; apply Htried, elem_of_cons; auto).
    assert (is_match re_match d regex = b) as Hmatch
      by (unfold is_match; by rewrite Hb).
    rewrite filter_cons. destruct b.
    + rewrite decide_True by done. cbn [length]. f_equal. f_equal. lia.
    + rewrite decide_False by (rewrite Hmatch; done). reflexivity.
Qed.

(** X8: [PasswordStrength] on a field on whose data every pattern can be
    tried appends exactly one record to the errors of the field: it is
    marked non-blocking and its message gives the number of patterns that
    match, a number between 0 and the number of patterns.  The message the
    validator was built with is not used.  When the call raises, nothing
    has been recorded. *)
Theorem PasswordStrength_records_one_count (self : PasswordStrength) w o d l :
  py_getattr w o "data" = Some d →
  py_getattr w o "errors" = Some (VList l) →
  (∀ p, p ∈ PasswordStrength_regex self → ∃ b, re_match p d = Return b) →
  let strength :=
    Z.of_nat (length (filter (fun p => is_match re_match d p = true)
                        (PasswordStrength_regex self))) in
  PasswordStrength__call__ re_match self (Field o) w
  = (Return VNone, appended l (strength_record strength) w)
  ∧ 0 ≤ strength ≤ Z.of_nat (length (PasswordStrength_regex self))
  ∧ ∀ target e w0 w',
      PasswordStrength__call__ re_match self target w0 = (Raise e, w') →
      w' = w0.
Proof.
  intros Hdata Herrors Htried strength. split; [|split].
  - unfold PasswordStrength__call__. run.
    rewrite (count_matches_counts _ _ _ _ Hdata Htried 0). cbn beta iota.
    rewrite (target_add_error_field _ _ _ _ Herrors). reflexivity.
  - unfold strength. split; [lia|].
    apply inj_le, length_filter.
  - intros target e w0 w'. unfold PasswordStrength__call__. run.
    destruct (count_matches re_match _ target 0 w0) as [[k|e'] w1] eqn:Hloop.
    + apply count_matches_reads in Hloop as ->.
      unfold target_add_error, Node_add_error, getattr, py_append, raise, lift.
      run. destruct target as [name|o']; [by intros [= _ <-]|].
      destruct (getattr_in w0 o' "errors") as [[| | |]|];
        cbn beta iota; intros [= _ <-]; done.
    + apply count_matches_reads in Hloop as ->. by intros [= _ <-].
Qed.

End ParsingFacts.

(** The field [pw1]: its data is no number for [int], so the message is
    recorded and the data stays the string. *)
Lemma Integer_checks_and_never_converts_witness :
  ∃ w',
    Integer__call__ no_int_literal (Integer__init__ None) (Field 1%positive)
      passwords_world
    = (Return VNone, w')
    ∧ py_getattr w' 1%positive "data" = Some (VStr "secret1")
    ∧ w' = appended 5%positive
             (error_record "Value must only contain numbers") passwords_world.
Proof.
  assert (py_getattr passwords_world 1%positive "data"
          = Some (VStr "secret1")) as Hdata by by_evaluation.
  assert (py_getattr passwords_world 1%positive "errors"
          = Some (VList 5%positive)) as Herrors by by_evaluation.
  destruct (Integer_checks_and_never_converts no_int_literal
              (Integer__init__ None) passwords_world 1%positive
              (VStr "secret1") 5%positive Hdata Herrors)
    as (r & w' & Hrun & Hkept & Hcase).
  cbn in Hcase. destruct Hcase as [-> ->].
  eexists. split; [exact Hrun|]. split; [exact Hkept|reflexivity].
Defined.

(** The field [pw1] and the four default patterns, none of which matches:
    one non-blocking record, with strength 0. *)
Lemma PasswordStrength_records_one_count_witness :
  PasswordStrength__call__ no_match (PasswordStrength__init__ None None)
    (Field 1%positive) passwords_world
  = (Return VNone,
     appended 5%positive
       (VDict [("message", AStr "Password strength is 0");
               ("block", ABool false)])
       passwords_world).
Proof.
  assert (py_getattr passwords_world 1%positive "data"
          = Some (VStr "secret1")) as Hdata by by_evaluation.
  assert (py_getattr passwords_world 1%positive "errors"
          = Some (VList 5%positive)) as Herrors by by_evaluation.
  destruct (PasswordStrength_records_one_count no_match
              (PasswordStrength__init__ None None) passwords_world 1%positive
              (VStr "secret1") 5%positive Hdata Herrors) as (Hrun & _).
  { intros p _. by exists false. }
  exact Hrun.
Defined.

(** ** Resolution that fails *)

Section ResolutionFacts.

Variable Form : Type.
Variable get_by_attr : Form → argref → outcome oid.
Variable get_list_names : world → oid → outcome (list string).

Lemma Forall2_kept form (l : list argref) :
  Forall2 (kept_or_resolved Form get_by_attr form) l l.
Proof. induction l; constructor; [by left|done]. Qed.

(** The loop over the positional references, whatever it ends with: the
    references it passed are replaced and the others kept; it raises only
    what the form raised for one of them. *)
Lemma resolve_args_outcome form todo :
  ∀ done s r s',
    args s.1 = (done ++ todo)%list →
    resolve_args Form get_by_attr form (enumerate_from (length done) todo) s
    = (r, s') →
    ∃ after,
      args s'.1 = (done ++ after)%list
      ∧ Forall2 (kept_or_resolved Form get_by_attr form) todo after
      ∧ match r with
        | Return _ => True
        | Raise e => ∃ x, x ∈ todo ∧ get_by_attr form x = Raise e
        end.
Proof.
  induction todo as [|x todo IH]; intros done s r s' Hargs; simpl.
  - run. intros [= <- <-]. exists []. split; [done|]. split; [constructor|done].
  - unfold on_self. run.
    destruct (get_by_attr form x) as [node|e] eqn:Hx.
    + intros Hrest.
      replace (S (length done)) with (length (done ++ [Field node]))%list
        in Hrest by (rewrite length_app; simpl; lia).
      apply IH in Hrest as (after & Hafter & Hall & Hr).
      * exists (Field node :: after). split; [by rewrite Hafter, <- app_assoc|].
        split; [constructor; [right; by exists node|done]|].
        destruct r as [|e]; [done|].
        destruct Hr as (y & Hy & Hraise). exists y.
        split; [apply elem_of_cons; auto|done].
      * simpl. rewrite Hargs, <- app_assoc. simpl.
        rewrite insert_app_r_alt, Nat.sub_diag by done. reflexivity.
    + intros [= <- <-]. exists (x :: todo). split; [done|].
      split; [apply Forall2_kept|]. exists x. split; [apply elem_of_cons|]; auto.
Qed.

(** The loop over the keyword references, whatever it ends with. *)
Lemma resolve_kwargs_outcome form pending :
  ∀ s r s',
    resolve_kwargs Form get_by_attr form pending s = (r, s') →
    (∀ k, kwargs s'.1 !! k = kwargs s.1 !! k
          ∨ ∃ v y, (k, v) ∈ pending
                   ∧ resolves_to Form get_by_attr form v y
                   ∧ kwargs s'.1 !! k = Some y)
    ∧ match r with
      | Return _ => True
      | Raise e => ∃ k v, (k, v) ∈ pending ∧ get_by_attr form v = Raise e
      end.
Proof.
  induction pending as [|[key val] pending IH]; intros s r s'; simpl.
  - run. intros [= <- <-]. split; [by left|done].
  - unfold on_self. run.
    destruct (get_by_attr form val) as [node|e] eqn:Hval.
    + intros Hrest. apply IH in Hrest as [Hkeys Hr]. simpl in Hkeys. split.
      * intros k. destruct (Hkeys k) as [Hsame|(v & y & Hin & Hy & Hk)].
        -- destruct (decide (key = k)) as [->|Hne].
           ++ right. exists val, (Field node).
              split; [apply elem_of_cons; auto|].
              split; [by exists node|]. by rewrite Hsame, lookup_insert_eq.
           ++ left. by rewrite Hsame, lookup_insert_ne.
        -- right. exists v, y. split; [apply elem_of_cons; auto|done].
      * destruct r as [|e]; [done|].
        destruct Hr as (k & v & Hin & Hraise). exists k, v.
        split; [apply elem_of_cons; auto|done].
    + intros [= <- <-]. split; [by left|].
      exists key, val. split; [apply elem_of_cons|]; auto.
Qed.

(** The two loops of an unresolved binding, run one after the other. *)
Lemma resolve_attr_names_outcome form s r s' :
  resolved s.1 = false →
  ActionWrapper_resolve_attr_names Form get_by_attr form s = (r, s') →
  s'.2 = s.2
  ∧ callable s'.1 = callable s.1
  ∧ Forall2 (kept_or_resolved Form get_by_attr form) (args s.1) (args s'.1)
  ∧ (∀ k, option_Forall2 (kept_or_resolved Form get_by_attr form)
            (kwargs s.1 !! k) (kwargs s'.1 !! k))
  ∧ match r with
    | Return _ => resolved s'.1 = true
    | Raise e =>
        resolved s'.1 = false
        ∧ ∃ x, x ∈ referenced s.1 ∧ get_by_attr form x = Raise e
    end.
Proof.
  intros Hflag. unfold ActionWrapper_resolve_attr_names, on_self. run.
  rewrite Hflag.
  destruct (resolve_args _ _ _ _ _) as [r1 s1] eqn:Hargs.
  pose proof (resolve_args_replaces Form get_by_attr form (args s.1) [] s r1 s1
                eq_refl Hargs) as (Hw1 & Hc1 & Hk1 & Hf1 & _).
  apply (resolve_args_outcome form (args s.1) [] s r1 s1 eq_refl) in Hargs
    as (after & Hafter & Hall & Hr1).
  simpl in Hafter. rewrite <- Hafter in Hall.
  assert (∀ k, option_Forall2 (kept_or_resolved Form get_by_attr form)
                 (kwargs s.1 !! k) (kwargs s.1 !! k)) as Hsame.
  { intros k. destruct (kwargs s.1 !! k); constructor. by left. }
  destruct r1 as [[]|e].
  2:{ intros [= <- <-]. rewrite Hk1, Hf1, Hflag. repeat split; try done.
      destruct Hr1 as (x & Hx & Hraise). exists x. split; [|done].
      unfold referenced. apply elem_of_app. auto. }
  destruct (resolve_kwargs _ _ _ _ _) as [r2 s2] eqn:Hkw.
  pose proof (resolve_kwargs_replaces Form get_by_attr form _ s1 r2 s2
                (NoDup_fst_map_to_list _) Hkw) as (Hw2 & Hc2 & Ha2 & Hf2 & _).
  apply resolve_kwargs_outcome in Hkw as [Hkeys Hr2].
  assert (∀ k, option_Forall2 (kept_or_resolved Form get_by_attr form)
                 (kwargs s.1 !! k) (kwargs s2.1 !! k)) as Hkwargs.
  { intros k. destruct (Hkeys k) as [->|(v & y & Hin & Hy & ->)].
    - rewrite Hk1. apply Hsame.
    - apply elem_of_map_to_list in Hin. rewrite Hin. constructor. by right. }
  destruct r2 as [[]|e]; intros [= <- <-]; simpl.
  - rewrite Hw2, Hw1, Hc2, Hc1, Ha2. repeat split; done.
  - rewrite Hw2, Hw1, Hc2, Hc1, Ha2, Hf2, Hf1, Hflag. repeat split; try done.
    destruct Hr2 as (k & v & Hin & Hraise). exists v. split; [|done].
    unfold referenced, kwargs_values. apply elem_of_app. right.
    apply list_elem_of_fmap. by exists (k, v).
Qed.

(** X9: on an unresolved binding, [resolve_attr_names] returns normally
    exactly when the form gives a field for every stored reference,
    positional and keyword. *)
Theorem resolution_succeeds_iff_every_reference_is_found form
    (s : binding_state) :
  resolved s.1 = false →
  (∃ s', ActionWrapper_resolve_attr_names Form get_by_attr form s
         = (Return tt, s'))
  ↔ ∀ x, x ∈ referenced s.1 → ∃ node, get_by_attr form x = Return node.
Proof.
  intros Hflag. split.
  - intros [s' Hrun] x Hx.
    destruct (resolve_attr_names_replaces Form get_by_attr form s s' Hflag Hrun)
      as (_ & _ & _ & Hargs & Hkwargs).
    apply elem_of_referenced in Hx as [Hx|[k Hk]].
    + clear -Hargs Hx. induction Hargs as [|y z ys zs Hyz _ IH].
      * by apply elem_of_nil in Hx.
      * apply elem_of_cons in Hx as [->|Hx]; [|by apply IH].
        destruct Hyz as (node & Hnode & _). eauto.
    + specialize (Hkwargs k). rewrite Hk in Hkwargs.
      inversion Hkwargs as [? y (node & Hnode & _)|]. eauto.
  - intros Hfound.
    destruct (ActionWrapper_resolve_attr_names Form get_by_attr form s)
      as [[[]|e] s'] eqn:Hrun; [by exists s'|].
    apply resolve_attr_names_outcome in Hrun
      as (_ & _ & _ & _ & _ & x & Hx & Hraise); [|done].
    destruct (Hfound x Hx) as [node Hnode]. congruence.
Qed.

(** X10: when [resolve_attr_names] raises on an unresolved binding, the
    exception is the one the form raised for one of the stored references;
    the binding stays unresolved, so that [__call__] still raises the
    [ValueError]; the nodes and the callable are untouched; and every
    reference is either as it was or already replaced by its field. *)
Theorem failed_resolution_stays_unresolved form (s : binding_state) e s' :
  resolved s.1 = false →
  ActionWrapper_resolve_attr_names Form get_by_attr form s = (Raise e, s') →
  (∃ x, x ∈ referenced s.1 ∧ get_by_attr form x = Raise e)
  ∧ resolved s'.1 = false
  ∧ ActionWrapper__call__ s' = (Raise not_resolved, s')
  ∧ s'.2 = s.2
  ∧ callable s'.1 = callable s.1
  ∧ Forall2 (kept_or_resolved Form get_by_attr form) (args s.1) (args s'.1)
  ∧ ∀ k, option_Forall2 (kept_or_resolved Form get_by_attr form)
           (kwargs s.1 !! k) (kwargs s'.1 !! k).
Proof.
  intros Hflag Hrun.
  apply resolve_attr_names_outcome in Hrun
    as (Hw & Hc & Hargs & Hkwargs & Hflag' & Hraise); [|done].
  repeat split; try done.
  by apply ActionWrapper__call___unresolved.
Qed.

(** X11: a resolved [Check] that refers to no field is ready for every set
    of visited names, the empty one included; one whose references are
    fields exposing names and that refers to at least one field is not
    ready when nothing has been visited; and one that refers to a field
    exposing no name at all is never ready. *)
Theorem readiness_at_the_edges (s : binding_state) :
  resolved s.1 = true →
  (referenced s.1 = [] →
   ∀ visited, Check_node_visited get_list_names visited s = (Return true, s))
  ∧ ((∀ r, r ∈ referenced s.1 →
           ∃ o names, r = Field o ∧ get_list_names s.2 o = Return names) →
     (referenced s.1 ≠ [] →
      Check_node_visited get_list_names ∅ s = (Return false, s))
     ∧ ∀ o visited,
         Field o ∈ referenced s.1 →
         get_list_names s.2 o = Return [] →
         Check_node_visited get_list_names visited s = (Return false, s)).
Proof.
  intros Hflag.
  assert (∀ visited,
            (∀ r, r ∈ referenced s.1 →
                  ∃ o names, r = Field o ∧ get_list_names s.2 o = Return names) →
            (∃ o names, Field o ∈ referenced s.1
                        ∧ get_list_names s.2 o = Return names
                        ∧ ∀ name, name ∈ names → name ∉ visited) →
            Check_node_visited get_list_names visited s = (Return false, s))
    as Hnot_ready.
  { intros visited Hexposed (o & names & Hin & Hnames & Hnone).
    destruct (all_nodes_visited_exposed get_list_names s.2 (args s.1) visited)
      as (through_args & Hargs & Hargs_iff).
    { intros r Hr. apply Hexposed. unfold referenced. apply elem_of_app. auto. }
    destruct (all_nodes_visited_exposed get_list_names s.2
                (kwargs_values s.1) visited)
      as (through_kwargs & Hkwargs & Hkwargs_iff).
    { intros r Hr. apply Hexposed. unfold referenced. apply elem_of_app. auto. }
    unfold Check_node_visited. run. rewrite Hflag. simpl.
    rewrite Hargs. simpl.
    destruct through_args; [|done]. rewrite Hkwargs.
    destruct through_kwargs; [|done]. exfalso.
    unfold referenced in Hin. apply elem_of_app in Hin as [Hin|Hin].
    - destruct Hargs_iff as [Hall _].
      destruct (Hall eq_refl o names Hin Hnames) as (name & Hname & Hv).
      by apply (Hnone name).
    - destruct Hkwargs_iff as [Hall _].
      destruct (Hall eq_refl o names Hin Hnames) as (name & Hname & Hv).
      by apply (Hnone name). }
  split.
  - intros Hnone visited. unfold referenced in Hnone.
    apply app_eq_nil in Hnone as [Hargs Hkwargs].
    unfold Check_node_visited. run. rewrite Hflag. simpl.
    by rewrite Hargs, Hkwargs.
  - intros Hexposed. split.
    + intros Hsome. apply Hnot_ready; [done|].
      destruct (referenced s.1) as [|r rest] eqn:Hrefs; [done|].
      destruct (Hexposed r) as (o & names & -> & Hnames);
        [apply elem_of_cons; auto|].
      exists o, names. split; [apply elem_of_cons; auto|].
      split; [done|]. intros name _. apply not_elem_of_empty.
    + intros o visited Hin Hnames. apply Hnot_ready; [done|].
      exists o, []. split; [done|]. split; [done|].
      intros name Hname. by apply elem_of_nil in Hname.
Qed.

End ResolutionFacts.

(** The check of the two password fields and a registry that has both. *)
Lemma resolution_succeeds_iff_every_reference_is_found_witness :
  ∃ s', ActionWrapper_resolve_attr_names (gmap string oid) registry_get_by_attr
          passwords_registry passwords_declared = (Return tt, s').
Proof.
  assert (resolved passwords_declared.1 = false) as Hflag by by_evaluation.
  assert (referenced passwords_declared.1 = [Name "pw1"; Name "pw2"]) as Hrefs
    by by_evaluation.
  apply (resolution_succeeds_iff_every_reference_is_found (gmap string oid)
           registry_get_by_attr passwords_registry passwords_declared Hflag).
  intros x Hx. rewrite Hrefs in Hx.
  apply elem_of_cons in Hx as [->|Hx];
    [|apply elem_of_cons in Hx as [->|Hx];
      [|exfalso; exact (proj1 (elem_of_nil _) Hx)]].
  - by exists 1%positive.
  - by exists 2%positive.
Defined.

(** The check of the two password fields against a registry that has only
    [pw1]: the lookup error names [pw2], the positional reference is
    already the field, the keyword reference is still the name, and the
    binding cannot be called. *)
Lemma failed_resolution_stays_unresolved_witness :
  ∃ s',
    ActionWrapper_resolve_attr_names (gmap string oid) registry_get_by_attr
      {["pw1" := 1%positive]} passwords_declared
    = (Raise (Exn KeyError "pw2"), s')
    ∧ resolved s'.1 = false
    ∧ args s'.1 = [Field 1%positive]
    ∧ kwargs s'.1 !! "other" = Some (Name "pw2")
    ∧ ActionWrapper__call__ s' = (Raise not_resolved, s').
Proof.
  pose (s' := (ActionWrapper_resolve_attr_names (gmap string oid)
                 registry_get_by_attr {["pw1" := 1%positive]}
                 passwords_declared).2).
  assert (resolved passwords_declared.1 = false) as Hflag by by_evaluation.
  assert (ActionWrapper_resolve_attr_names (gmap string oid)
            registry_get_by_attr {["pw1" := 1%positive]} passwords_declared
          = (Raise (Exn KeyError "pw2"), s')) as Hrun by by_evaluation.
  assert (args s'.1 = [Field 1%positive]) as Hargs by by_evaluation.
  assert (kwargs s'.1 !! "other" = Some (Name "pw2")) as Hkwargs
    by by_evaluation.
  destruct (failed_resolution_stays_unresolved (gmap string oid)
              registry_get_by_attr {["pw1" := 1%positive]} passwords_declared
              (Exn KeyError "pw2") s' Hflag Hrun)
    as (_ & Hflag' & Hcall & _).
  exists s'. repeat split; assumption.
Defined.

(** A check that refers to no field is ready when nothing is visited; the
    check of the two password fields is not. *)
Lemma readiness_at_the_edges_witness :
  Check_node_visited own_name ∅
    (set_resolved true (ActionWrapper__init__ returns_None [] ∅), initial_world)
  = (Return true,
     (set_resolved true (ActionWrapper__init__ returns_None [] ∅),
      initial_world))
  ∧ Check_node_visited own_name ∅ passwords_resolved
    = (Return false, passwords_resolved).
Proof.
  split.
  - destruct (readiness_at_the_edges own_name
                (set_resolved true (ActionWrapper__init__ returns_None [] ∅),
                 initial_world) eq_refl) as [Hnone _].
    apply Hnone. reflexivity.
  - assert (resolved passwords_resolved.1 = true) as Hflag by by_evaluation.
    assert (referenced passwords_resolved.1
            = [Field 1%positive; Field 2%positive]) as Hrefs by by_evaluation.
    assert (own_name passwords_resolved.2 1%positive = Return ["pw1"])
      as Hpw1 by by_evaluation.
    assert (own_name passwords_resolved.2 2%positive = Return ["pw2"])
      as Hpw2 by by_evaluation.
    destruct (readiness_at_the_edges own_name passwords_resolved Hflag)
      as [_ Hsome].
    destruct Hsome as [Hnothing _].
    + intros r Hr. rewrite Hrefs in Hr.
      apply elem_of_cons in Hr as [->|Hr];
        [|apply elem_of_cons in Hr as [->|Hr];
          [|exfalso; exact (proj1 (elem_of_nil _) Hr)]].
      * exists 1%positive, ["pw1"]. split; [reflexivity|exact Hpw1].
      * exists 2%positive, ["pw2"]. split; [reflexivity|exact Hpw2].
    + apply Hnothing. rewrite Hrefs. discriminate.
Defined.

(** ** Construction *)

(** The store a construction leaves. *)
Lemma new_node_world cls kwargs w :
  new_node cls kwargs w
  = (Return (fresh (dom (objects w))),
     mk_world (lists w)
       (<[fresh (dom (objects w))
          := mk_instance cls
               (kwargs ∪ {["_create_counter" := VInt (create_counter w)]})]>
          (objects w))
       (create_counter w + 1)).
Proof.
  unfold new_node, Node__init__, setattr. run.
  unfold set_dict, set_create_counter, set_objects, the_object. simpl.
  rewrite !lookup_total_insert_eq. simpl.
  rewrite !insert_insert_eq, insert_empty. reflexivity.
Qed.

(** Only [_create_counter] reads the counter among the class attributes. *)
Lemma class_getattr_counter w w' c name :
  name ≠ "_create_counter" → class_getattr w c name = class_getattr w' c name.
Proof.
  intros Hne. unfold class_getattr.
  destruct c; cbn [mro foldr class_dict assoc];
    rewrite !(decide_False (P := name = "_create_counter")) by done;
    reflexivity.
Qed.

(** What a construction returns and leaves, attribute by attribute. *)
Lemma new_node_attributes cls kwargs w :
  ∃ self w',
    new_node cls kwargs w = (Return self, w')
    ∧ objects w !! self = None
    ∧ (∀ name,
          py_getattr w' self name
          = match kwargs !! name with
            | Some v => Some v
            | None =>
                if decide (name = "_create_counter")
                then Some (VInt (create_counter w))
                else class_getattr w cls name
            end)
    ∧ create_counter w' = create_counter w + 1
    ∧ lists w' = lists w
    ∧ ∀ o, o ≠ self → the_object w' o = the_object w o.
Proof.
  rewrite new_node_world. eexists _, _. split; [reflexivity|].
  split; [apply not_elem_of_dom, is_fresh|].
  split; [|split; [reflexivity|split; [reflexivity|]]].
  - intros name. unfold py_getattr, the_object. cbn [objects].
    rewrite lookup_total_insert_eq. cbn [inst_dict inst_class].
    rewrite lookup_union. destruct (kwargs !! name) as [v|].
    + by destruct (_ !! name).
    + destruct (decide (name = "_create_counter")) as [->|Hne].
      * by rewrite lookup_singleton_eq.
      * rewrite lookup_singleton_ne by done. cbn.
        by apply class_getattr_counter.
  - intros o Hne. unfold the_object. cbn [objects].
    by rewrite lookup_total_insert_ne.
Qed.

(** X12: a construction returns a node that was not in the store; an
    attribute of the new node reads the keyword argument of that name when
    there is one, otherwise the creation counter for [_create_counter] and
    the class attribute for any other name; the counter of the class has
    grown by one; and the lists and the other nodes are as they were. *)
Theorem constructed_node_reads_kwargs_then_class cls kwargs w :
  ∃ self w',
    new_node cls kwargs w = (Return self, w')
    ∧ objects w !! self = None
    ∧ (∀ name,
          py_getattr w' self name
          = match kwargs !! name with
            | Some v => Some v
            | None =>
                if decide (name = "_create_counter")
                then Some (VInt (create_counter w))
                else class_getattr w cls name
            end)
    ∧ create_counter w' = create_counter w + 1
    ∧ lists w' = lists w
    ∧ ∀ o, o ≠ self → the_object w' o = the_object w o.
Proof.
  destruct (new_node_attributes cls kwargs w)
    as (self & w' & Hnew & Hfresh & Hattrs & Hcounter & Hlists & Hframe).
  exists self, w'. repeat split; done.
Qed.

(** X13: of two nodes built one after the other, neither with a
    [_create_counter] keyword, the second is another node and its
    [_create_counter] is one more than that of the first. *)
Theorem creation_counter_orders_nodes cls1 kwargs1 cls2 kwargs2 w :
  kwargs1 !! "_create_counter" = None →
  kwargs2 !! "_create_counter" = None →
  ∃ a b w',
    (a ← new_node cls1 kwargs1; b ← new_node cls2 kwargs2; mret (a, b)) w
    = (Return (a, b), w')
    ∧ a ≠ b
    ∧ py_getattr w' a "_create_counter" = Some (VInt (create_counter w))
    ∧ py_getattr w' b "_create_counter" = Some (VInt (create_counter w + 1)).
Proof.
  intros Hkw1 Hkw2. run. rewrite new_node_world. cbn beta iota.
  rewrite new_node_world. cbn [objects lists create_counter].
  set (a := fresh (dom (objects w))).
  set (first := mk_instance cls1 _).
  set (b := fresh (dom (<[a := first]> (objects w)))).
  assert (a ≠ b) as Hne.
  { intros Heq. apply (is_fresh (dom (<[a := first]> (objects w)))).
    fold b. rewrite <- Heq. apply elem_of_dom. rewrite lookup_insert_eq. eauto. }
  eexists a, b, _. split; [reflexivity|]. split; [done|].
  unfold py_getattr, the_object. cbn [objects].
  rewrite lookup_total_insert_ne, !lookup_total_insert_eq by done.
  unfold first. cbn [inst_dict].
  rewrite !lookup_union, Hkw1, Hkw2, !lookup_singleton_eq. done.
Qed.

(** Two entry fields built on the module as loaded: counters 0 and 1. *)
Lemma creation_counter_orders_nodes_witness :
  ∃ a b w',
    (a ← new_node EntryNode ∅; b ← new_node SubmitNode ∅; mret (a, b))
      initial_world
    = (Return (a, b), w')
    ∧ a ≠ b
    ∧ py_getattr w' a "_create_counter" = Some (VInt 0)
    ∧ py_getattr w' b "_create_counter" = Some (VInt 1).
Proof.
  exact (creation_counter_orders_nodes EntryNode ∅ SubmitNode ∅ initial_world
           (lookup_empty _) (lookup_empty _)).
Defined.

(** ** [set_identifiers], again *)

(** After a call that returned, the three identifiers can be read. *)
Lemma Node_set_identifiers_sets_all py_repr cap w self p w' :
  Node_set_identifiers py_repr cap self p w = (Return tt, w') →
  is_Some (py_getattr w' self "id")
  ∧ is_Some (py_getattr w' self "name")
  ∧ is_Some (py_getattr w' self "title").
Proof.
  destruct (py_getattr_attr_name w self) as [a Ha].
  unfold Node_set_identifiers, hasattr, getattr, setattr, getattr_in,
    py_capitalize.
  run.
  destruct (py_getattr w self "id") as [vi|] eqn:Hi; simpl.
  all: destruct (py_getattr w self "name") as [vn|] eqn:Hnm; simpl.
  all: destruct (py_getattr w self "title") as [vt|] eqn:Ht; simpl.
  all: repeat (rewrite ?Ha, ?Hi, ?Hnm, ?Ht, ?py_getattr_set_eq; simpl;
               try (rewrite py_getattr_set_ne by discriminate)).
  all: try (destruct a as [[| | |n]| | |]; simpl).
  all: intros [= <-].
  all: repeat (rewrite ?Hi, ?Hnm, ?Ht, ?py_getattr_set_eq;
               try (rewrite py_getattr_set_ne by discriminate)).
  all: eauto.
Qed.

(** On a node whose three identifiers can be read, the method changes
    nothing. *)
Lemma Node_set_identifiers_noop py_repr cap w self p :
  is_Some (py_getattr w self "id") →
  is_Some (py_getattr w self "name") →
  is_Some (py_getattr w self "title") →
  Node_set_identifiers py_repr cap self p w = (Return tt, w).
Proof.
  intros [vi Hi] [vn Hn] [vt Ht]. unfold Node_set_identifiers, hasattr. run.
  rewrite Hi; simpl. rewrite Hn; simpl. by rewrite Ht.
Qed.

(** X14: once [Node.set_identifiers] has returned, a second call, with the
    same parent name or another, returns and changes nothing: the
    identifiers derived from the first parent name stay. *)
Theorem set_identifiers_only_once py_repr cap w self p w' :
  Node_set_identifiers py_repr cap self p w = (Return tt, w') →
  ∀ p', Node_set_identifiers py_repr cap self p' w' = (Return tt, w').
Proof.
  intros Hfirst p'.
  destruct (Node_set_identifiers_sets_all _ _ _ _ _ _ Hfirst)
    as (Hid & Hname & Htitle).
  by apply Node_set_identifiers_noop.
Qed.

(** The password field of the form [login], asked again with the parent
    name [signup]: the id stays [login_password]. *)
Lemma set_identifiers_only_once_witness :
  ∃ w',
    Node_set_identifiers plain_repr plain_capitalize 1%positive "signup"
      (password_of_login initial_world).2
    = (Return tt, w')
    ∧ py_getattr w' 1%positive "id" = Some (VStr "login_password").
Proof.
  pose (w0 := (new_node EntryNode ∅;;
               setattr 1%positive "_attr_name" (VStr "password"))
                initial_world).
  assert (Node_set_identifiers plain_repr plain_capitalize 1%positive "login" w0.2
          = (Return tt, (password_of_login initial_world).2)) as Hfirst
    by by_evaluation.
  assert (py_getattr (password_of_login initial_world).2 1%positive "id"
          = Some (VStr "login_password")) as Hid by by_evaluation.
  exists (password_of_login initial_world).2. split; [|exact Hid].
  exact (set_identifiers_only_once plain_repr plain_capitalize w0.2 1%positive "login" _
           Hfirst "signup").
Defined.

(** X15: on a node whose [_attr_name] is no string (it is [None] until the
    form assigns it) and that has no title, [Node.set_identifiers] raises
    the [AttributeError] of [capitalize]; by then it has given the node,
    where they were missing, an id made of the parent name and the text of
    [_attr_name], and [_attr_name] itself as name.  The title is still
    missing. *)
Theorem set_identifiers_fails_late_without_attr_name py_repr cap w self p a :
  py_getattr w self "_attr_name" = Some a →
  (∀ s, a ≠ VStr s) →
  py_getattr w self "title" = None →
  ∃ w',
    Node_set_identifiers py_repr cap self p w
    = (Raise (no_attribute (type_name a) "capitalize"), w')
    ∧ py_getattr w' self "id"
      = Some (default (VStr (p +:+ "_" +:+ py_str py_repr w a))
                (py_getattr w self "id"))
    ∧ py_getattr w' self "name" = Some (default a (py_getattr w self "name"))
    ∧ py_getattr w' self "title" = None.
Proof.
  intros Ha Hnostr Ht.
  unfold Node_set_identifiers, hasattr, getattr, setattr, getattr_in,
    py_capitalize.
  run.
  destruct (py_getattr w self "id") as [vi|] eqn:Hi; simpl.
  all: destruct (py_getattr w self "name") as [vn|] eqn:Hnm; simpl.
  all: repeat (rewrite ?Ha, ?Hi, ?Hnm, ?Ht, ?py_getattr_set_eq; simpl;
               try (rewrite py_getattr_set_ne by discriminate)).
  all: destruct a as [[| | |n]| | |]; simpl; try (by destruct (Hnostr n)).
  all: eexists; split; [reflexivity|].
  all: repeat (rewrite ?Hi, ?Hnm, ?Ht, ?py_getattr_set_eq;
               try (rewrite py_getattr_set_ne by discriminate)).
  all: done.
Qed.

(** A node the form never named, asked for its identifiers with the
    parent name [login]. *)
Lemma set_identifiers_fails_late_without_attr_name_witness :
  ∃ w',
    Node_set_identifiers plain_repr plain_capitalize 1%positive "login"
      (new_node EntryNode ∅ initial_world).2
    = (Raise (no_attribute "NoneType" "capitalize"), w')
    ∧ py_getattr w' 1%positive "id" = Some (VStr "login_None")
    ∧ py_getattr w' 1%positive "name" = Some VNone
    ∧ py_getattr w' 1%positive "title" = None.
Proof.
  pose (w := (new_node EntryNode ∅ initial_world).2). fold w.
  assert (py_getattr w 1%positive "_attr_name" = Some VNone) as Ha
    by by_evaluation.
  assert (py_getattr w 1%positive "title" = None) as Ht by by_evaluation.
  assert (py_getattr w 1%positive "id" = None) as Hi by by_evaluation.
  assert (py_getattr w 1%positive "name" = None) as Hn by by_evaluation.
  destruct (set_identifiers_fails_late_without_attr_name plain_repr
              plain_capitalize w
              1%positive "login" VNone Ha) as (w' & Hrun & Hid & Hname & Htitle);
    [discriminate|exact Ht|].
  rewrite Hi in Hid. rewrite Hn in Hname.
  exists w'. repeat split; assumption.
Defined.

(** ** [resolve_data] and [get_context] together *)

(** X16: on a node that has no [name] attribute, or whose [name] is a
    list or a dict and so cannot be a key, [resolve_data] raises
    [FormDataAccessException] whatever the submission holds, and changes
    nothing: a node cannot take its data before it has been given a
    name. *)
Theorem resolve_data_needs_a_name py_repr w self data :
  py_getattr w self "name" = None
  ∨ (∃ l, py_getattr w self "name" = Some (VList l))
  ∨ (∃ items, py_getattr w self "name" = Some (VDict items)) →
  Node_resolve_data py_repr self data w
  = (Raise (Exn FormDataAccessException ""), w).
Proof.
  intros Hname.
  unfold Node_resolve_data, try_except_all, getattr, setattr, py_getitem,
    getattr_in.
  run.
  destruct Hname as [->|[[l ->]|[items ->]]]; reflexivity.
Qed.

(** A node built without a name, and a submission with the keys of the
    form. *)
Lemma resolve_data_needs_a_name_witness :
  Node_resolve_data plain_repr 1%positive bob_empty_password
    (new_node EntryNode ∅ initial_world).2
  = (Raise (Exn FormDataAccessException ""),
     (new_node EntryNode ∅ initial_world).2).
Proof.
  assert (py_getattr (new_node EntryNode ∅ initial_world).2 1%positive "name"
          = None) as Hname by by_evaluation.
  apply resolve_data_needs_a_name. left. exact Hname.
Defined.

(** A context [get_context] returns is the harvested dict with [g]. *)
Lemma get_context_in_Return py_repr w self g d :
  get_context_in py_repr w self g = Return d →
  ∃ harvested,
    harvest w self (py_dir w self) ∅ = Return harvested
    ∧ d = <["g" := g]> harvested.
Proof.
  unfold get_context_in.
  destruct (harvest w self (py_dir w self) ∅) as [harvested|]; [|done].
  simpl. destruct (getattr_in w self "_requires") as [requires|]; [|done].
  simpl. destruct (py_iter w requires) as [items|]; [|done].
  simpl. destruct (check_requires py_repr w harvested items); [|done].
  intros [= <-]. eauto.
Qed.

(** With a list for [_ignores], a key of the returned context other than
    [g] is bound exactly when it is an attribute that is neither private
    nor ignored. *)
Lemma get_context_in_lookup py_repr w self g d li k :
  py_getattr w self "_ignores" = Some (VList li) →
  get_context_in py_repr w self g = Return d →
  k ≠ "g" →
  d !! k = if decide (str_startswith k "_" = false ∧ VStr k ∉ the_list w li)
           then py_getattr w self k else None.
Proof.
  intros Hignores Hcontext Hk.
  apply get_context_in_Return in Hcontext as (harvested & Hharvest & ->).
  rewrite lookup_insert_ne by done.
  destruct (harvest_lookup w self li (py_dir w self) ∅ Hignores)
    as (harvested' & Hharvest' & Hlookup).
  { intros k'. apply py_dir_getattr. }
  rewrite Hharvest in Hharvest'. injection Hharvest' as <-.
  rewrite Hlookup. destruct (py_getattr w self k) as [v|] eqn:Hattr.
  - assert (k ∈ py_dir w self) by (apply py_dir_getattr; eauto).
    repeat destruct (decide _) as [?|?]; try done; exfalso; tauto.
  - rewrite lookup_empty. by repeat destruct (decide _).
Qed.

(** X17: in the context of a node just built, a keyword argument of the
    constructor is bound to its value under its own name, unless the name
    starts with an underscore or is listed in [_ignores], in which case it
    is left out, or is [g], which holds the global context instead. *)
Theorem keyword_arguments_reach_the_context py_repr cls kwargs w self w'
    g d li :
  new_node cls kwargs w = (Return self, w') →
  py_getattr w' self "_ignores" = Some (VList li) →
  get_context_in py_repr w' self g = Return d →
  ∀ k v,
    kwargs !! k = Some v →
    d !! k
    = if decide (k = "g") then Some g
      else if decide (str_startswith k "_" = false ∧ VStr k ∉ the_list w' li)
           then Some v else None.
Proof.
  intros Hnew Hignores Hcontext k v Hk.
  destruct (decide (k = "g")) as [->|Hne].
  { apply get_context_in_Return in Hcontext as (harvested & _ & ->).
    apply lookup_insert_eq. }
  rewrite (get_context_in_lookup _ _ _ _ _ _ _ Hignores Hcontext Hne).
  destruct (new_node_attributes cls kwargs w)
    as (self0 & w0 & Hnew0 & _ & Hattrs & _).
  rewrite Hnew in Hnew0. injection Hnew0 as <- <-.
  by rewrite Hattrs, Hk.
Qed.

(** X18: after [resolve_data] has bound a submitted value, a context
    [get_context] returns holds that value under [data], provided [data]
    is not listed in the [_ignores] list of the node. *)
Theorem submitted_data_reaches_the_context py_repr w self data n v :
  py_getattr w self "name" = Some (VStr n) →
  data !! n = Some v →
  ∃ w',
    Node_resolve_data py_repr self data w = (Return tt, w')
    ∧ ∀ g d li,
        py_getattr w' self "_ignores" = Some (VList li) →
        VStr "data" ∉ the_list w' li →
        get_context_in py_repr w' self g = Return d →
        d !! "data" = Some v.
Proof.
  intros Hname Hdata.
  unfold Node_resolve_data, try_except_all, getattr, setattr, py_getitem,
    getattr_in.
  run. rewrite Hname. simpl. rewrite Hdata.
  eexists. split; [reflexivity|].
  intros g d li Hignores Hlisted Hcontext.
  rewrite (get_context_in_lookup _ _ _ _ _ _ "data" Hignores Hcontext)
    by discriminate.
  rewrite decide_True by done. apply py_getattr_set_eq.
Qed.

(** An entry field built with a placeholder, a private hint and a template
    of its own: the context has the placeholder and neither of the other
    two. *)
Lemma keyword_arguments_reach_the_context_witness :
  ∃ d,
    get_context_in plain_repr (new_node EntryNode entry_keywords initial_world).2
      1%positive VNone = Return d
    ∧ d !! "placeholder" = Some (VStr "Your name")
    ∧ d !! "_hint" = None
    ∧ d !! "template" = None.
Proof.
  pose (w' := (new_node EntryNode entry_keywords initial_world).2). fold w'.
  assert (new_node EntryNode entry_keywords initial_world
          = (Return 1%positive, w')) as Hnew by by_evaluation.
  assert (py_getattr w' 1%positive "_ignores" = Some (VList Node__ignores))
    as Hignores by by_evaluation.
  assert (the_list w' Node__ignores = [VStr "template"; VStr "validator"])
    as Hlisted by by_evaluation.
  assert ((if get_context_in plain_repr w' 1%positive VNone
           is Return _ then true else false) = true) as Hreturns
    by by_evaluation.
  revert Hreturns.
  destruct (get_context_in plain_repr w' 1%positive VNone) as [d|e]
    eqn:Hcontext; intros Hreturns; [|discriminate Hreturns].
  pose proof (keyword_arguments_reach_the_context plain_repr EntryNode
                entry_keywords initial_world 1%positive w' VNone d
                Node__ignores Hnew Hignores Hcontext) as Hkeys.
  exists d. split; [reflexivity|].
  split; [|split].
  - rewrite (Hkeys "placeholder" (VStr "Your name")) by reflexivity.
    rewrite decide_False by discriminate.
    rewrite decide_True; [reflexivity|].
    split; [reflexivity|]. rewrite Hlisted, !elem_of_cons, elem_of_nil.
    intros [[=]|[[=]|[]]].
  - rewrite (Hkeys "_hint" (VStr "x")) by reflexivity.
    rewrite decide_False by discriminate.
    rewrite decide_False; [reflexivity|]. intros [[=] _].
  - rewrite (Hkeys "template" (VStr "mine")) by reflexivity.
    rewrite decide_False by discriminate.
    rewrite decide_False; [reflexivity|]. intros [_ Hnot]. apply Hnot.
    rewrite Hlisted. apply elem_of_cons. auto.
Defined.

(** The password field of the form [login] and a submission with an empty
    password: the context has the empty string under [data]. *)
Lemma submitted_data_reaches_the_context_witness :
  ∃ w' d,
    Node_resolve_data plain_repr 1%positive bob_empty_password
      (password_of_login initial_world).2 = (Return tt, w')
    ∧ get_context_in plain_repr w' 1%positive VNone = Return d
    ∧ d !! "data" = Some (VStr "").
Proof.
  pose (w := (password_of_login initial_world).2). fold w.
  pose (w1 := (Node_resolve_data plain_repr 1%positive bob_empty_password w).2).
  assert (py_getattr w 1%positive "name" = Some (VStr "password")) as Hname
    by by_evaluation.
  assert (bob_empty_password !! "password" = Some (VStr "")) as Hdata
    by by_evaluation.
  assert (py_getattr w1 1%positive "_ignores" = Some (VList Node__ignores))
    as Hignores by by_evaluation.
  assert (the_list w1 Node__ignores = [VStr "template"; VStr "validator"])
    as Hlisted by by_evaluation.
  assert ((if get_context_in plain_repr w1 1%positive VNone
           is Return _ then true else false) = true) as Hreturns
    by by_evaluation.
  destruct (submitted_data_reaches_the_context plain_repr w 1%positive
              bob_empty_password "password" (VStr "") Hname Hdata)
    as (w' & Hrun & Hcontext).
  assert (w1 = w') as Hw by (unfold w1; rewrite Hrun; reflexivity).
  rewrite <- Hw in Hrun, Hcontext. clear Hw w'.
  revert Hreturns.
  destruct (get_context_in plain_repr w1 1%positive VNone) as [d|e]
    eqn:Hd; intros Hreturns; [|discriminate Hreturns].
  exists w1, d. split; [exact Hrun|]. split; [exact Hd|].
  apply (Hcontext VNone d Node__ignores Hignores); [|exact Hd].
  rewrite Hlisted, !elem_of_cons, elem_of_nil.
  intros [[=]|[[=]|[]]].
Defined.

(** ** The classes of [nodes.py] *)

(** The context [get_context] returns or the exception it raises, on a node
    whose [_ignores] and [_requires] are lists. *)
Lemma get_context_in_lists py_repr w self g li lr :
  py_getattr w self "_ignores" = Some (VList li) →
  py_getattr w self "_requires" = Some (VList lr) →
  ∃ harvested,
    (∀ k, harvested !! k =
          if decide (str_startswith k "_" = false ∧ VStr k ∉ the_list w li)
          then py_getattr w self k else None)
    ∧ get_context_in py_repr w self g
      = match check_requires py_repr w harvested (the_list w lr) with
        | Return _ => Return (<["g" := g]> harvested)
        | Raise e => Raise e
        end.
Proof.
  intros Hignores Hrequires.
  destruct (harvest_lookup w self li (py_dir w self) ∅ Hignores)
    as (harvested & Hharvest & Hlookup).
  { intros k. apply py_dir_getattr. }
  exists harvested. split.
  - intros k. rewrite Hlookup.
    destruct (py_getattr w self k) as [v|] eqn:Hk.
    + assert (k ∈ py_dir w self) by (apply py_dir_getattr; eauto).
      repeat destruct (decide _) as [?|?]; try done; exfalso; tauto.
    + rewrite lookup_empty. by repeat destruct (decide _).
  - unfold get_context_in. rewrite Hharvest. simpl.
    rewrite (getattr_in_Some _ _ _ _ Hrequires). simpl.
    by destruct (check_requires py_repr w harvested (the_list w lr)) as [[]|].
Qed.

(** X19: with the class lists as the module binds them, the context of a
    node just built, of any class and with any keyword arguments that do
    not replace [_ignores] or [_requires], can always be had, with one
    exception: a [ListNode] built without [items], for which [get_context]
    raises [InvalidContextException] and names [items]. *)
Theorem only_a_list_without_items_has_no_context py_repr cls kwargs w self w'
    g :
  the_list w Node__requires = [] →
  the_list w ListNode__requires = [VStr "items"] →
  the_list w Node__ignores = [VStr "template"; VStr "validator"] →
  kwargs !! "_requires" = None →
  kwargs !! "_ignores" = None →
  new_node cls kwargs w = (Return self, w') →
  match get_context_in py_repr w' self g with
  | Return d =>
      (cls = ListNode → d !! "items" = kwargs !! "items"
                        ∧ is_Some (kwargs !! "items"))
      ∧ d !! "g" = Some g
  | Raise e =>
      cls = ListNode
      ∧ kwargs !! "items" = None
      ∧ e = Exn InvalidContextException
              "Missing required context value 'items'"
  end.
Proof.
  intros Hnone Hitems Hlisted Hkwr Hkwi Hnew.
  destruct (new_node_attributes cls kwargs w)
    as (self0 & w0 & Hnew0 & _ & Hattrs & _ & Hlists & _).
  rewrite Hnew in Hnew0. injection Hnew0 as <- <-.
  assert (∀ l, the_list w' l = the_list w l) as Hsame.
  { intros l. unfold the_list. by rewrite Hlists. }
  assert (py_getattr w' self "_ignores" = Some (VList Node__ignores))
    as Hignores.
  { rewrite Hattrs, Hkwi. by destruct cls. }
  assert (py_getattr w' self "items" = kwargs !! "items") as Hattr.
  { rewrite Hattrs. destruct (kwargs !! "items"); [done|]. by destruct cls. }
  assert (∃ lr, py_getattr w' self "_requires" = Some (VList lr)
                ∧ the_list w lr
                  = if decide (cls = ListNode) then [VStr "items"] else [])
    as (lr & Hrequires & Hlr).
  { rewrite Hattrs, Hkwr.
    destruct cls; eexists; (split; [reflexivity|]);
      rewrite ?decide_True, ?decide_False by done; done. }
  destruct (get_context_in_lists py_repr w' self g _ _ Hignores Hrequires)
    as (harvested & Hkeys & ->).
  rewrite Hsame, Hlr.
  destruct (decide (cls = ListNode)) as [->|Hother].
  - cbn [check_requires py_in_dict]. unfold mbind, outcome_bind. cbn beta iota.
    assert (harvested !! "items" = kwargs !! "items") as Hharvested.
    { rewrite Hkeys, decide_True, Hattr; [done|].
      split; [reflexivity|]. rewrite Hsame, Hlisted, !elem_of_cons, elem_of_nil.
      intros [[=]|[[=]|[]]]. }
    rewrite Hharvested.
    destruct (kwargs !! "items") as [v|] eqn:Hkw.
    + rewrite bool_decide_eq_true_2 by eauto. cbn.
      rewrite lookup_insert_eq, lookup_insert_ne by done. eauto.
    + rewrite bool_decide_eq_false_2 by (by intros [? ?]). cbn. done.
  - cbn. split; [done|]. apply lookup_insert_eq.
Qed.

(** A list without items on the module as loaded. *)
Lemma only_a_list_without_items_has_no_context_witness :
  get_context_in plain_repr (new_node ListNode ∅ initial_world).2 1%positive
    VNone
  = Raise (Exn InvalidContextException
             "Missing required context value 'items'").
Proof.
  pose (w' := (new_node ListNode ∅ initial_world).2). fold w'.
  assert (new_node ListNode ∅ initial_world = (Return 1%positive, w'))
    as Hnew by by_evaluation.
  assert ((if get_context_in plain_repr w' 1%positive VNone
           is Return _ then false else true) = true) as Hraises
    by by_evaluation.
  pose proof (only_a_list_without_items_has_no_context plain_repr ListNode ∅
                initial_world 1%positive w' VNone
                ltac:(by_evaluation) ltac:(by_evaluation) ltac:(by_evaluation)
                (lookup_empty _) (lookup_empty _) Hnew) as Hcontext.
  revert Hraises Hcontext.
  destruct (get_context_in plain_repr w' 1%positive VNone) as [d|e];
    intros Hraises Hcontext; [discriminate Hraises|].
  destruct Hcontext as (_ & _ & ->). reflexivity.
Defined.

(** ** What [set_identifiers] leaves alone *)

Lemma differ_only_in_refl names self w : differ_only_in names self w w.
Proof. by repeat split. Qed.

Lemma differ_only_in_set names self name v w w1 :
  name ∈ names →
  differ_only_in names self w w1 →
  differ_only_in names self w (set_dict <[name := v]> self w1).
Proof.
  intros Hin (Hlists & Hcounter & Hothers & Hclass & Hdict).
  split; [exact Hlists|]. split; [exact Hcounter|]. split; [|split].
  - intros o Hne. rewrite the_object_set_dict_ne by done. by apply Hothers.
  - rewrite the_object_set_dict. exact Hclass.
  - intros k Hk. rewrite the_object_set_dict. cbn [inst_dict].
    rewrite lookup_insert_ne by (by intros ->). by apply Hdict.
Qed.

Lemma differ_only_in_delete names self name w w1 :
  name ∈ names →
  differ_only_in names self w w1 →
  differ_only_in names self w (set_dict (delete name) self w1).
Proof.
  intros Hin (Hlists & Hcounter & Hothers & Hclass & Hdict).
  split; [exact Hlists|]. split; [exact Hcounter|]. split; [|split].
  - intros o Hne. rewrite the_object_set_dict_ne by done. by apply Hothers.
  - rewrite the_object_set_dict. exact Hclass.
  - intros k Hk. rewrite the_object_set_dict. cbn [inst_dict].
    rewrite lookup_delete_ne by (by intros ->). by apply Hdict.
Qed.

(** The class attributes read the same in two worlds with the same
    creation counter. *)
Lemma class_getattr_same_counter w w' c name :
  create_counter w' = create_counter w →
  class_getattr w' c name = class_getattr w c name.
Proof.
  intros Hcounter. unfold class_getattr.
  destruct c; cbn [mro foldr class_dict assoc]; by rewrite Hcounter.
Qed.

Lemma differ_only_in_getattr names self w w' k :
  differ_only_in names self w w' →
  k ∉ names →
  py_getattr w' self k = py_getattr w self k.
Proof.
  intros (_ & Hcounter & _ & Hclass & Hdict) Hk. unfold py_getattr.
  by rewrite (Hdict k Hk), Hclass, (class_getattr_same_counter w w').
Qed.

Lemma Node_set_identifiers_differ py_repr cap w self p r w' :
  Node_set_identifiers py_repr cap self p w = (r, w') →
  differ_only_in ["id"; "name"; "title"] self w w'.
Proof.
  destruct (py_getattr_attr_name w self) as [a Ha].
  unfold Node_set_identifiers, hasattr, getattr, setattr, getattr_in,
    py_capitalize.
  run.
  destruct (py_getattr w self "id") as [vi|] eqn:Hi; simpl.
  all: destruct (py_getattr w self "name") as [vn|] eqn:Hnm; simpl.
  all: destruct (py_getattr w self "title") as [vt|] eqn:Ht; simpl.
  all: repeat (rewrite ?Ha, ?Hi, ?Hnm, ?Ht, ?py_getattr_set_eq; simpl;
               try (rewrite py_getattr_set_ne by discriminate)).
  all: try (destruct a as [[| | |n]| | |]; simpl).
  all: intros [= <- <-].
  all: repeat (apply differ_only_in_set; [rewrite !elem_of_cons; auto|]).
  all: apply differ_only_in_refl.
Qed.

(** X20: [set_identifiers], of [Node] or of [LeaderNode], and whether it
    returns or raises, writes nothing but the [id], [name] and [title] of
    its own node: the lists, the creation counter and the other nodes are
    untouched, the node keeps its class, and every other attribute of the
    node reads as before. *)
Theorem set_identifiers_touches_only_identifiers py_repr cap w self p r w' :
  set_identifiers py_repr cap self p w = (r, w') →
  lists w' = lists w
  ∧ create_counter w' = create_counter w
  ∧ (∀ o, o ≠ self → the_object w' o = the_object w o)
  ∧ inst_class (the_object w' self) = inst_class (the_object w self)
  ∧ ∀ k, k ∉ ["id"; "name"; "title"] →
         py_getattr w' self k = py_getattr w self k.
Proof.
  intros Hrun.
  assert (differ_only_in ["id"; "name"; "title"] self w w') as Hdiffer.
  { unfold set_identifiers in Hrun.
    destruct (inst_class (the_object w self));
      try (by apply Node_set_identifiers_differ in Hrun).
    unfold LeaderNode_set_identifiers, delattr in Hrun. revert Hrun. run.
    destruct (Node_set_identifiers py_repr cap self p w) as [r1 w1] eqn:Hbase.
    apply Node_set_identifiers_differ in Hbase.
    destruct r1 as [[]|e]; [|by intros [= <- <-]].
    destruct (inst_dict (the_object w1 self) !! "title");
      intros [= <- <-]; [|done].
    apply differ_only_in_delete; [rewrite !elem_of_cons; auto|done]. }
  pose proof (fun k => differ_only_in_getattr _ _ _ _ k Hdiffer) as Hattrs.
  destruct Hdiffer as (Hlists & Hcounter & Hothers & Hclass & _).
  do 4 (split; [assumption|]). exact Hattrs.
Qed.

(** The leader of a form with a title of its own: after
    [set_identifiers] its template, its label and its attribute name read
    as before. *)
Lemma set_identifiers_touches_only_identifiers_witness :
  ∃ w',
    set_identifiers plain_repr plain_capitalize 1%positive "signup"
      (leader_with_title initial_world).2 = (Return tt, w')
    ∧ py_getattr w' 1%positive "_attr_name" = Some (VStr "start")
    ∧ lists w' = lists initial_world.
Proof.
  pose (w := (leader_with_title initial_world).2). fold w.
  pose (w1 := (set_identifiers plain_repr plain_capitalize 1%positive "signup" w).2).
  assert (set_identifiers plain_repr plain_capitalize 1%positive "signup" w = (Return tt, w1))
    as Hrun by by_evaluation.
  assert (py_getattr w 1%positive "_attr_name" = Some (VStr "start")) as Hname
    by by_evaluation.
  assert (lists w = lists initial_world) as Hlists by by_evaluation.
  destruct (set_identifiers_touches_only_identifiers plain_repr
              plain_capitalize w 1%positive
              "signup" (Return tt) w1 Hrun)
    as (Hlists1 & _ & _ & _ & Hattrs).
  exists w1. split; [exact Hrun|]. split.
  - rewrite Hattrs; [exact Hname|].
    rewrite !elem_of_cons, elem_of_nil. intros [[=]|[[=]|[[=]|[]]]].
  - rewrite Hlists1. exact Hlists.
Defined.
